(** * Workshop sketches: cooperative timing and the small state machines

    A shallow embedding of the Arduino sketches of the workshop: the LED
    blink (phase 1), the button and buzzer (phase 2), the proximity alarm
    (phase 3), the security keypad (phase 4) and the stepper motor
    automation (phase 5).  Globals of a sketch become the fields of a
    record, every function of a sketch becomes a function on that record,
    pin writes and Serial lines become fields and log entries.

    The first half of the file holds the embedding, the second half the
    properties. *)

From Stdlib Require Import ZArith List Bool String Ascii Lia Sorted.
Import ListNotations.
Open Scope Z_scope.

(* ================================================================== *)
(** * Part I.  The embedding                                           *)
(* ================================================================== *)

(** ** The board: integer widths, the clock, [map] *)

Module Arduino.

(** [unsigned long] on the Uno is 32 bits wide: arithmetic is modulo 2^32. *)
Definition ulong (x : Z) : Z := x mod 2 ^ 32.

(** [long] is 32 bits, two's complement. *)
Definition long (x : Z) : Z := (x + 2 ^ 31) mod 2 ^ 32 - 2 ^ 31.

(** [int] is 16 bits, two's complement (the AVR wraps on overflow). *)
Definition int (x : Z) : Z := (x + 2 ^ 15) mod 2 ^ 16 - 2 ^ 15.

(** The subtraction [a - b] of two [unsigned long] timestamps. *)
Definition usub (a b : Z) : Z := ulong (a - b).

(** Modelled from the spec: the millisecond clock [millis()] belongs to the
    Arduino core, not to the sketches.  It counts the milliseconds since
    reset and only increases; the sketches read it into an [unsigned long],
    which holds the count modulo 2^32.  [t] is the time since reset in
    microseconds. *)
Definition millis (t : Z) : Z := ulong (t / 1000).

(** [delay(ms)] and [delayMicroseconds(us)] busy-wait: they move the time
    since reset forward and do nothing else. *)
Definition delay (ms : Z) (t : Z) : Z := t + 1000 * ms.
Definition delayMicroseconds (us : Z) (t : Z) : Z := t + us.

(** [long map(long x, long in_min, long in_max, long out_min, long out_max)]
    of the core: integer arithmetic on [long], division truncating. *)
Definition map (x in_min in_max out_min out_max : Z) : Z :=
  long (Z.quot (long (long (x - in_min) * long (out_max - out_min)))
               (long (in_max - in_min)) + out_min).

(** [min(a, b)] of the core. *)
Definition min (a b : Z) : Z := if a <? b then a else b.

(** Reading [a[i]]; [None] stands for an access outside the array. *)
Definition index {A : Type} (a : list A) (i : Z) : option A :=
  if i <? 0 then None else nth_error a (Z.to_nat i).

(** Writing [a[i] = v]. *)
Fixpoint update_nat {A : Type} (a : list A) (n : nat) (v : A) : list A :=
  match a, n with
  | [], _ => []
  | _ :: r, O => v :: r
  | x :: r, S m => x :: update_nat r m v
  end.

Definition update {A : Type} (a : list A) (i : Z) (v : A) : list A :=
  if i <? 0 then a else update_nat a (Z.to_nat i) v.

(** The arithmetic of the board is unfolded only on request. *)
#[global] Arguments ulong : simpl never.
#[global] Arguments long : simpl never.
#[global] Arguments int : simpl never.
#[global] Arguments usub : simpl never.
#[global] Arguments millis : simpl never.
#[global] Arguments map : simpl never.

End Arduino.

(** ** Phase 1: LED blink *)

Module Blink.
Import Arduino.

Definition BLINK_INTERVAL : Z := 500.
Definition serialUpdateInterval : Z := 500.

Inductive Event : Type :=
| SerialLedState (on : bool) (elapsed : Z).

Record state : Type := mkState {
  previousBlinkTime : Z;
  ledState : bool;
  startTime : Z;
  lastSerialUpdate : Z;
  pin_led : bool;
  clock : Z;                 (* time since reset, microseconds *)
  log : list Event           (* Serial lines, newest first *)
}.

Definition set_previousBlinkTime (v : Z) (s : state) : state :=
  mkState v (ledState s) (startTime s) (lastSerialUpdate s) (pin_led s) (clock
    s) (log s).
Definition set_ledState (v : bool) (s : state) : state :=
  mkState (previousBlinkTime s) v (startTime s) (lastSerialUpdate s) (pin_led
    s) (clock s) (log s).
Definition set_startTime (v : Z) (s : state) : state :=
  mkState (previousBlinkTime s) (ledState s) v (lastSerialUpdate s) (pin_led
    s) (clock s) (log s).
Definition set_lastSerialUpdate (v : Z) (s : state) : state :=
  mkState (previousBlinkTime s) (ledState s) (startTime s) v (pin_led s)
    (clock s) (log s).
Definition set_pin_led (v : bool) (s : state) : state :=
  mkState (previousBlinkTime s) (ledState s) (startTime s) (lastSerialUpdate
    s) v (clock s) (log s).
Definition set_clock (v : Z) (s : state) : state :=
  mkState (previousBlinkTime s) (ledState s) (startTime s) (lastSerialUpdate
    s) (pin_led s) v (log s).
Definition set_log (v : list Event) (s : state) : state :=
  mkState (previousBlinkTime s) (ledState s) (startTime s) (lastSerialUpdate
    s) (pin_led s) (clock s) v.

(** State after [setup()] finished at time [t]. *)
Definition setup (t : Z) : state :=
  mkState 0 false (millis t) 0 false t [].

Definition blinkLED (s : state) : state :=
  let currentTime := millis (clock s) in
  if BLINK_INTERVAL <=? usub currentTime (previousBlinkTime s) then
    let s := set_ledState (negb (ledState s)) s in
    let s := set_pin_led (ledState s) s in
    set_previousBlinkTime currentTime s
  else s.

Definition updateSerial (s : state) : state :=
  let elapsedTime := usub (millis (clock s)) (startTime s) in
  set_log (SerialLedState (ledState s) elapsedTime :: log s) s.

(** One pass through [loop()]; [idle] microseconds have gone by since the
    previous pass returned. *)
Definition loop (idle : N) (s : state) : state :=
  let s := set_clock (clock s + Z.of_N idle) s in
  let currentTime := millis (clock s) in
  let s := blinkLED s in
  let s :=
    if serialUpdateInterval <=? usub currentTime (lastSerialUpdate s) then
      set_lastSerialUpdate currentTime (updateSerial s)
    else s in
  set_clock (delay 10 (clock s)) s.

Definition run (idles : list N) (s : state) : state :=
  fold_left (fun s idle => loop idle s) idles s.


End Blink.

(** ** Phase 2: button and buzzer *)

Module Button.
Import Arduino.

Definition BUZZER_BEEP_DURATION : Z := 200.

Inductive Event : Type :=
| SerialButtonPressed (led : bool).

Record state : Type := mkState {
  ledState : bool;
  lastButtonState : bool;
  lastBeepTime : Z;
  buzzerActive : bool;
  pin_led : bool;
  pin_buzzer : bool;
  clock : Z;                 (* time since reset, microseconds *)
  log : list Event           (* Serial lines, newest first *)
}.

Definition set_ledState (v : bool) (s : state) : state :=
  mkState v (lastButtonState s) (lastBeepTime s) (buzzerActive s) (pin_led s)
    (pin_buzzer s) (clock s) (log s).
Definition set_lastButtonState (v : bool) (s : state) : state :=
  mkState (ledState s) v (lastBeepTime s) (buzzerActive s) (pin_led s)
    (pin_buzzer s) (clock s) (log s).
Definition set_lastBeepTime (v : Z) (s : state) : state :=
  mkState (ledState s) (lastButtonState s) v (buzzerActive s) (pin_led s)
    (pin_buzzer s) (clock s) (log s).
Definition set_buzzerActive (v : bool) (s : state) : state :=
  mkState (ledState s) (lastButtonState s) (lastBeepTime s) v (pin_led s)
    (pin_buzzer s) (clock s) (log s).
Definition set_pin_led (v : bool) (s : state) : state :=
  mkState (ledState s) (lastButtonState s) (lastBeepTime s) (buzzerActive s) v
    (pin_buzzer s) (clock s) (log s).
Definition set_pin_buzzer (v : bool) (s : state) : state :=
  mkState (ledState s) (lastButtonState s) (lastBeepTime s) (buzzerActive s)
    (pin_led s) v (clock s) (log s).
Definition set_clock (v : Z) (s : state) : state :=
  mkState (ledState s) (lastButtonState s) (lastBeepTime s) (buzzerActive s)
    (pin_led s) (pin_buzzer s) v (log s).
Definition set_log (v : list Event) (s : state) : state :=
  mkState (ledState s) (lastButtonState s) (lastBeepTime s) (buzzerActive s)
    (pin_led s) (pin_buzzer s) (clock s) v.

(** [lastButtonState] starts as [HIGH], which as a [bool] is [true]. *)
Definition setup (t : Z) : state :=
  mkState false true 0 false false false t [].

Definition toggleLED (s : state) : state :=
  let s := set_ledState (negb (ledState s)) s in
  let s := set_pin_led (ledState s) s in
  set_log (SerialButtonPressed (ledState s) :: log s) s.

Definition triggerBuzzer (s : state) : state :=
  let s := set_pin_buzzer true s in
  let s := set_buzzerActive true s in
  set_lastBeepTime (millis (clock s)) s.

(** [level] is what [digitalRead(BUTTON_PIN)] returns: [true] for HIGH.
    With the pull-up the pin reads LOW while the button is down. *)
Definition readButton (level : bool) (s : state) : state :=
  let buttonPressed := negb level in
  let s :=
    if buttonPressed && negb (lastButtonState s) then
      triggerBuzzer (toggleLED s)
    else s in
  set_lastButtonState buttonPressed s.

Definition handleBuzzer (s : state) : state :=
  if buzzerActive s
     && (BUZZER_BEEP_DURATION <=? usub (millis (clock s)) (lastBeepTime s))
  then set_buzzerActive false (set_pin_buzzer false s)
  else s.

(** One pass through [loop()]: the pin is sampled once, then the pass
    sleeps for 10 ms. *)
Definition loop (i : N * bool) (s : state) : state :=
  let s := set_clock (clock s + Z.of_N (fst i)) s in
  let s := readButton (snd i) s in
  let s := handleBuzzer s in
  set_clock (delay 10 (clock s)) s.

Definition run (ins : list (N * bool)) (s : state) : state :=
  fold_left (fun s i => loop i s) ins s.

(** Number of presses the sketch has registered: one Serial line each. *)
Definition presses (s : state) : nat := List.length (log s).

(** The pins show the state: the LED pin [ledState], the buzzer pin
    [buzzerActive]. *)
Definition outputs_ok (s : state) : Prop :=
  pin_led s = ledState s /\ pin_buzzer s = buzzerActive s.

End Button.

(** ** Phase 3: proximity alarm *)

Module Proximity.
Import Arduino.

(** The conversion [duration * 0.0343 / 2] is done in the board's
    floating-point arithmetic and truncated to [long]; the embedding takes
    the resulting function from microseconds to centimetres as given. *)
Class EchoModel : Type := { cm_of_us : Z -> Z }.

Definition displayInterval : Z := 2.
Definition sensorInterval : Z := 100.

(** Segment patterns of the digits 0 to 9. *)
Definition numbers : list Z :=
  [252; 96; 218; 242; 102; 182; 190; 224; 254; 246].

(** The three timed branches of [loop()]. *)
Inductive Task : Type := SensorTask | DisplayTask | BuzzerTask.

Inductive Alert : Type :=
| NoAlert
| BackupAlert (interval : Z)
| BackupAlertMuted.

(** Serial lines. *)
Inductive Event : Type :=
| SerialDistance (d : Z) (mute led : bool) (a : Alert)
| SerialMute (on : bool).

Record state : Type := mkState {
  count : Z;
  digits : list Z;
  distance : Z;
  buzzerState : bool;
  muteEnabled : bool;
  lastButtonState : bool;
  previousDisplayMillis : Z;
  previousSensorMillis : Z;
  previousBuzzerMillis : Z;
  buzzerInterval : Z;
  pin_buzzer : bool;
  pin_led : bool;
  pin_cathodes : list bool;  (* CAS[0] .. CAS[3]; HIGH switches a digit off *)
  pin_latch : bool;
  shifted : Z;               (* byte last sent by shiftOut *)
  log : list Event           (* newest first *)
}.

Definition set_count (v : Z) (s : state) : state :=
  mkState v (digits s) (distance s) (buzzerState s) (muteEnabled s)
    (lastButtonState s) (previousDisplayMillis s) (previousSensorMillis s)
    (previousBuzzerMillis s) (buzzerInterval s) (pin_buzzer s) (pin_led s)
    (pin_cathodes s) (pin_latch s) (shifted s) (log s).
Definition set_digits (v : list Z) (s : state) : state :=
  mkState (count s) v (distance s) (buzzerState s) (muteEnabled s)
    (lastButtonState s) (previousDisplayMillis s) (previousSensorMillis s)
    (previousBuzzerMillis s) (buzzerInterval s) (pin_buzzer s) (pin_led s)
    (pin_cathodes s) (pin_latch s) (shifted s) (log s).
Definition set_distance (v : Z) (s : state) : state :=
  mkState (count s) (digits s) v (buzzerState s) (muteEnabled s)
    (lastButtonState s) (previousDisplayMillis s) (previousSensorMillis s)
    (previousBuzzerMillis s) (buzzerInterval s) (pin_buzzer s) (pin_led s)
    (pin_cathodes s) (pin_latch s) (shifted s) (log s).
Definition set_buzzerState (v : bool) (s : state) : state :=
  mkState (count s) (digits s) (distance s) v (muteEnabled s) (lastButtonState
    s) (previousDisplayMillis s) (previousSensorMillis s)
    (previousBuzzerMillis s) (buzzerInterval s) (pin_buzzer s) (pin_led s)
    (pin_cathodes s) (pin_latch s) (shifted s) (log s).
Definition set_muteEnabled (v : bool) (s : state) : state :=
  mkState (count s) (digits s) (distance s) (buzzerState s) v (lastButtonState
    s) (previousDisplayMillis s) (previousSensorMillis s)
    (previousBuzzerMillis s) (buzzerInterval s) (pin_buzzer s) (pin_led s)
    (pin_cathodes s) (pin_latch s) (shifted s) (log s).
Definition set_lastButtonState (v : bool) (s : state) : state :=
  mkState (count s) (digits s) (distance s) (buzzerState s) (muteEnabled s) v
    (previousDisplayMillis s) (previousSensorMillis s) (previousBuzzerMillis
    s) (buzzerInterval s) (pin_buzzer s) (pin_led s) (pin_cathodes s)
    (pin_latch s) (shifted s) (log s).
Definition set_previousDisplayMillis (v : Z) (s : state) : state :=
  mkState (count s) (digits s) (distance s) (buzzerState s) (muteEnabled s)
    (lastButtonState s) v (previousSensorMillis s) (previousBuzzerMillis s)
    (buzzerInterval s) (pin_buzzer s) (pin_led s) (pin_cathodes s) (pin_latch
    s) (shifted s) (log s).
Definition set_previousSensorMillis (v : Z) (s : state) : state :=
  mkState (count s) (digits s) (distance s) (buzzerState s) (muteEnabled s)
    (lastButtonState s) (previousDisplayMillis s) v (previousBuzzerMillis s)
    (buzzerInterval s) (pin_buzzer s) (pin_led s) (pin_cathodes s) (pin_latch
    s) (shifted s) (log s).
Definition set_previousBuzzerMillis (v : Z) (s : state) : state :=
  mkState (count s) (digits s) (distance s) (buzzerState s) (muteEnabled s)
    (lastButtonState s) (previousDisplayMillis s) (previousSensorMillis s) v
    (buzzerInterval s) (pin_buzzer s) (pin_led s) (pin_cathodes s) (pin_latch
    s) (shifted s) (log s).
Definition set_buzzerInterval (v : Z) (s : state) : state :=
  mkState (count s) (digits s) (distance s) (buzzerState s) (muteEnabled s)
    (lastButtonState s) (previousDisplayMillis s) (previousSensorMillis s)
    (previousBuzzerMillis s) v (pin_buzzer s) (pin_led s) (pin_cathodes s)
    (pin_latch s) (shifted s) (log s).
Definition set_pin_buzzer (v : bool) (s : state) : state :=
  mkState (count s) (digits s) (distance s) (buzzerState s) (muteEnabled s)
    (lastButtonState s) (previousDisplayMillis s) (previousSensorMillis s)
    (previousBuzzerMillis s) (buzzerInterval s) v (pin_led s) (pin_cathodes s)
    (pin_latch s) (shifted s) (log s).
Definition set_pin_led (v : bool) (s : state) : state :=
  mkState (count s) (digits s) (distance s) (buzzerState s) (muteEnabled s)
    (lastButtonState s) (previousDisplayMillis s) (previousSensorMillis s)
    (previousBuzzerMillis s) (buzzerInterval s) (pin_buzzer s) v (pin_cathodes
    s) (pin_latch s) (shifted s) (log s).
Definition set_pin_cathodes (v : list bool) (s : state) : state :=
  mkState (count s) (digits s) (distance s) (buzzerState s) (muteEnabled s)
    (lastButtonState s) (previousDisplayMillis s) (previousSensorMillis s)
    (previousBuzzerMillis s) (buzzerInterval s) (pin_buzzer s) (pin_led s) v
    (pin_latch s) (shifted s) (log s).
Definition set_pin_latch (v : bool) (s : state) : state :=
  mkState (count s) (digits s) (distance s) (buzzerState s) (muteEnabled s)
    (lastButtonState s) (previousDisplayMillis s) (previousSensorMillis s)
    (previousBuzzerMillis s) (buzzerInterval s) (pin_buzzer s) (pin_led s)
    (pin_cathodes s) v (shifted s) (log s).
Definition set_shifted (v : Z) (s : state) : state :=
  mkState (count s) (digits s) (distance s) (buzzerState s) (muteEnabled s)
    (lastButtonState s) (previousDisplayMillis s) (previousSensorMillis s)
    (previousBuzzerMillis s) (buzzerInterval s) (pin_buzzer s) (pin_led s)
    (pin_cathodes s) (pin_latch s) v (log s).
Definition set_log (v : list Event) (s : state) : state :=
  mkState (count s) (digits s) (distance s) (buzzerState s) (muteEnabled s)
    (lastButtonState s) (previousDisplayMillis s) (previousSensorMillis s)
    (previousBuzzerMillis s) (buzzerInterval s) (pin_buzzer s) (pin_led s)
    (pin_cathodes s) (pin_latch s) (shifted s) v.

(** Globals as initialised, after [setup()]. *)
Definition setup : state :=
  mkState 0 [0; 0; 0; 0] 0 false false true 0 0 0 200
          false false [true; true; true; true] false 0 [].

(** Input of one pass through [loop()]. *)
Record input : Type := mkInput {
  in_time : Z;       (* time since reset when the pass reads millis(), us *)
  in_button : bool;  (* digitalRead(muteButtonPin): true is HIGH *)
  in_echo : Z        (* what pulseIn returns if the sensor is sampled *)
}.

Definition measureDistance `{EchoModel} (echo : Z) : Z :=
  let duration := long echo in
  let dist := cm_of_us duration in
  if duration =? 0 then 0 else dist.

Definition break_number (num : Z) (s : state) : state :=
  set_digits [ int (Z.quot num 1000);
               int (Z.rem (Z.quot num 100) 10);
               int (Z.rem (Z.quot num 10) 10);
               int (Z.rem num 10) ] s.

Definition cathode_high (s : state) : state :=
  set_pin_cathodes [true; true; true; true] s.

Definition display_number (s : state) : option state :=
  let s := cathode_high s in
  let s := set_pin_latch false s in
  match index (digits s) (count s) with
  | None => None
  | Some d =>
    match index numbers d with
    | None => None
    | Some pattern =>
      let s := set_shifted pattern s in
      let s := set_pin_latch true s in
      match index (pin_cathodes s) (count s) with
      | None => None
      | Some _ =>
        let s := set_pin_cathodes (update (pin_cathodes s) (count s) false) s in
        let s := set_count (int (count s + 1)) s in
        Some (if count s =? 4 then set_count 0 s else s)
      end
    end
  end.

Definition toggleMute (s : state) : state :=
  let s := set_muteEnabled (negb (muteEnabled s)) s in
  let s :=
    if muteEnabled s then set_buzzerState false (set_pin_buzzer false s)
    else s in
  set_log (SerialMute (muteEnabled s) :: log s) s.

Definition readMuteButton (level : bool) (s : state) : state :=
  let buttonPressed := negb level in
  let s :=
    if buttonPressed && negb (lastButtonState s) then toggleMute s else s in
  set_lastButtonState buttonPressed s.

Definition handleCarBackupBuzzer (s : state) : state :=
  if muteEnabled s then
    set_pin_buzzer false (set_buzzerState false s)
  else if (distance s <=? 10) && (2 <=? distance s) then
    let s := set_buzzerInterval (ulong (map (distance s) 2 10 100 800)) s in
    let s :=
      if buzzerInterval s <? 100 then set_buzzerInterval 100 s else s in
    let s := set_buzzerState (negb (buzzerState s)) s in
    set_pin_buzzer (buzzerState s) s
  else if (distance s <? 2) && (0 <? distance s) then
    set_buzzerState true (set_pin_buzzer true s)
  else
    let s := set_buzzerState false s in
    let s := set_pin_buzzer false s in
    set_buzzerInterval 200 s.

(** The body of the sensor branch of [loop()]. *)
Definition sampleDistance `{EchoModel} (echo : Z) (s : state) : state :=
  let s := set_distance (measureDistance echo) s in
  let s := if 9999 <? distance s then set_distance 9999 s else s in
  let s := break_number (distance s) s in
  let s := set_pin_led (distance s <=? 5) s in
  let inRange := (distance s <=? 10) && (2 <=? distance s) in
  let alert :=
    if inRange && negb (muteEnabled s) then BackupAlert (buzzerInterval s)
    else if muteEnabled s && inRange then BackupAlertMuted
    else NoAlert in
  set_log (SerialDistance (distance s) (muteEnabled s) (distance s <=? 5)
             alert :: log s) s.

Definition loop `{EchoModel} (i : input) (s : state) : option state :=
  let currentMillis := millis (in_time i) in
  let s := readMuteButton (in_button i) s in
  let s :=
    if sensorInterval <=? usub currentMillis (previousSensorMillis s) then
      let s := set_previousSensorMillis currentMillis s in
      sampleDistance (in_echo i) s
    else s in
  let r :=
    if displayInterval <=? usub currentMillis (previousDisplayMillis s) then
      let s := set_previousDisplayMillis currentMillis s in
      display_number s
    else Some s in
  match r with
  | None => None
  | Some s =>
    Some (if buzzerInterval s <=? usub currentMillis (previousBuzzerMillis s)
          then
            let s := set_previousBuzzerMillis currentMillis s in
            handleCarBackupBuzzer s
          else s)
  end.

Fixpoint run `{EchoModel} (ins : list input) (s : state) : option state :=
  match ins with
  | [] => Some s
  | i :: rest =>
    match loop i s with
    | None => None
    | Some s' => run rest s'
    end
  end.

(** The interval of a timed task, the timestamp of its last run, and the
    test the loop makes with them. *)
Definition interval (t : Task) (s : state) : Z :=
  match t with
  | SensorTask => sensorInterval
  | DisplayTask => displayInterval
  | BuzzerTask => buzzerInterval s
  end.

Definition last_run (t : Task) (s : state) : Z :=
  match t with
  | SensorTask => previousSensorMillis s
  | DisplayTask => previousDisplayMillis s
  | BuzzerTask => previousBuzzerMillis s
  end.

Definition due (i : input) (interval last : Z) : bool :=
  interval <=? usub (millis (in_time i)) last.

(** The display data are sound: four digits, each from 0 to 9, a digit
    position from 0 to 3, four cathode pins, a distance of at most four
    digits. *)
Definition display_ok (s : state) : Prop :=
  List.length (digits s) = 4%nat
  /\ Forall (fun d => 0 <= d <= 9) (digits s)
  /\ 0 <= count s <= 3
  /\ List.length (pin_cathodes s) = 4%nat
  /\ 0 <= distance s <= 9999.

(** A pulse length as [pulseIn] reports it: not negative as a [long]. *)
Definition echo_ok (i : input) : Prop := 0 <= in_echo i < 2 ^ 31.

(** Entries of the log that satisfy [p]. *)
Definition count_log (p : Event -> bool) (s : state) : nat :=
  List.length (filter p (log s)).

Definition is_mute_line (e : Event) : bool :=
  match e with SerialMute _ => true | _ => false end.

(** The line that the sensor branch of [loop()] prints. *)
Definition is_distance_line (e : Event) : bool :=
  match e with SerialDistance _ _ _ _ => true | _ => false end.

(** The number that a list of decimal digits spells. *)
Definition number_of (ds : list Z) : Z :=
  fold_left (fun a d => 10 * a + d) ds 0.

(** The buzzer is consistent: the pin shows [buzzerState], a muted alarm
    is silent, and the beep interval lies between 100 and 800 ms. *)
Definition buzzer_ok (s : state) : Prop :=
  pin_buzzer s = buzzerState s
  /\ (muteEnabled s = true -> buzzerState s = false)
  /\ 100 <= buzzerInterval s <= 800.

End Proximity.

(** ** Phases 4 and 5: security keypad, sensor dashboard, stepper motor

    Phase 5 repeats the security functions of phase 4 word for word and adds
    the motor and the joystick; the two sketches are embedded together and
    the few places where they differ take the sketch as an argument. *)

Module Security.
Import Arduino.

Inductive Sketch : Type := Phase4 | Phase5.

(** The sensor values are [float]s.  The embedding is generic in the
    floating-point arithmetic of the board: it only names the operations
    the sketches use. *)
Class FloatOps : Type := {
  float : Type;
  isnan : float -> bool;
  of_long : Z -> float;            (* conversion of an integer value *)
  of_decimal : Z -> Z -> float;    (* the literal m * 10^e *)
  fmul : float -> float -> float;
  fdiv : float -> float -> float;
  flt : float -> float -> bool;
  fle : float -> float -> bool;
  feq : float -> float -> bool
}.

Definition STARTUP_BLINK_COUNT : Z := 3.
Definition STARTUP_BLINK_DURATION : Z := 200.
Definition LCD_INIT_DELAY : Z := 3000.
Definition DISPLAY_ROTATION_INTERVAL : Z := 3000.
Definition SENSOR_READ_INTERVAL : Z := 1000.
Definition KEYPAD_TIMEOUT : Z := 10000.
Definition INACTIVITY_TIMEOUT : Z := 60000.
Definition LOCKOUT_DURATION : Z := 30000.
Definition AUTO_MOTOR_INTERVAL : Z := 2000.
Definition WATER_ALERT_THRESHOLD : Z := 500.
Definition DEFAULT_PASSCODE : string := "1234*".
Definition MAX_PASSCODE_LENGTH : Z := 6.
Definition MAX_FAILED_ATTEMPTS : Z := 3.
Definition STEPS_PER_90_DEGREES : Z := 1024.
Definition JOYSTICK_CENTER : Z := 512.
Definition JOYSTICK_THRESHOLD : Z := 200.

(** Does the entry hold the key [*]? *)
Fixpoint has_star (p : string) : bool :=
  match p with
  | EmptyString => false
  | String c rest => Ascii.eqb c "*" || has_star rest
  end.

Section Sketches.
Context {F : FloatOps}.

(** What the LCD shows. *)
Inductive Screen : Type :=
| ScrBlank
| ScrBoot
| ScrStartup
| ScrReady (uptime : Z)
| ScrGranted (sk : Sketch)
| ScrDenied
| ScrLockedOut
| ScrLockoutEnded
| ScrSystemLocked
| ScrPasscode (stars : nat) (cursor : bool)
| ScrTempHumidity (t h : float)
| ScrDistance (d : option float) (detected : bool)
| ScrWater (w : Z) (wet : bool)
| ScrMotor (active auto : bool)
| ScrMode (auto : bool).

(** Serial lines and the calls that drive the motor: [StepperStep n] is
    the call [stepper.step(n)], [StepperPause us] the call
    [delayMicroseconds(us)] that follows it in each of the loops of
    [stepMotor].  Lines that only frame the output are left out. *)
Inductive Event : Type :=
| SerialStartupBlink (on : bool)
| SerialStartupComplete
| SerialLcdReady
| SerialKey (k : ascii)
| SerialPasscodeSoFar (p : string)
| SerialChecking (p : string)
| SerialAccessGranted
| SerialAccessDenied
| SerialLockedOut
| SerialLockoutEnded
| SerialEntryCleared
| SerialSystemLocked
| SerialDht (t h : float)
| SerialDhtFailed
| SerialDistance (d : float)
| SerialWater (w : Z)
| SerialDisplayUpdated (n : Z)
| SerialMotorActivated
| SerialAutoMove
| SerialManualMove (direction steps : Z)
| SerialMotorComplete (position : Z)
| SerialModeSwitched (auto : bool)
| StepperStep (n : Z)
| StepperPause (us : Z).

(** LED control variables. *)
Record Startup : Type := mkStartup {
  f_startupComplete : bool;
  f_startupBlinkCount : Z;
  f_lastStartupBlink : Z
}.

(** LCD control variables. *)
Record LcdVars : Type := mkLcdVars {
  f_lcdInitialized : bool;
  f_lcdStartupComplete : bool;
  f_lcdStartupTime : Z
}.

(** Display rotation variables. *)
Record Display : Type := mkDisplay {
  f_currentDisplayScreen : Z;
  f_lastDisplayUpdate : Z
}.

(** Sensor data variables and the sensor read timing. *)
Record Sensors : Type := mkSensors {
  f_temperature : float;
  f_humidity : float;
  f_distance : float;
  f_waterLevel : Z;
  f_sensorDataValid : bool;
  f_lastSensorRead : Z
}.

(** Alert status variables. *)
Record Alerts : Type := mkAlerts {
  f_distanceAlert : bool;
  f_waterAlert : bool;
  f_temperatureAlert : bool;
  f_humidityAlert : bool;
  f_anyAlert : bool
}.

(** Security system variables. *)
Record Security : Type := mkSecurity {
  f_systemUnlocked : bool;
  f_enteredPasscode : string;
  f_lastKeypadActivity : Z;
  f_lastSystemActivity : Z;
  f_failedAttempts : Z;
  f_systemLockedOut : bool;
  f_lockoutStartTime : Z
}.

(** Motor control variables (phase 5). *)
Record Motor : Type := mkMotor {
  f_motorActive : bool;
  f_autoMode : bool;
  f_lastAutoMotorMove : Z;
  f_currentMotorPosition : Z;
  f_motorMoving : bool
}.

(** Joystick variables (phase 5). *)
Record Joystick : Type := mkJoystick {
  f_joystickX : Z;
  f_joystickY : Z;
  f_lastJoystickButtonState : bool;
  f_lastJoystickRead : Z
}.

(** The board: LED pins, what the LCD shows, time since reset in
    microseconds, Serial lines and motor commands (newest first). *)
Record Board : Type := mkBoard {
  f_pin_green : bool;
  f_pin_red : bool;
  f_lcd : Screen;
  f_clock : Z;
  f_log : list Event
}.

Record state : Type := mkState {
  startup : Startup;
  lcdVars : LcdVars;
  display : Display;
  sensors : Sensors;
  alerts : Alerts;
  security : Security;
  motor : Motor;
  joystick : Joystick;
  board : Board
}.

(** The globals, read by name. *)
Definition startupComplete (s : state) : bool := f_startupComplete (startup s).
Definition startupBlinkCount (s : state) : Z := f_startupBlinkCount (startup s).
Definition lastStartupBlink (s : state) : Z := f_lastStartupBlink (startup s).
Definition lcdInitialized (s : state) : bool := f_lcdInitialized (lcdVars s).
Definition lcdStartupComplete (s : state) : bool := f_lcdStartupComplete (lcdVars s).
Definition lcdStartupTime (s : state) : Z := f_lcdStartupTime (lcdVars s).
Definition currentDisplayScreen (s : state) : Z := f_currentDisplayScreen (display s).
Definition lastDisplayUpdate (s : state) : Z := f_lastDisplayUpdate (display s).
Definition temperature (s : state) : float := f_temperature (sensors s).
Definition humidity (s : state) : float := f_humidity (sensors s).
Definition distance (s : state) : float := f_distance (sensors s).
Definition waterLevel (s : state) : Z := f_waterLevel (sensors s).
Definition sensorDataValid (s : state) : bool := f_sensorDataValid (sensors s).
Definition lastSensorRead (s : state) : Z := f_lastSensorRead (sensors s).
Definition distanceAlert (s : state) : bool := f_distanceAlert (alerts s).
Definition waterAlert (s : state) : bool := f_waterAlert (alerts s).
Definition temperatureAlert (s : state) : bool := f_temperatureAlert (alerts s).
Definition humidityAlert (s : state) : bool := f_humidityAlert (alerts s).
Definition anyAlert (s : state) : bool := f_anyAlert (alerts s).
Definition systemUnlocked (s : state) : bool := f_systemUnlocked (security s).
Definition enteredPasscode (s : state) : string := f_enteredPasscode (security s).
Definition lastKeypadActivity (s : state) : Z := f_lastKeypadActivity (security s).
Definition lastSystemActivity (s : state) : Z := f_lastSystemActivity (security s).
Definition failedAttempts (s : state) : Z := f_failedAttempts (security s).
Definition systemLockedOut (s : state) : bool := f_systemLockedOut (security s).
Definition lockoutStartTime (s : state) : Z := f_lockoutStartTime (security s).
Definition motorActive (s : state) : bool := f_motorActive (motor s).
Definition autoMode (s : state) : bool := f_autoMode (motor s).
Definition lastAutoMotorMove (s : state) : Z := f_lastAutoMotorMove (motor s).
Definition currentMotorPosition (s : state) : Z := f_currentMotorPosition (motor s).
Definition motorMoving (s : state) : bool := f_motorMoving (motor s).
Definition joystickX (s : state) : Z := f_joystickX (joystick s).
Definition joystickY (s : state) : Z := f_joystickY (joystick s).
Definition lastJoystickButtonState (s : state) : bool := f_lastJoystickButtonState (joystick s).
Definition lastJoystickRead (s : state) : Z := f_lastJoystickRead (joystick s).
Definition pin_green (s : state) : bool := f_pin_green (board s).
Definition pin_red (s : state) : bool := f_pin_red (board s).
Definition lcd (s : state) : Screen := f_lcd (board s).
Definition clock (s : state) : Z := f_clock (board s).
Definition log (s : state) : list Event := f_log (board s).

(** Assignments to the globals. *)
Definition set_startup (v : Startup) (s : state) : state :=
  mkState v (lcdVars s) (display s) (sensors s) (alerts s) (security s) (motor
    s) (joystick s) (board s).
Definition set_lcdVars (v : LcdVars) (s : state) : state :=
  mkState (startup s) v (display s) (sensors s) (alerts s) (security s) (motor
    s) (joystick s) (board s).
Definition set_display (v : Display) (s : state) : state :=
  mkState (startup s) (lcdVars s) v (sensors s) (alerts s) (security s) (motor
    s) (joystick s) (board s).
Definition set_sensors (v : Sensors) (s : state) : state :=
  mkState (startup s) (lcdVars s) (display s) v (alerts s) (security s) (motor
    s) (joystick s) (board s).
Definition set_alerts (v : Alerts) (s : state) : state :=
  mkState (startup s) (lcdVars s) (display s) (sensors s) v (security s)
    (motor s) (joystick s) (board s).
Definition set_security (v : Security) (s : state) : state :=
  mkState (startup s) (lcdVars s) (display s) (sensors s) (alerts s) v (motor
    s) (joystick s) (board s).
Definition set_motor (v : Motor) (s : state) : state :=
  mkState (startup s) (lcdVars s) (display s) (sensors s) (alerts s) (security
    s) v (joystick s) (board s).
Definition set_joystick (v : Joystick) (s : state) : state :=
  mkState (startup s) (lcdVars s) (display s) (sensors s) (alerts s) (security
    s) (motor s) v (board s).
Definition set_board (v : Board) (s : state) : state :=
  mkState (startup s) (lcdVars s) (display s) (sensors s) (alerts s) (security
    s) (motor s) (joystick s) v.
Definition set_startupComplete (v : bool) (s : state) : state :=
  set_startup (mkStartup v (startupBlinkCount s) (lastStartupBlink s)) s.
Definition set_startupBlinkCount (v : Z) (s : state) : state :=
  set_startup (mkStartup (startupComplete s) v (lastStartupBlink s)) s.
Definition set_lastStartupBlink (v : Z) (s : state) : state :=
  set_startup (mkStartup (startupComplete s) (startupBlinkCount s) v) s.
Definition set_lcdInitialized (v : bool) (s : state) : state :=
  set_lcdVars (mkLcdVars v (lcdStartupComplete s) (lcdStartupTime s)) s.
Definition set_lcdStartupComplete (v : bool) (s : state) : state :=
  set_lcdVars (mkLcdVars (lcdInitialized s) v (lcdStartupTime s)) s.
Definition set_lcdStartupTime (v : Z) (s : state) : state :=
  set_lcdVars (mkLcdVars (lcdInitialized s) (lcdStartupComplete s) v) s.
Definition set_currentDisplayScreen (v : Z) (s : state) : state :=
  set_display (mkDisplay v (lastDisplayUpdate s)) s.
Definition set_lastDisplayUpdate (v : Z) (s : state) : state :=
  set_display (mkDisplay (currentDisplayScreen s) v) s.
Definition set_temperature (v : float) (s : state) : state :=
  set_sensors (mkSensors v (humidity s) (distance s) (waterLevel s)
    (sensorDataValid s) (lastSensorRead s)) s.
Definition set_humidity (v : float) (s : state) : state :=
  set_sensors (mkSensors (temperature s) v (distance s) (waterLevel s)
    (sensorDataValid s) (lastSensorRead s)) s.
Definition set_distance (v : float) (s : state) : state :=
  set_sensors (mkSensors (temperature s) (humidity s) v (waterLevel s)
    (sensorDataValid s) (lastSensorRead s)) s.
Definition set_waterLevel (v : Z) (s : state) : state :=
  set_sensors (mkSensors (temperature s) (humidity s) (distance s) v
    (sensorDataValid s) (lastSensorRead s)) s.
Definition set_sensorDataValid (v : bool) (s : state) : state :=
  set_sensors (mkSensors (temperature s) (humidity s) (distance s) (waterLevel
    s) v (lastSensorRead s)) s.
Definition set_lastSensorRead (v : Z) (s : state) : state :=
  set_sensors (mkSensors (temperature s) (humidity s) (distance s) (waterLevel
    s) (sensorDataValid s) v) s.
Definition set_distanceAlert (v : bool) (s : state) : state :=
  set_alerts (mkAlerts v (waterAlert s) (temperatureAlert s) (humidityAlert s)
    (anyAlert s)) s.
Definition set_waterAlert (v : bool) (s : state) : state :=
  set_alerts (mkAlerts (distanceAlert s) v (temperatureAlert s) (humidityAlert
    s) (anyAlert s)) s.
Definition set_temperatureAlert (v : bool) (s : state) : state :=
  set_alerts (mkAlerts (distanceAlert s) (waterAlert s) v (humidityAlert s)
    (anyAlert s)) s.
Definition set_humidityAlert (v : bool) (s : state) : state :=
  set_alerts (mkAlerts (distanceAlert s) (waterAlert s) (temperatureAlert s) v
    (anyAlert s)) s.
Definition set_anyAlert (v : bool) (s : state) : state :=
  set_alerts (mkAlerts (distanceAlert s) (waterAlert s) (temperatureAlert s)
    (humidityAlert s) v) s.
Definition set_systemUnlocked (v : bool) (s : state) : state :=
  set_security (mkSecurity v (enteredPasscode s) (lastKeypadActivity s)
    (lastSystemActivity s) (failedAttempts s) (systemLockedOut s)
    (lockoutStartTime s)) s.
Definition set_enteredPasscode (v : string) (s : state) : state :=
  set_security (mkSecurity (systemUnlocked s) v (lastKeypadActivity s)
    (lastSystemActivity s) (failedAttempts s) (systemLockedOut s)
    (lockoutStartTime s)) s.
Definition set_lastKeypadActivity (v : Z) (s : state) : state :=
  set_security (mkSecurity (systemUnlocked s) (enteredPasscode s) v
    (lastSystemActivity s) (failedAttempts s) (systemLockedOut s)
    (lockoutStartTime s)) s.
Definition set_lastSystemActivity (v : Z) (s : state) : state :=
  set_security (mkSecurity (systemUnlocked s) (enteredPasscode s)
    (lastKeypadActivity s) v (failedAttempts s) (systemLockedOut s)
    (lockoutStartTime s)) s.
Definition set_failedAttempts (v : Z) (s : state) : state :=
  set_security (mkSecurity (systemUnlocked s) (enteredPasscode s)
    (lastKeypadActivity s) (lastSystemActivity s) v (systemLockedOut s)
    (lockoutStartTime s)) s.
Definition set_systemLockedOut (v : bool) (s : state) : state :=
  set_security (mkSecurity (systemUnlocked s) (enteredPasscode s)
    (lastKeypadActivity s) (lastSystemActivity s) (failedAttempts s) v
    (lockoutStartTime s)) s.
Definition set_lockoutStartTime (v : Z) (s : state) : state :=
  set_security (mkSecurity (systemUnlocked s) (enteredPasscode s)
    (lastKeypadActivity s) (lastSystemActivity s) (failedAttempts s)
    (systemLockedOut s) v) s.
Definition set_motorActive (v : bool) (s : state) : state :=
  set_motor (mkMotor v (autoMode s) (lastAutoMotorMove s)
    (currentMotorPosition s) (motorMoving s)) s.
Definition set_autoMode (v : bool) (s : state) : state :=
  set_motor (mkMotor (motorActive s) v (lastAutoMotorMove s)
    (currentMotorPosition s) (motorMoving s)) s.
Definition set_lastAutoMotorMove (v : Z) (s : state) : state :=
  set_motor (mkMotor (motorActive s) (autoMode s) v (currentMotorPosition s)
    (motorMoving s)) s.
Definition set_currentMotorPosition (v : Z) (s : state) : state :=
  set_motor (mkMotor (motorActive s) (autoMode s) (lastAutoMotorMove s) v
    (motorMoving s)) s.
Definition set_motorMoving (v : bool) (s : state) : state :=
  set_motor (mkMotor (motorActive s) (autoMode s) (lastAutoMotorMove s)
    (currentMotorPosition s) v) s.
Definition set_joystickX (v : Z) (s : state) : state :=
  set_joystick (mkJoystick v (joystickY s) (lastJoystickButtonState s)
    (lastJoystickRead s)) s.
Definition set_joystickY (v : Z) (s : state) : state :=
  set_joystick (mkJoystick (joystickX s) v (lastJoystickButtonState s)
    (lastJoystickRead s)) s.
Definition set_lastJoystickButtonState (v : bool) (s : state) : state :=
  set_joystick (mkJoystick (joystickX s) (joystickY s) v (lastJoystickRead s))
    s.
Definition set_lastJoystickRead (v : Z) (s : state) : state :=
  set_joystick (mkJoystick (joystickX s) (joystickY s)
    (lastJoystickButtonState s) v) s.
Definition set_pin_green (v : bool) (s : state) : state :=
  set_board (mkBoard v (pin_red s) (lcd s) (clock s) (log s)) s.
Definition set_pin_red (v : bool) (s : state) : state :=
  set_board (mkBoard (pin_green s) v (lcd s) (clock s) (log s)) s.
Definition set_lcd (v : Screen) (s : state) : state :=
  set_board (mkBoard (pin_green s) (pin_red s) v (clock s) (log s)) s.
Definition set_clock (v : Z) (s : state) : state :=
  set_board (mkBoard (pin_green s) (pin_red s) (lcd s) v (log s)) s.
Definition set_log (v : list Event) (s : state) : state :=
  set_board (mkBoard (pin_green s) (pin_red s) (lcd s) (clock s) v) s.

Definition say (e : Event) (s : state) : state := set_log (e :: log s) s.

(** [delay(ms)] and [delayMicroseconds(us)] inside a sketch function. *)
Definition sleep (ms : Z) (s : state) : state :=
  set_clock (delay ms (clock s)) s.
Definition sleepMicros (us : Z) (s : state) : state :=
  set_clock (delayMicroseconds us (clock s)) s.

Definition now (s : state) : Z := millis (clock s).

(** Input of one pass through [loop()]. *)
Record input : Type := mkInput {
  in_idle : N;             (* microseconds since the previous pass returned *)
  in_key : ascii;          (* keypad.getKey(); NO_KEY is the zero character *)
  in_temperature : float;  (* dht.readTemperature() *)
  in_humidity : float;     (* dht.readHumidity() *)
  in_echo : Z;             (* pulseIn(ULTRASONIC_ECHO_PIN, HIGH) *)
  in_water : Z;            (* analogRead(WATER_SENSOR_PIN) *)
  in_joyX : Z;             (* analogRead(JOYSTICK_X_PIN) *)
  in_joyY : Z;             (* analogRead(JOYSTICK_Y_PIN) *)
  in_joyButton : bool      (* digitalRead(JOYSTICK_BUTTON_PIN): true is HIGH *)
}.

(** *** LCD and LED start-up *)

Definition initializeLCD (s : state) : state :=
  let s := set_lcd ScrBoot s in
  let s := sleep 1000 s in
  let s := set_lcd ScrBlank s in
  let s := set_lcdInitialized true s in
  set_lcdStartupTime (now s) s.

Definition displayStartupMessage (s : state) : state :=
  if negb (lcdInitialized s) then s else set_lcd ScrStartup s.

Definition displaySystemReady (s : state) : state :=
  if negb (lcdInitialized s) then s
  else set_lcd (ScrReady (Z.quot (now s) 1000)) s.

Definition handleLCDStartup (s : state) : state :=
  let currentTime := now s in
  if LCD_INIT_DELAY <=? usub currentTime (lcdStartupTime s) then
    if negb (lcdStartupComplete s) then
      let s := displaySystemReady s in
      let s := set_lcdStartupComplete true s in
      say SerialLcdReady s
    else s
  else if usub currentTime (lcdStartupTime s) <? 100 then
    displayStartupMessage s
  else s.

Definition blinkStartup (s : state) : state :=
  let currentTime := now s in
  if STARTUP_BLINK_DURATION <=? usub currentTime (lastStartupBlink s) then
    let s :=
      if startupBlinkCount s <? int (STARTUP_BLINK_COUNT * 2) then
        let s :=
          if Z.rem (startupBlinkCount s) 2 =? 0 then
            say (SerialStartupBlink true)
                (set_pin_red true (set_pin_green true s))
          else
            say (SerialStartupBlink false)
                (set_pin_red false (set_pin_green false s)) in
        set_startupBlinkCount (int (startupBlinkCount s + 1)) s
      else
        say SerialStartupComplete (set_startupComplete true s) in
    set_lastStartupBlink currentTime s
  else s.

(** *** The passcode state machine *)

Definition clearEntry (s : state) : state :=
  say SerialEntryCleared (set_enteredPasscode EmptyString s).

Definition grantAccess (sk : Sketch) (s : state) : state :=
  let s := say SerialAccessGranted s in
  let s := set_systemUnlocked true s in
  let s := set_failedAttempts 0 s in
  let s := set_pin_red false s in
  let s := set_pin_green true s in
  let s := sleep 1000 s in
  let s := set_pin_green false s in
  let s :=
    if lcdInitialized s then sleep 2000 (set_lcd (ScrGranted sk) s) else s in
  set_lastSystemActivity (now s) s.

Definition lockoutSystem (s : state) : state :=
  let s := say SerialLockedOut s in
  let s := set_systemLockedOut true s in
  let s := set_lockoutStartTime (now s) s in
  let s := set_pin_green false s in
  let s := set_pin_red true s in
  if lcdInitialized s then set_lcd ScrLockedOut s else s.

(** One round of the red LED blink of [denyAccess]. *)
Definition blinkRed (s : state) : state :=
  let s := set_pin_green false s in
  let s := set_pin_red true s in
  let s := sleep 200 s in
  let s := set_pin_red false s in
  sleep 200 s.

Definition denyAccess (s : state) : state :=
  let s := say SerialAccessDenied s in
  let s := set_failedAttempts (int (failedAttempts s + 1)) s in
  let s := Nat.iter 3 blinkRed s in
  let s := if lcdInitialized s then sleep 2000 (set_lcd ScrDenied s) else s in
  if MAX_FAILED_ATTEMPTS <=? failedAttempts s then lockoutSystem s else s.

Definition checkPasscode (sk : Sketch) (s : state) : state :=
  let s := say (SerialChecking (enteredPasscode s)) s in
  let s :=
    if String.eqb (enteredPasscode s) DEFAULT_PASSCODE then grantAccess sk s
    else denyAccess s in
  clearEntry s.

(** The tail of [handleKeypadInput]: auto-clear of a partial entry. *)
Definition autoClear (s : state) : state :=
  if negb (String.eqb (enteredPasscode s) EmptyString)
     && (KEYPAD_TIMEOUT <? usub (now s) (lastKeypadActivity s))
  then clearEntry s
  else s.

Definition handleKeypadInput (sk : Sketch) (key : ascii) (s : state)
  : state :=
  if Ascii.eqb key Ascii.zero then autoClear s
  else
    let s := set_lastKeypadActivity (now s) s in
    let s := set_lastSystemActivity (now s) s in
    let s := say (SerialKey key) s in
    if systemLockedOut s then s        (* return: input ignored in lockout *)
    else
      let s :=
        if Ascii.eqb key "#" then clearEntry s
        else if Ascii.eqb key "*" then checkPasscode sk s
        else if Z.of_nat (String.length (enteredPasscode s))
                  <? MAX_PASSCODE_LENGTH - 1
        then
          let s :=
            set_enteredPasscode
              (enteredPasscode s ++ String key EmptyString) s in
          say (SerialPasscodeSoFar (enteredPasscode s)) s
        else s in
      autoClear s.

Definition handleLockout (s : state) : state :=
  let currentTime := now s in
  if LOCKOUT_DURATION <=? usub currentTime (lockoutStartTime s) then
    let s := set_systemLockedOut false s in
    let s := set_failedAttempts 0 s in
    let s := set_pin_red false s in
    let s := say SerialLockoutEnded s in
    if lcdInitialized s then sleep 2000 (set_lcd ScrLockoutEnded s) else s
  else s.

Definition lockSystem (sk : Sketch) (s : state) : state :=
  let s := say SerialSystemLocked s in
  let s := set_systemUnlocked false s in
  let s := match sk with Phase5 => set_motorActive false s | Phase4 => s end in
  let s := clearEntry s in
  let s := set_pin_green false s in
  let s := set_pin_red false s in
  if lcdInitialized s then sleep 2000 (set_lcd ScrSystemLocked s) else s.

Definition displayPasscodeEntry (s : state) : state :=
  if negb (lcdInitialized s) then s
  else
    let n := String.length (enteredPasscode s) in
    set_lcd (ScrPasscode n (Z.of_nat n <? MAX_PASSCODE_LENGTH - 1)) s.

(** *** The sensor dashboard *)

Definition readUltrasonicDistance (echo : Z) (s : state) : float * state :=
  let s := sleepMicros 2 s in
  let s := sleepMicros 10 s in
  let duration := long echo in
  let distance :=
    fdiv (fmul (of_long duration) (of_decimal 34 (-3))) (of_long 2) in
  let distance :=
    if fle distance (of_long 0) || flt (of_long 400) distance
    then of_long 999 else distance in
  (distance, s).

Definition readAllSensors (i : input) (s : state) : state :=
  let newTemp := in_temperature i in
  let newHumidity := in_humidity i in
  let s :=
    if negb (isnan newTemp) && negb (isnan newHumidity) then
      let s := set_temperature newTemp s in
      let s := set_humidity newHumidity s in
      say (SerialDht (temperature s) (humidity s)) s
    else say SerialDhtFailed s in
  let (d, s) := readUltrasonicDistance (in_echo i) s in
  let s := set_distance d s in
  let s := say (SerialDistance (distance s)) s in
  let s := set_waterLevel (int (in_water i)) s in
  let s := say (SerialWater (waterLevel s)) s in
  set_sensorDataValid true s.

Definition checkAlertConditions (s : state) : state :=
  let s := set_distanceAlert false s in
  let s := set_waterAlert false s in
  let s := set_temperatureAlert false s in
  let s := set_humidityAlert false s in
  let s :=
    if flt (distance s) (of_long 20) && flt (of_long 0) (distance s)
    then set_distanceAlert true s else s in
  let s :=
    if WATER_ALERT_THRESHOLD <? waterLevel s
    then set_waterAlert true s else s in
  let s :=
    if flt (of_decimal 300 (-1)) (temperature s)
       || flt (temperature s) (of_decimal 100 (-1))
    then set_temperatureAlert true s else s in
  let s :=
    if flt (of_decimal 800 (-1)) (humidity s)
    then set_humidityAlert true s else s in
  set_anyAlert (distanceAlert s || waterAlert s || temperatureAlert s
                || humidityAlert s) s.

Definition updateStatusLEDs (s : state) : state :=
  if anyAlert s then set_pin_red true (set_pin_green false s)
  else set_pin_green true (set_pin_red false s).

(** Phase 4 rotates three screens, phase 5 four. *)
Definition screens (sk : Sketch) : Z :=
  match sk with Phase4 => 3 | Phase5 => 4 end.

Definition updateLCDDisplay (sk : Sketch) (s : state) : state :=
  if negb (lcdInitialized s) || negb (sensorDataValid s) then s
  else
    let n := currentDisplayScreen s in
    let s :=
      if n =? 0 then set_lcd (ScrTempHumidity (temperature s) (humidity s)) s
      else if n =? 1 then
        set_lcd (ScrDistance
                   (if feq (distance s) (of_long 999) then None
                    else Some (distance s))
                   (distanceAlert s)) s
      else if n =? 2 then set_lcd (ScrWater (waterLevel s) (waterAlert s)) s
      else if (n =? 3) && (screens sk =? 4) then
        set_lcd (ScrMotor (motorActive s) (autoMode s)) s
      else set_lcd ScrBlank s in
    let s :=
      set_currentDisplayScreen
        (Z.rem (int (currentDisplayScreen s + 1)) (screens sk)) s in
    say (SerialDisplayUpdated (currentDisplayScreen s)) s.

(** *** The stepper motor (phase 5) *)

(** One turn of any of the three loops of [stepMotor]: one step command,
    the position counter, then [delayMicroseconds(us)].  The time the
    Stepper library spends inside [step()] is not counted. *)
Definition singleStep (direction us : Z) (s : state) : state :=
  let s :=
    if 0 <? direction then
      let s := say (StepperStep 1) s in
      set_currentMotorPosition (int (currentMotorPosition s + 1)) s
    else
      let s := say (StepperStep (-1)) s in
      set_currentMotorPosition (int (currentMotorPosition s - 1)) s in
  sleepMicros us (say (StepperPause us) s).

Definition accelerationSteps (steps : Z) : Z := min (Z.quot steps 4) 50.
Definition decelerationSteps (steps : Z) : Z := min (Z.quot steps 4) 50.
Definition constantSteps (steps : Z) : Z :=
  int (steps - accelerationSteps steps - decelerationSteps steps).

(** [steps] and [direction] are [int] parameters. *)
Definition stepMotor (steps direction : Z) (s : state) : state :=
  let steps := int steps in
  let direction := int direction in
  if motorMoving s then s
  else
    let s := set_motorMoving true s in
    let s :=
      Nat.iter (Z.to_nat (accelerationSteps steps))
               (singleStep direction 2000) s in
    let s :=
      Nat.iter (Z.to_nat (constantSteps steps))
               (singleStep direction 1000) s in
    let s :=
      Nat.iter (Z.to_nat (decelerationSteps steps))
               (singleStep direction 2000) s in
    let s := set_motorMoving false s in
    say (SerialMotorComplete (currentMotorPosition s)) s.

Definition autoMotorMovement (s : state) : state :=
  let currentTime := now s in
  if (AUTO_MOTOR_INTERVAL <=? usub currentTime (lastAutoMotorMove s))
     && negb (motorMoving s)
  then
    let s := say SerialAutoMove s in
    let s := stepMotor STEPS_PER_90_DEGREES 1 s in
    set_lastAutoMotorMove currentTime s
  else s.

Definition manualMotorControl (s : state) : state :=
  let deflection := Z.abs (int (joystickX s - JOYSTICK_CENTER)) in
  if (JOYSTICK_THRESHOLD <? deflection) && negb (motorMoving s) then
    let direction := if JOYSTICK_CENTER <? joystickX s then 1 else -1 in
    let steps := int (map deflection JOYSTICK_THRESHOLD 512 10 50) in
    let s := say (SerialManualMove direction steps) s in
    stepMotor steps direction s
  else s.

Definition controlStepperMotor (s : state) : state :=
  if negb (systemUnlocked s) then set_motorActive false s
  else
    let s :=
      if negb (motorActive s)
      then say SerialMotorActivated (set_motorActive true s) else s in
    if autoMode s then autoMotorMovement s else manualMotorControl s.

Definition readJoystick (i : input) (s : state) : state :=
  let s := set_joystickX (int (in_joyX i)) s in
  let s := set_joystickY (int (in_joyY i)) s in
  let currentButtonState := negb (in_joyButton i) in
  let s :=
    if currentButtonState && negb (lastJoystickButtonState s) then
      let s := set_autoMode (negb (autoMode s)) s in
      let s := say (SerialModeSwitched (autoMode s)) s in
      if lcdInitialized s then sleep 1000 (set_lcd (ScrMode (autoMode s)) s)
      else s
    else s in
  set_lastJoystickButtonState currentButtonState s.

(** *** The main loops *)

(** [handleSensorDashboard] of phase 4. *)
Definition handleSensorDashboard (i : input) (s : state) : state :=
  let currentTime := now s in
  let s :=
    if SENSOR_READ_INTERVAL <=? usub currentTime (lastSensorRead s) then
      let s := readAllSensors i s in
      let s := checkAlertConditions s in
      let s := updateStatusLEDs s in
      set_lastSensorRead currentTime s
    else s in
  if DISPLAY_ROTATION_INTERVAL <=? usub currentTime (lastDisplayUpdate s)
  then set_lastDisplayUpdate currentTime (updateLCDDisplay Phase4 s)
  else s.

(** [handleCompleteDashboard] of phase 5. *)
Definition handleCompleteDashboard (i : input) (s : state) : state :=
  let currentTime := now s in
  let s :=
    if SENSOR_READ_INTERVAL <=? usub currentTime (lastSensorRead s) then
      let s := readAllSensors i s in
      let s := checkAlertConditions s in
      let s := updateStatusLEDs s in
      set_lastSensorRead currentTime s
    else s in
  let s :=
    if 50 <=? usub currentTime (lastJoystickRead s) then
      set_lastJoystickRead currentTime (readJoystick i s)
    else s in
  let s := controlStepperMotor s in
  if DISPLAY_ROTATION_INTERVAL <=? usub currentTime (lastDisplayUpdate s)
  then set_lastDisplayUpdate currentTime (updateLCDDisplay Phase5 s)
  else s.

(** [handleSecuritySystem] of phase 4 and [handleCompleteSystem] of
    phase 5. *)
Definition handleSystem (sk : Sketch) (i : input) (s : state) : state :=
  let currentTime := now s in
  let s := handleKeypadInput sk (in_key i) s in
  if systemLockedOut s then handleLockout s
  else if systemUnlocked s
          && (INACTIVITY_TIMEOUT <? usub currentTime (lastSystemActivity s))
  then lockSystem sk s
  else if systemUnlocked s then
    match sk with
    | Phase4 => handleSensorDashboard i s
    | Phase5 => handleCompleteDashboard i s
    end
  else displayPasscodeEntry s.

Definition loop (sk : Sketch) (i : input) (s : state) : state :=
  let s := set_clock (clock s + Z.of_N (in_idle i)) s in
  let s :=
    if negb (startupComplete s) then blinkStartup s
    else handleSystem sk i s in
  if lcdInitialized s && negb (lcdStartupComplete s) then handleLCDStartup s
  else s.

Definition run (sk : Sketch) (ins : list input) (s : state) : state :=
  fold_left (fun s i => loop sk i s) ins s.

(** The globals as initialised; [zero] is the float 0.0. *)
Definition power_on (t : Z) : state :=
  let zero := of_decimal 0 (-1) in
  mkState (mkStartup false 0 0) (mkLcdVars false false 0) (mkDisplay 0 0)
          (mkSensors zero zero zero 0 false 0)
          (mkAlerts false false false false false)
          (mkSecurity false EmptyString 0 0 0 false 0)
          (mkMotor false true 0 0 false) (mkJoystick 0 0 false 0)
          (mkBoard false false ScrBlank t []).

(** The state when [setup()] returns; [t] is the time at which it began.
    The motor and joystick globals belong to phase 5; phase 4 neither reads
    nor writes them after this point. *)
Definition setup (t : Z) : state :=
  let s := power_on t in
  let s := initializeLCD s in
  let s := set_lastStartupBlink (now s) s in
  let s := set_lastDisplayUpdate (now s) s in
  let s := set_lastSensorRead (now s) s in
  let s := set_lastKeypadActivity (now s) s in
  let s := set_lastSystemActivity (now s) s in
  let s := set_lastAutoMotorMove (now s) s in
  let s := set_lastJoystickRead (now s) s in
  let s := set_systemUnlocked false s in
  let s := set_enteredPasscode EmptyString s in
  let s := set_failedAttempts 0 s in
  let s := set_systemLockedOut false s in
  let s := set_motorActive false s in
  let s := set_autoMode true s in
  let s := set_currentMotorPosition 0 s in
  set_motorMoving false s.

(** The state of a sketch that has never granted access: the system is
    locked, the entry holds no [*], and the line [ACCESS GRANTED!] has never
    been printed. *)
Definition locked_for_good (s : state) : Prop :=
  systemUnlocked s = false
  /\ has_star (enteredPasscode s) = false
  /\ ~ In SerialAccessGranted (log s).

(** Stepper commands among the log entries. *)
Definition is_step (e : Event) : bool :=
  match e with StepperStep _ => true | _ => false end.

(** Stepper commands and the pauses after them. *)
Definition is_motor (e : Event) : bool :=
  match e with StepperStep _ | StepperPause _ => true | _ => false end.

(** What the motor was told so far, oldest first. *)
Definition motor_trace (s : state) : list Event :=
  rev (filter is_motor (log s)).

(** [n] steps in direction [d], each followed by a pause of [us]
    microseconds. *)
Definition stepped (d us : Z) (n : Z) : list Event :=
  List.concat (repeat [StepperStep d; StepperPause us] (Z.to_nat n)).

(** The time, in microseconds, that the passes [ins] spend outside
    [loop()]. *)
Definition idle_time (ins : list input) : Z :=
  fold_right (fun i a => Z.of_N (in_idle i) + a) 0 ins.

(** The entry fits the passcode field, and the counter of failed attempts
    and the lockout agree. *)
Definition attempts_ok (s : state) : Prop :=
  (String.length (enteredPasscode s) <= 5)%nat
  /\ 0 <= failedAttempts s <= 3
  /\ systemLockedOut s = (failedAttempts s =? 3).

(** The start-up blinks: at most six half blinks, and until the sequence
    is complete both LEDs are on after an odd number of them and off
    after an even number. *)
Definition starting_up (s : state) : Prop :=
  0 <= startupBlinkCount s <= 6
  /\ (startupComplete s = false ->
      pin_green s = Z.odd (startupBlinkCount s)
      /\ pin_red s = Z.odd (startupBlinkCount s)).

(** Nothing of the dashboard has run between [s0] and [s]: sensor data,
    alerts, motor, joystick and display rotation are as they were, and no
    stepper command was issued. *)
Definition dashboard_untouched (s0 s : state) : Prop :=
  sensors s = sensors s0 /\ alerts s = alerts s0 /\ motor s = motor s0
  /\ joystick s = joystick s0 /\ display s = display s0
  /\ filter is_step (log s) = filter is_step (log s0).

(** Time, in microseconds, that a function kept the processor: the clock
    after it minus the clock before it. *)
Definition blocked (f : state -> state) (s : state) : Z :=
  clock (f s) - clock s.

End Sketches.

(** The direction in which [stepMotor] turns: clockwise (+1) for a
    positive [direction], counter-clockwise (-1) for any other. *)
Definition turn (direction : Z) : Z := if 0 <? direction then 1 else -1.

End Security.

(** ** Notions used to state the properties *)

Module Traces.

(** Number of places in a sequence of samples ([true]: button down) where a
    sample is down and the one before it is up; [last] is the sample before
    the first. *)
Fixpoint rising_edges (last : bool) (samples : list bool) : nat :=
  match samples with
  | [] => O
  | p :: rest =>
    ((if p && negb last then 1 else 0) + rising_edges p rest)%nat
  end.

(** Samples of one press of a button whose contact chatters while it
    closes: up, then chatter, then firmly down, then up again. *)
Definition bouncing_press (samples : list bool) : Prop :=
  exists n chatter h m,
    samples = repeat false n ++ chatter ++ repeat true (S h) ++ repeat false m.

(** Samples of one press without chatter. *)
Definition clean_press (samples : list bool) : Prop :=
  exists n h m, samples = repeat false n ++ repeat true h ++ repeat false m.

End Traces.

(** ** Concrete stand-ins for the floating-point parts, for test runs *)

Module Models.

(** The echo conversion in exact integer arithmetic: 0.0343 / 2 cm per
    microsecond. *)
Definition exact_echo : Proximity.EchoModel :=
  {| Proximity.cm_of_us := fun d => Z.quot (d * 343) 20000 |}.

(** Floats as thousandths, [None] for NaN. *)
Definition lift2 (f : Z -> Z -> Z) (a b : option Z) : option Z :=
  match a, b with Some x, Some y => Some (f x y) | _, _ => None end.

Definition test2 (f : Z -> Z -> bool) (a b : option Z) : bool :=
  match a, b with Some x, Some y => f x y | _, _ => false end.

Definition milli : Security.FloatOps :=
  {| Security.float := option Z;
     Security.isnan := fun a => match a with None => true | _ => false end;
     Security.of_long := fun n => Some (1000 * n);
     Security.of_decimal := fun m e => Some (Z.quot (m * 10 ^ (e + 6)) 1000);
     Security.fmul := lift2 (fun x y => Z.quot (x * y) 1000);
     Security.fdiv := fun a b =>
       match b with
       | Some 0 => None
       | _ => lift2 (fun x y => Z.quot (1000 * x) y) a b
       end;
     Security.flt := test2 Z.ltb;
     Security.fle := test2 Z.leb;
     Security.feq := test2 Z.eqb |}.

(** A pass of the security sketches that reads the key [c] after [idle]
    microseconds, with the DHT failing and the other inputs at rest. *)
Definition key_pass (idle : N) (c : ascii) : @Security.input milli :=
  @Security.mkInput milli idle c None None 0 0 0 0 true.

(** A pass that reads the sensors: temperature and humidity as the DHT
    returns them, echo length, water level. *)
Definition sensor_pass (t h : option Z) (echo water : Z)
  : @Security.input milli :=
  @Security.mkInput milli 0 Ascii.zero t h echo water 0 0 true.

(** A pass a quarter of a second after the last one, with [*] pressed and
    with no key; and the state of phase 4 after the start-up blinks and
    two failed attempts. *)
Definition star_pass : @Security.input milli := key_pass 250000 "*".
Definition idle_pass : @Security.input milli := key_pass 250000 Ascii.zero.
Definition two_failures : @Security.state milli :=
  Security.run Security.Phase4 (repeat idle_pass 8 ++ [star_pass; star_pass])
    (Security.setup 0).

End Models.

(* ================================================================== *)
(** * Part II.  Properties                                             *)
(* ================================================================== *)

(** ** The board *)

Module ArduinoFacts.
Import Arduino.

Lemma ulong_range (x : Z) : 0 <= ulong x < 2 ^ 32.
Proof. unfold ulong. apply Z.mod_pos_bound. lia. Qed.

Lemma ulong_small (x : Z) : 0 <= x < 2 ^ 32 -> ulong x = x.
Proof. intros Hx. unfold ulong. apply Z.mod_small. exact Hx. Qed.

Lemma long_small (x : Z) : - 2 ^ 31 <= x < 2 ^ 31 -> long x = x.
Proof. intros Hx. unfold long. rewrite Z.mod_small; lia. Qed.

Lemma int_small (x : Z) : - 2 ^ 15 <= x < 2 ^ 15 -> int x = x.
Proof. intros Hx. unfold int. rewrite Z.mod_small; lia. Qed.

Lemma millis_range (t : Z) : 0 <= millis t < 2 ^ 32.
Proof. apply ulong_range. Qed.

(** The unsigned difference of two wrapped values is the wrapped
    difference. *)
Lemma usub_ulong (a b : Z) : usub (ulong a) (ulong b) = ulong (a - b).
Proof. unfold usub, ulong. rewrite <- Zminus_mod. reflexivity. Qed.

(** Across any number of wraps, the unsigned difference of two clock reads
    is the number of milliseconds between them, as long as that number
    fits in 32 bits. *)
Lemma usub_millis (t1 t2 : Z) :
  t1 <= t2 -> t2 / 1000 - t1 / 1000 < 2 ^ 32 ->
  usub (millis t2) (millis t1) = t2 / 1000 - t1 / 1000.
Proof.
  intros Hle Hlt. unfold millis. rewrite usub_ulong. apply ulong_small.
  split; [|exact Hlt].
  assert (t1 / 1000 <= t2 / 1000) by (apply Z.div_le_mono; lia). lia.
Qed.


Lemma usub_ulong_self (x : Z) : usub x x = 0.
Proof. unfold usub. rewrite Z.sub_diag. reflexivity. Qed.

Example millis_wraps : millis (4294967296 * 1000) = 0.
Proof. reflexivity. Qed.

Example usub_across_wrap : usub 5 4294967295 = 6.
Proof. reflexivity. Qed.

Example map_beep_table :
  List.map (fun d => map d 2 10 100 800) [2; 3; 4; 5; 6; 7; 8; 9; 10]
  = [100; 187; 275; 362; 450; 537; 625; 712; 800].
Proof. reflexivity. Qed.

Lemma update_nat_length {A : Type} (a : list A) (n : nat) (v : A) :
  List.length (update_nat a n v) = List.length a.
Proof.
  revert n. induction a as [|x r IH]; intros [|n]; simpl; auto.
Qed.

Lemma update_length {A : Type} (a : list A) (i : Z) (v : A) :
  List.length (update a i v) = List.length a.
Proof. unfold update. destruct (i <? 0); auto using update_nat_length. Qed.

End ArduinoFacts.

(** ** Phase 1: the blink timer and the clock *)

Module BlinkFacts.
Import Arduino ArduinoFacts Blink.

(** [blinkLED] toggles the LED exactly when the stored timestamp is at
    least 500 ms old by the unsigned subtraction. *)
Lemma blinkLED_rule (s : state) :
  let due := BLINK_INTERVAL <=? usub (millis (clock s)) (previousBlinkTime s) in
  ledState (blinkLED s) = (if due then negb (ledState s) else ledState s)
  /\ pin_led (blinkLED s) = (if due then negb (ledState s) else pin_led s)
  /\ previousBlinkTime (blinkLED s)
     = (if due then millis (clock s) else previousBlinkTime s).
Proof.
  unfold blinkLED. cbv zeta.
  destruct (BLINK_INTERVAL <=? usub (millis (clock s)) (previousBlinkTime s));
    destruct s; simpl; auto.
Qed.

(** The timer is right across a wrap of the counter: if the timestamp was
    taken at time [t0] and fewer than 2^32 ms have gone by since, the LED
    toggles exactly when 500 ms or more have gone by. *)
Lemma blinkLED_across_wrap (s : state) (t0 : Z) :
  previousBlinkTime s = millis t0 -> t0 <= clock s ->
  clock s / 1000 - t0 / 1000 < 2 ^ 32 ->
  ledState (blinkLED s)
  = (if 500 <=? clock s / 1000 - t0 / 1000 then negb (ledState s)
     else ledState s).
Proof.
  intros Hprev Hle Hlt.
  destruct (blinkLED_rule s) as [Hled _]. rewrite Hled, Hprev.
  rewrite usub_millis by assumption. reflexivity.
Qed.

(** *** The clock in a run *)








End BlinkFacts.

(** ** Phase 2: the button *)

Module ButtonFacts.
Import Arduino ArduinoFacts Button Traces.

Lemma readButton_rule (level : bool) (s : state) :
  let edge := negb level && negb (lastButtonState s) in
  presses (readButton level s)
  = ((if edge then 1 else 0) + presses s)%nat
  /\ lastButtonState (readButton level s) = negb level
  /\ ledState (readButton level s)
     = (if edge then negb (ledState s) else ledState s).
Proof.
  unfold readButton, presses. cbv zeta.
  destruct (negb level && negb (lastButtonState s)); destruct s; simpl; auto.
Qed.

Lemma loop_rule (i : N * bool) (s : state) :
  let edge := negb (snd i) && negb (lastButtonState s) in
  presses (loop i s) = ((if edge then 1 else 0) + presses s)%nat
  /\ lastButtonState (loop i s) = negb (snd i)
  /\ ledState (loop i s) = (if edge then negb (ledState s) else ledState s).
Proof.
  unfold loop. cbv zeta.
  set (s1 := set_clock (clock s + Z.of_N (fst i)) s).
  assert (E1 : lastButtonState s1 = lastButtonState s) by (destruct s; reflexivity).
  assert (E2 : presses s1 = presses s) by (destruct s; reflexivity).
  assert (E3 : ledState s1 = ledState s) by (destruct s; reflexivity).
  destruct (readButton_rule (snd i) s1) as (P & L & D).
  rewrite E1, E2, E3 in *.
  set (s2 := readButton (snd i) s1) in *.
  assert (F : presses (handleBuzzer s2) = presses s2
              /\ lastButtonState (handleBuzzer s2) = lastButtonState s2
              /\ ledState (handleBuzzer s2) = ledState s2).
  { unfold handleBuzzer.
    destruct (buzzerActive s2 && _); destruct s2; simpl; auto. }
  destruct F as (F1 & F2 & F3).
  set (s3 := handleBuzzer s2) in *.
  repeat split.
  - transitivity (presses s3); [destruct s3; reflexivity|]. congruence.
  - transitivity (lastButtonState s3); [destruct s3; reflexivity|]. congruence.
  - transitivity (ledState s3); [destruct s3; reflexivity|]. congruence.
Qed.

(** The sketch registers one press per rising edge of the samples. *)
Lemma run_presses (ins : list (N * bool)) (s : state) :
  presses (run ins s)
  = (rising_edges (lastButtonState s) (List.map (fun i => negb (snd i)) ins)
     + presses s)%nat
  .
Proof.
  revert s. induction ins as [|i rest IH]; intros s; simpl.
  - reflexivity.
  - unfold run in *. simpl. rewrite IH.
    destruct (loop_rule i s) as (P & L & _). rewrite P, L. lia.
Qed.

End ButtonFacts.

(** ** Phase 3: the proximity alarm *)

Module ProximityFacts.
Import Arduino ArduinoFacts Proximity Traces.

Section WithEcho.
Context {E : EchoModel}.

(** *** What each function leaves alone *)

Lemma readMuteButton_frame (level : bool) (s : state) :
  let s' := readMuteButton level s in
  count s' = count s /\ digits s' = digits s /\ distance s' = distance s
  /\ previousDisplayMillis s' = previousDisplayMillis s
  /\ previousSensorMillis s' = previousSensorMillis s
  /\ previousBuzzerMillis s' = previousBuzzerMillis s
  /\ buzzerInterval s' = buzzerInterval s
  /\ pin_cathodes s' = pin_cathodes s
  /\ (pin_led s' = pin_led s /\ pin_latch s' = pin_latch s
      /\ shifted s' = shifted s
      /\ count_log is_distance_line s' = count_log is_distance_line s).
Proof.
  unfold readMuteButton, toggleMute, count_log. cbv zeta.
  destruct (negb level && negb (lastButtonState s)); destruct s; simpl;
    repeat split; auto; destruct muteEnabled0; simpl; auto.
Qed.

Lemma readMuteButton_rule (level : bool) (s : state) :
  let edge := negb level && negb (lastButtonState s) in
  let s' := readMuteButton level s in
  lastButtonState s' = negb level
  /\ muteEnabled s' = (if edge then negb (muteEnabled s) else muteEnabled s)
  /\ count_log is_mute_line s'
     = ((if edge then 1 else 0) + count_log is_mute_line s)%nat
  /\ (muteEnabled s' = false -> buzzerState s' = buzzerState s).
Proof.
  unfold readMuteButton, toggleMute, count_log. cbv zeta.
  destruct (negb level && negb (lastButtonState s)); destruct s; simpl;
    repeat split; auto; destruct muteEnabled0; simpl; auto; discriminate.
Qed.

Lemma sampleDistance_frame (echo : Z) (s : state) :
  let s' := sampleDistance echo s in
  count s' = count s /\ buzzerState s' = buzzerState s
  /\ muteEnabled s' = muteEnabled s
  /\ lastButtonState s' = lastButtonState s
  /\ previousDisplayMillis s' = previousDisplayMillis s
  /\ previousSensorMillis s' = previousSensorMillis s
  /\ previousBuzzerMillis s' = previousBuzzerMillis s
  /\ buzzerInterval s' = buzzerInterval s
  /\ pin_cathodes s' = pin_cathodes s
  /\ (pin_latch s' = pin_latch s /\ shifted s' = shifted s
      /\ pin_buzzer s' = pin_buzzer s)
  /\ count_log is_mute_line s' = count_log is_mute_line s.
Proof.
  unfold sampleDistance, break_number, count_log. cbv zeta.
  destruct s; simpl.
  destruct (9999 <? measureDistance echo); simpl; repeat split; auto.
Qed.

(** What the sensor branch stores and prints. *)
Lemma sampleDistance_rule (echo : Z) (s : state) :
  let m := measureDistance echo in
  let s' := sampleDistance echo s in
  distance s' = (if 9999 <? m then 9999 else m)
  /\ digits s' = digits (break_number (distance s') s)
  /\ pin_led s' = (distance s' <=? 5)
  /\ count_log is_distance_line s'
     = S (count_log is_distance_line s).
Proof.
  unfold sampleDistance, break_number, count_log. cbv zeta.
  destruct s; simpl.
  destruct (9999 <? measureDistance echo); simpl; repeat split; auto.
Qed.

Lemma display_number_frame (s s' : state) :
  display_number s = Some s' ->
  digits s' = digits s /\ distance s' = distance s
  /\ buzzerState s' = buzzerState s /\ muteEnabled s' = muteEnabled s
  /\ lastButtonState s' = lastButtonState s
  /\ previousDisplayMillis s' = previousDisplayMillis s
  /\ previousSensorMillis s' = previousSensorMillis s
  /\ previousBuzzerMillis s' = previousBuzzerMillis s
  /\ buzzerInterval s' = buzzerInterval s
  /\ log s' = log s.
Proof.
  unfold display_number. cbv zeta. destruct s; simpl.
  destruct (index digits0 count0) as [d|]; [|discriminate].
  destruct (index numbers d) as [p|]; [|discriminate].
  destruct (index [true; true; true; true] count0) as [c|]; [|discriminate].
  destruct (int (count0 + 1) =? 4); intros [= <-]; simpl; repeat split; auto.
Qed.

Lemma buzzerInterval_set (v : Z) (s : state) :
  buzzerInterval (set_buzzerInterval v s) = v.
Proof. destruct s; reflexivity. Qed.

(** What one call of [display_number] shows. *)
Lemma display_number_rule (s s' : state) :
  display_number s = Some s' ->
  (exists d, index (digits s) (count s) = Some d
             /\ index numbers d = Some (shifted s'))
  /\ pin_latch s' = true
  /\ pin_cathodes s' = update [true; true; true; true] (count s) false
  /\ count s' = (if int (count s + 1) =? 4 then 0 else int (count s + 1))
  /\ pin_led s' = pin_led s /\ pin_buzzer s' = pin_buzzer s.
Proof.
  unfold display_number. cbv zeta. destruct s; simpl.
  destruct (index digits0 count0) as [d|]; [|discriminate].
  destruct (index numbers d) as [p|] eqn:P; [|discriminate].
  destruct (index [true; true; true; true] count0) as [c|]; [|discriminate].
  destruct (int (count0 + 1) =? 4); intros [= <-]; simpl; repeat split;
    auto; exists d; auto.
Qed.

(** [handleCarBackupBuzzer] looks at the mute, the distance, the buzzer
    state and the interval only, and writes the buzzer only. *)
Lemma handleCarBackupBuzzer_reads (x y : state) :
  muteEnabled x = muteEnabled y -> distance x = distance y ->
  buzzerState x = buzzerState y -> buzzerInterval x = buzzerInterval y ->
  buzzerState (handleCarBackupBuzzer x) = buzzerState (handleCarBackupBuzzer y)
  /\ pin_buzzer (handleCarBackupBuzzer x)
     = pin_buzzer (handleCarBackupBuzzer y)
  /\ buzzerInterval (handleCarBackupBuzzer x)
     = buzzerInterval (handleCarBackupBuzzer y).
Proof.
  intros M D B I. unfold handleCarBackupBuzzer. cbv zeta.
  rewrite M, D.
  destruct (muteEnabled y);
    [destruct x, y; simpl in *; subst; repeat split; reflexivity|].
  destruct ((distance y <=? 10) && (2 <=? distance y)).
  - rewrite !buzzerInterval_set.
    destruct (ulong (map (distance y) 2 10 100 800) <? 100);
      destruct x, y; simpl in *; subst; repeat split; reflexivity.
  - destruct ((distance y <? 2) && (0 <? distance y));
      destruct x, y; simpl in *; subst; repeat split; reflexivity.
Qed.

Lemma handleCarBackupBuzzer_pins (s : state) :
  pin_led (handleCarBackupBuzzer s) = pin_led s
  /\ pin_latch (handleCarBackupBuzzer s) = pin_latch s
  /\ shifted (handleCarBackupBuzzer s) = shifted s.
Proof.
  unfold handleCarBackupBuzzer. cbv zeta.
  destruct (muteEnabled s); [destruct s; repeat split; reflexivity|].
  destruct ((distance s <=? 10) && (2 <=? distance s)).
  - destruct (buzzerInterval (set_buzzerInterval _ s) <? 100);
      destruct s; repeat split; reflexivity.
  - destruct ((distance s <? 2) && (0 <? distance s));
      destruct s; repeat split; reflexivity.
Qed.

Lemma handleCarBackupBuzzer_frame (s : state) :
  let s' := handleCarBackupBuzzer s in
  count s' = count s /\ digits s' = digits s /\ distance s' = distance s
  /\ muteEnabled s' = muteEnabled s
  /\ lastButtonState s' = lastButtonState s
  /\ previousDisplayMillis s' = previousDisplayMillis s
  /\ previousSensorMillis s' = previousSensorMillis s
  /\ previousBuzzerMillis s' = previousBuzzerMillis s
  /\ pin_cathodes s' = pin_cathodes s
  /\ log s' = log s.
Proof.
  unfold handleCarBackupBuzzer. cbv zeta.
  destruct (muteEnabled s) eqn:M;
    [destruct s; simpl in M; subst; repeat split; reflexivity|].
  destruct ((distance s <=? 10) && (2 <=? distance s)).
  - destruct (buzzerInterval (set_buzzerInterval _ s) <? 100);
      destruct s; simpl in M; subst; repeat split; reflexivity.
  - destruct ((distance s <? 2) && (0 <? distance s));
      destruct s; simpl in M; subst; repeat split; reflexivity.
Qed.

(** *** The beep interval *)

Lemma map_beep (d : Z) :
  2 <= d <= 10 -> map d 2 10 100 800 = (d - 2) * 700 / 8 + 100.
Proof.
  intros Hd.
  assert (Hcases : d = 2 \/ d = 3 \/ d = 4 \/ d = 5 \/ d = 6 \/ d = 7
                   \/ d = 8 \/ d = 9 \/ d = 10) by lia.
  repeat (destruct Hcases as [-> | Hcases]; [reflexivity|]).
  subst d. reflexivity.
Qed.

Lemma map_beep_range (d : Z) :
  2 <= d <= 10 -> 100 <= map d 2 10 100 800 <= 800.
Proof.
  intros Hd. rewrite map_beep by assumption.
  assert (0 <= (d - 2) * 700 / 8) by (apply Z.div_pos; lia).
  assert ((d - 2) * 700 / 8 <= 5600 / 8) by (apply Z.div_le_mono; lia).
  change (5600 / 8) with 700 in *. lia.
Qed.

Lemma map_beep_monotone (d1 d2 : Z) :
  2 <= d1 <= d2 -> d2 <= 10 ->
  map d1 2 10 100 800 <= map d2 2 10 100 800.
Proof.
  intros H1 H2. rewrite !map_beep by lia.
  assert ((d1 - 2) * 700 / 8 <= (d2 - 2) * 700 / 8)
    by (apply Z.div_le_mono; lia).
  lia.
Qed.

Lemma beep_zone (d : Z) :
  2 <= d <= 10 -> (d <=? 10) && (2 <=? d) = true.
Proof. intros Hd. apply andb_true_iff; split; apply Z.leb_le; lia. Qed.

Lemma danger_zone (d : Z) :
  0 < d < 2 ->
  (d <=? 10) && (2 <=? d) = false /\ (d <? 2) && (0 <? d) = true.
Proof.
  intros Hd. split.
  - apply andb_false_iff; right; apply Z.leb_gt; lia.
  - apply andb_true_iff; split; apply Z.ltb_lt; lia.
Qed.

Lemma clear_zone (d : Z) :
  d <= 0 \/ 10 < d ->
  (d <=? 10) && (2 <=? d) = false /\ (d <? 2) && (0 <? d) = false.
Proof.
  intros Hd. split; apply andb_false_iff.
  - destruct Hd; [right|left]; apply Z.leb_gt; lia.
  - destruct Hd; [right|left]; apply Z.ltb_ge; lia.
Qed.

(** The three zones of [handleCarBackupBuzzer] with the mute off. *)
Lemma handleCarBackupBuzzer_zones (s : state) :
  muteEnabled s = false ->
  let d := distance s in
  let s' := handleCarBackupBuzzer s in
  (2 <= d <= 10 ->
     buzzerInterval s' = map d 2 10 100 800
     /\ buzzerState s' = negb (buzzerState s)
     /\ pin_buzzer s' = negb (buzzerState s))
  /\ (0 < d < 2 -> buzzerState s' = true /\ pin_buzzer s' = true)
  /\ (d = 0 \/ 10 < d ->
      buzzerState s' = false /\ pin_buzzer s' = false
      /\ buzzerInterval s' = 200).
Proof.
  intros Hmute. unfold handleCarBackupBuzzer. cbv zeta. rewrite Hmute.
  split; [|split]; intros Hz.
  - rewrite (beep_zone _ Hz). pose proof (map_beep_range _ Hz) as R.
    rewrite buzzerInterval_set, ulong_small by lia.
    destruct (map (distance s) 2 10 100 800 <? 100) eqn:L;
      [apply Z.ltb_lt in L; lia|].
    destruct s; repeat split; reflexivity.
  - destruct (danger_zone _ Hz) as [C D]. rewrite C, D.
    destruct s; repeat split; reflexivity.
  - destruct (clear_zone (distance s)) as [C D]; [lia|]. rewrite C, D.
    destruct s; repeat split; reflexivity.
Qed.

(** *** One pass through the loop, taken apart *)

Lemma loop_stages (i : input) (s s' : state) :
  loop i s = Some s' ->
  let cur := millis (in_time i) in
  exists s1 s2 s3,
    s1 = readMuteButton (in_button i) s
    /\ s2 = (if due i sensorInterval (previousSensorMillis s1) then
               sampleDistance (in_echo i) (set_previousSensorMillis cur s1)
             else s1)
    /\ (if due i displayInterval (previousDisplayMillis s2) then
          display_number (set_previousDisplayMillis cur s2) = Some s3
        else s3 = s2)
    /\ s' = (if due i (buzzerInterval s3) (previousBuzzerMillis s3) then
               handleCarBackupBuzzer (set_previousBuzzerMillis cur s3)
             else s3).
Proof.
  unfold loop, due. cbv zeta.
  set (s1 := readMuteButton (in_button i) s).
  set (s2 := if sensorInterval <=? _ then _ else s1).
  intros L. exists s1, s2.
  destruct (displayInterval <=? usub (millis (in_time i))
                                    (previousDisplayMillis s2)).
  - destruct (display_number _) as [s3|] eqn:D; [|discriminate].
    injection L as <-. exists s3. repeat split; reflexivity.
  - injection L as <-. exists s2. repeat split; reflexivity.
Qed.
(** The sensor stage of the loop. *)
Lemma sensor_stage (i : input) (s1 : state) :
  let cur := millis (in_time i) in
  let d := due i sensorInterval (previousSensorMillis s1) in
  let s2 :=
    if d then sampleDistance (in_echo i) (set_previousSensorMillis cur s1)
    else s1 in
  previousSensorMillis s2 = (if d then cur else previousSensorMillis s1)
  /\ previousDisplayMillis s2 = previousDisplayMillis s1
  /\ previousBuzzerMillis s2 = previousBuzzerMillis s1
  /\ buzzerInterval s2 = buzzerInterval s1
  /\ (count s2 = count s1 /\ pin_cathodes s2 = pin_cathodes s1
      /\ pin_latch s2 = pin_latch s1 /\ shifted s2 = shifted s1
      /\ pin_buzzer s2 = pin_buzzer s1)
  /\ muteEnabled s2 = muteEnabled s1 /\ buzzerState s2 = buzzerState s1
  /\ lastButtonState s2 = lastButtonState s1
  /\ count_log is_mute_line s2 = count_log is_mute_line s1.
Proof.
  cbv zeta. destruct (due i sensorInterval (previousSensorMillis s1)).
  - match goal with |- context [sampleDistance ?e ?x] =>
      pose proof (sampleDistance_frame e x) as F end.
    cbv zeta in F.
    destruct F as (Fc & Fb & Fm & Fl & Fd & Fs & Fz & Fi & Fp
                   & (Fla & Fsh & Fpb) & Fq).
    rewrite Fc, Fb, Fm, Fl, Fd, Fs, Fz, Fi, Fp, Fla, Fsh, Fpb, Fq.
    repeat split; destruct s1; reflexivity.
  - repeat split.
Qed.

(** What the sensor stage does to the distance, the digits and the LED. *)
Lemma sensor_stage_body (i : input) (s1 : state) :
  let cur := millis (in_time i) in
  let m := measureDistance (in_echo i) in
  let s2 :=
    if due i sensorInterval (previousSensorMillis s1)
    then sampleDistance (in_echo i) (set_previousSensorMillis cur s1)
    else s1 in
  if due i sensorInterval (previousSensorMillis s1) then
    distance s2 = (if 9999 <? m then 9999 else m)
    /\ digits s2 = digits (break_number (distance s2) s1)
    /\ pin_led s2 = (distance s2 <=? 5)
    /\ count_log is_distance_line s2 = S (count_log is_distance_line s1)
  else s2 = s1.
Proof.
  cbv zeta. destruct (due i sensorInterval (previousSensorMillis s1));
    [|reflexivity].
  match goal with |- context [sampleDistance ?e ?x] =>
    pose proof (sampleDistance_rule e x) as R end.
  cbv zeta in R. destruct R as (R1 & R2 & R3 & R4).
  rewrite R1 in *. rewrite R2, R3, R4.
  repeat split; destruct s1; reflexivity.
Qed.

(** The display stage. *)
Lemma display_stage (i : input) (s2 s3 : state) :
  let cur := millis (in_time i) in
  let d := due i displayInterval (previousDisplayMillis s2) in
  (if d then display_number (set_previousDisplayMillis cur s2) = Some s3
   else s3 = s2) ->
  previousSensorMillis s3 = previousSensorMillis s2
  /\ previousDisplayMillis s3 = (if d then cur else previousDisplayMillis s2)
  /\ previousBuzzerMillis s3 = previousBuzzerMillis s2
  /\ buzzerInterval s3 = buzzerInterval s2
  /\ (digits s3 = digits s2 /\ pin_led s3 = pin_led s2
      /\ pin_buzzer s3 = pin_buzzer s2
      /\ count_log is_distance_line s3 = count_log is_distance_line s2)
  /\ muteEnabled s3 = muteEnabled s2 /\ buzzerState s3 = buzzerState s2
  /\ lastButtonState s3 = lastButtonState s2
  /\ count_log is_mute_line s3 = count_log is_mute_line s2
  /\ distance s3 = distance s2.
Proof.
  cbv zeta. destruct (due i displayInterval (previousDisplayMillis s2)).
  - intros D. pose proof (display_number_rule _ _ D) as R.
    destruct R as (_ & _ & _ & _ & Rl & Rb).
    apply display_number_frame in D.
    destruct D as (Fg & Fx & Fb & Fm & Fl & Fd & Fs & Fz & Fi & Fo).
    rewrite Fg, Fx, Fb, Fm, Fl, Fd, Fs, Fz, Fi, Rl, Rb. unfold count_log.
    rewrite Fo. repeat split; destruct s2; reflexivity.
  - intros ->. repeat split.
Qed.

Lemma next_digit (c : Z) :
  0 <= c <= 3 ->
  (if int (c + 1) =? 4 then 0 else int (c + 1)) = (c + 1) mod 4.
Proof.
  intros Hc. rewrite int_small by lia.
  assert (C : c = 0 \/ c = 1 \/ c = 2 \/ c = 3) by lia.
  destruct C as [-> | [-> | [-> | ->]]]; reflexivity.
Qed.

(** What the display stage shows. *)
Lemma display_stage_body (i : input) (s2 s3 : state) :
  let cur := millis (in_time i) in
  (if due i displayInterval (previousDisplayMillis s2)
   then display_number (set_previousDisplayMillis cur s2) = Some s3
   else s3 = s2) ->
  0 <= count s2 <= 3 ->
  if due i displayInterval (previousDisplayMillis s2) then
    (exists d, index (digits s2) (count s2) = Some d
               /\ index numbers d = Some (shifted s3))
    /\ pin_latch s3 = true
    /\ pin_cathodes s3 = update [true; true; true; true] (count s2) false
    /\ count s3 = (count s2 + 1) mod 4
  else s3 = s2.
Proof.
  cbv zeta. destruct (due i displayInterval (previousDisplayMillis s2));
    [|auto].
  intros D Hc. apply display_number_rule in D.
  destruct D as (Rd & Rl & Rc & Rn & _).
  assert (X : digits (set_previousDisplayMillis (millis (in_time i)) s2)
              = digits s2
              /\ count (set_previousDisplayMillis (millis (in_time i)) s2)
                 = count s2) by (destruct s2; split; reflexivity).
  destruct X as (X1 & X2). rewrite X1, X2 in *.
  rewrite next_digit in Rn by exact Hc. auto.
Qed.

(** The buzzer stage. *)
Lemma buzzer_stage (i : input) (s3 : state) :
  let cur := millis (in_time i) in
  let d := due i (buzzerInterval s3) (previousBuzzerMillis s3) in
  let s' :=
    if d then handleCarBackupBuzzer (set_previousBuzzerMillis cur s3)
    else s3 in
  previousSensorMillis s' = previousSensorMillis s3
  /\ previousDisplayMillis s' = previousDisplayMillis s3
  /\ previousBuzzerMillis s' = (if d then cur else previousBuzzerMillis s3)
  /\ (count s' = count s3 /\ digits s' = digits s3
      /\ pin_cathodes s' = pin_cathodes s3 /\ pin_led s' = pin_led s3
      /\ pin_latch s' = pin_latch s3 /\ shifted s' = shifted s3
      /\ count_log is_distance_line s' = count_log is_distance_line s3)
  /\ muteEnabled s' = muteEnabled s3
  /\ lastButtonState s' = lastButtonState s3
  /\ count_log is_mute_line s' = count_log is_mute_line s3
  /\ distance s' = distance s3.
Proof.
  cbv zeta. destruct (due i (buzzerInterval s3) (previousBuzzerMillis s3)).
  - match goal with |- context [handleCarBackupBuzzer ?x] =>
      pose proof (handleCarBackupBuzzer_frame x) as F;
      pose proof (handleCarBackupBuzzer_pins x) as P end.
    cbv zeta in F.
    destruct F as (Fc & Fg & Fx & Fm & Fl & Fd & Fs & Fz & Fp & Fo).
    destruct P as (P1 & P2 & P3).
    rewrite Fc, Fg, Fx, Fm, Fl, Fd, Fs, Fz, Fp, P1, P2, P3. unfold count_log.
    rewrite Fo. repeat split; destruct s3; reflexivity.
  - repeat split.
Qed.

(** With the mute off and the distance in the beep zone after a pass, the
    buzzer has toggled in that pass exactly if its interval had elapsed. *)
Lemma loop_beep (i : input) (s s' : state) :
  loop i s = Some s' ->
  muteEnabled s' = false -> 2 <= distance s' <= 10 ->
  let d := due i (buzzerInterval s) (previousBuzzerMillis s) in
  buzzerState s' = (if d then negb (buzzerState s) else buzzerState s)
  /\ (d = true ->
      pin_buzzer s' = buzzerState s'
      /\ buzzerInterval s' = map (distance s') 2 10 100 800).
Proof.
  intros L Hmute Hd. apply loop_stages in L. cbv zeta in L.
  destruct L as (s1 & s2 & s3 & E1 & E2 & D & E4).
  pose proof (readMuteButton_frame (in_button i) s) as F1. cbv zeta in F1.
  pose proof (readMuteButton_rule (in_button i) s) as R1. cbv zeta in R1.
  rewrite <- E1 in F1, R1.
  destruct F1 as (_ & _ & _ & _ & _ & A3 & A4 & _).
  destruct R1 as (_ & _ & _ & A6).
  pose proof (sensor_stage i s1) as F2. cbv zeta in F2. rewrite <- E2 in F2.
  destruct F2 as (_ & _ & B3 & B4 & _ & B6 & B7 & _).
  apply display_stage in D. cbv zeta in D.
  destruct D as (_ & _ & C3 & C4 & _ & C6 & C7 & _ & _ & C9).
  pose proof (buzzer_stage i s3) as F4. cbv zeta in F4. rewrite <- E4 in F4.
  destruct F4 as (_ & _ & _ & _ & D6 & _ & _ & D9).
  assert (Ei : buzzerInterval s3 = buzzerInterval s) by congruence.
  assert (Ep : previousBuzzerMillis s3 = previousBuzzerMillis s)
    by congruence.
  assert (Em : muteEnabled s3 = false) by congruence.
  assert (Eb : buzzerState s3 = buzzerState s).
  { rewrite C7, B7. apply A6. congruence. }
  rewrite Ei, Ep in E4. cbv zeta.
  destruct (due i (buzzerInterval s) (previousBuzzerMillis s)).
  - set (x := set_previousBuzzerMillis (millis (in_time i)) s3) in *.
    assert (Xm : muteEnabled x = false) by (destruct s3; exact Em).
    assert (Xd : distance x = distance s3) by (destruct s3; reflexivity).
    assert (Xb : buzzerState x = buzzerState s3) by (destruct s3; reflexivity).
    pose proof (handleCarBackupBuzzer_zones x Xm) as Z. cbv zeta in Z.
    destruct Z as (Z & _). rewrite <- E4 in Z.
    destruct Z as (Zi & Zs & Zp); [rewrite Xd, <- D9; exact Hd|].
    rewrite Zs, Zp, Zi, Xb, Eb, Xd, D9. auto.
  - subst s'. split; [exact Eb|discriminate].
Qed.

(** *** The display index *)

Lemma display_ok_same (s s' : state) :
  digits s' = digits s -> count s' = count s ->
  pin_cathodes s' = pin_cathodes s -> distance s' = distance s ->
  display_ok s -> display_ok s'.
Proof.
  unfold display_ok. intros -> -> -> ->. auto.
Qed.

Lemma digit_range (num k : Z) :
  0 <= num -> 0 < k -> 0 <= int (Z.rem (Z.quot num k) 10) <= 9.
Proof.
  intros Hn Hk.
  assert (0 <= Z.quot num k) by (apply Z.quot_pos; lia).
  pose proof (Z.rem_bound_pos (Z.quot num k) 10 ltac:(lia) ltac:(lia)).
  rewrite int_small; lia.
Qed.

Lemma break_number_digits (num : Z) (s : state) :
  0 <= num <= 9999 ->
  List.length (digits (break_number num s)) = 4%nat
  /\ Forall (fun d => 0 <= d <= 9) (digits (break_number num s)).
Proof.
  intros Hn. unfold break_number. destruct s; simpl. split; [reflexivity|].
  assert (H0 : 0 <= Z.quot num 1000 <= 9).
  { split; [apply Z.quot_pos; lia|].
    rewrite Z.quot_div_nonneg by lia.
    apply Z.lt_succ_r. apply Z.div_lt_upper_bound; lia. }
  repeat constructor.
  - rewrite int_small; lia.
  - rewrite int_small; lia.
  - apply digit_range; lia.
  - apply digit_range; lia.
  - apply digit_range; lia.
  - apply digit_range; lia.
  - rewrite <- (Z.quot_1_r num) at 1. apply digit_range; lia.
  - rewrite <- (Z.quot_1_r num) at 1. apply digit_range; lia.
Qed.

(** A measured distance is never negative when the pulse length is not. *)
Lemma measureDistance_nonneg (echo : Z) :
  (forall d, 0 <= d -> 0 <= cm_of_us d) ->
  0 <= echo < 2 ^ 31 -> 0 <= measureDistance echo.
Proof.
  intros Hcm He. unfold measureDistance. cbv zeta.
  rewrite long_small by lia.
  destruct (echo =? 0); [lia|]. apply Hcm. lia.
Qed.

Lemma sampleDistance_ok (echo : Z) (s : state) :
  (forall d, 0 <= d -> 0 <= cm_of_us d) ->
  0 <= echo < 2 ^ 31 ->
  display_ok s -> display_ok (sampleDistance echo s).
Proof.
  intros Hcm He (_ & _ & Hc & Hp & _).
  pose proof (measureDistance_nonneg echo Hcm He) as Hm.
  unfold sampleDistance. cbv zeta.
  set (s1 := set_distance (measureDistance echo) s).
  set (s2 := if 9999 <? distance s1 then set_distance 9999 s1 else s1).
  assert (Hd : 0 <= distance s2 <= 9999).
  { subst s2 s1. destruct s; simpl.
    destruct (9999 <? measureDistance echo) eqn:C; simpl;
      [lia|apply Z.ltb_ge in C; lia]. }
  assert (Hc2 : count s2 = count s /\ pin_cathodes s2 = pin_cathodes s).
  { subst s2 s1. destruct s; simpl.
    destruct (9999 <? measureDistance echo); simpl; auto. }
  destruct Hc2 as (Hc2 & Hp2).
  destruct (break_number_digits (distance s2) s2 Hd) as (Hl & Hf).
  set (s3 := break_number (distance s2) s2) in *.
  assert (Hs3 : count s3 = count s2 /\ pin_cathodes s3 = pin_cathodes s2
                /\ distance s3 = distance s2)
    by (subst s3; destruct s2; simpl; auto).
  destruct Hs3 as (Hc3 & Hp3 & Hd3).
  unfold display_ok. destruct s3; simpl in *.
  repeat split; try assumption; try lia; congruence.
Qed.

Lemma index_in_range {A : Type} (a : list A) (i : Z) :
  0 <= i < Z.of_nat (List.length a) ->
  exists x, index a i = Some x /\ In x a.
Proof.
  intros Hi. unfold index.
  destruct (i <? 0) eqn:C; [apply Z.ltb_lt in C; lia|].
  destruct (nth_error a (Z.to_nat i)) as [x|] eqn:N.
  - exists x. split; [reflexivity|]. eapply nth_error_In; eassumption.
  - apply nth_error_None in N. lia.
Qed.

Lemma next_count (c : Z) :
  0 <= c <= 3 ->
  0 <= (if int (c + 1) =? 4 then 0 else int (c + 1)) <= 3.
Proof.
  intros Hc. rewrite int_small by lia.
  destruct (c + 1 =? 4) eqn:C; [lia|]. apply Z.eqb_neq in C. lia.
Qed.

(** With sound display data [display_number] stays inside its arrays and
    keeps the data sound. *)
Lemma display_number_ok (s : state) :
  display_ok s -> exists s', display_number s = Some s' /\ display_ok s'.
Proof.
  intros (Hl & Hf & Hc & Hp & Hd). unfold display_number. cbv zeta.
  destruct s as [c ds dist bs me lb pd ps pb bi pbz pl pc pla sh lg].
  simpl in *.
  destruct (index_in_range ds c) as (d & -> & Hin); [lia|].
  rewrite Forall_forall in Hf. pose proof (Hf d Hin) as Hd9.
  destruct (index_in_range numbers d) as (p & -> & _); [simpl; lia|].
  destruct (index_in_range [true; true; true; true] c) as (l & -> & _);
    [simpl; lia|].
  pose proof (next_count c Hc) as Hn.
  eexists. split; [reflexivity|]. unfold display_ok.
  destruct (int (c + 1) =? 4); simpl;
    (repeat split; try assumption; try lia;
     [apply Forall_forall; assumption | apply update_length]).
Qed.

Lemma loop_ok (i : input) (s : state) :
  (forall d, 0 <= d -> 0 <= cm_of_us d) ->
  echo_ok i -> display_ok s ->
  exists s', loop i s = Some s' /\ display_ok s'.
Proof.
  intros Hcm He Hs. unfold loop. cbv zeta.
  set (s1 := readMuteButton (in_button i) s).
  assert (H1 : display_ok s1).
  { pose proof (readMuteButton_frame (in_button i) s) as F. cbv zeta in F.
    destruct F as (Fc & Fd & Fx & _ & _ & _ & _ & Fp & _).
    apply (display_ok_same s); assumption. }
  set (s2 := if sensorInterval <=? _ then _ else s1).
  assert (H2 : display_ok s2).
  { subst s2. destruct (sensorInterval <=? _); [|exact H1].
    apply sampleDistance_ok; [exact Hcm|exact He|].
    apply (display_ok_same s1); try (destruct s1; reflexivity). exact H1. }
  set (r := if displayInterval <=? _ then _ else Some s2).
  assert (H3 : exists s3, r = Some s3 /\ display_ok s3).
  { subst r. destruct (displayInterval <=? _).
    - apply display_number_ok.
      apply (display_ok_same s2); try (destruct s2; reflexivity). exact H2.
    - exists s2. auto. }
  destruct H3 as (s3 & -> & H3). eexists. split; [reflexivity|].
  destruct (buzzerInterval s3 <=? _); [|exact H3].
  match goal with |- display_ok (handleCarBackupBuzzer ?x) =>
    pose proof (handleCarBackupBuzzer_frame x) as F end.
  cbv zeta in F. destruct F as (Fc & Fd & Fx & _ & _ & _ & _ & _ & Fp & _).
  eapply display_ok_same; [exact Fd|exact Fc|exact Fp|exact Fx|].
  apply (display_ok_same s3); try (destruct s3; reflexivity). exact H3.
Qed.

Lemma setup_ok : display_ok setup.
Proof.
  unfold display_ok, setup. simpl.
  repeat split; try lia. repeat constructor; lia.
Qed.

Lemma run_ok (ins : list input) (s : state) :
  (forall d, 0 <= d -> 0 <= cm_of_us d) ->
  Forall echo_ok ins -> display_ok s ->
  exists s', run ins s = Some s' /\ display_ok s'.
Proof.
  intros Hcm. revert s.
  induction ins as [|i rest IH]; intros s He Hs; simpl.
  - exists s. auto.
  - inversion He as [|? ? Hi Hrest]; subst.
    destruct (loop_ok i s Hcm Hi Hs) as (s1 & -> & H1).
    apply IH; assumption.
Qed.

(** C10: in the proximity alarm every measured distance is clamped to at
    most 9999 before [break_number] splits it, so each of the four digits
    lies between 0 and 9 and [display_number] never indexes the ten-entry
    pattern array out of bounds: from [setup()] on, whatever the inputs,
    every pass through the loop completes without an access outside an
    array and leaves four digits in 0..9 and a distance in 0..9999.
    A measured distance is the conversion of a pulse length, which is not
    negative, by a conversion that keeps the sign. *)
Theorem C10_display_index_in_bounds (ins : list input) :
  (forall d, 0 <= d -> 0 <= cm_of_us d) ->
  Forall echo_ok ins ->
  exists s',
    run ins setup = Some s'
    /\ List.length (digits s') = 4%nat
    /\ Forall (fun d => 0 <= d <= 9) (digits s')
    /\ 0 <= distance s' <= 9999
    /\ (exists d p, index (digits s') (count s') = Some d
                    /\ index numbers d = Some p).
Proof.
  intros Hcm He.
  destruct (run_ok ins setup Hcm He setup_ok) as (s' & R & Hs).
  exists s'. split; [exact R|].
  destruct Hs as (Hl & Hf & Hc & Hp & Hd).
  repeat split; try assumption; try lia.
  destruct (index_in_range (digits s') (count s')) as (d & Hi & Hin); [lia|].
  rewrite Forall_forall in Hf. pose proof (Hf d Hin) as Hd9.
  destruct (index_in_range numbers d) as (p & Hp' & _); [simpl; lia|].
  exists d, p. auto.
Qed.

(** *** The tick rule *)

(** The timestamps after a pass. *)
Lemma loop_stamps (i : input) (s s' : state) (t : Task) :
  loop i s = Some s' ->
  last_run t s'
  = (if due i (interval t s) (last_run t s) then millis (in_time i)
     else last_run t s).
Proof.
  intros L. apply loop_stages in L. cbv zeta in L.
  destruct L as (s1 & s2 & s3 & E1 & E2 & D & E4).
  pose proof (readMuteButton_frame (in_button i) s) as F1. cbv zeta in F1.
  rewrite <- E1 in F1.
  destruct F1 as (_ & _ & _ & A1 & A2 & A3 & A4 & _).
  pose proof (sensor_stage i s1) as F2. cbv zeta in F2. rewrite <- E2 in F2.
  destruct F2 as (B1 & B2 & B3 & B4 & _).
  apply display_stage in D. cbv zeta in D.
  destruct D as (C1 & C2 & C3 & C4 & _).
  pose proof (buzzer_stage i s3) as F4. cbv zeta in F4. rewrite <- E4 in F4.
  destruct F4 as (D1 & D2 & D3 & _).
  assert (Ei : buzzerInterval s3 = buzzerInterval s) by congruence.
  assert (Ep : previousBuzzerMillis s3 = previousBuzzerMillis s)
    by congruence.
  rewrite Ei, Ep in D3. rewrite B2, A1 in C2. rewrite A2 in B1.
  destruct t; simpl; congruence.
Qed.

(** The sensor branch in a pass. *)
Lemma loop_sensor (i : input) (s s' : state) :
  loop i s = Some s' ->
  let m := measureDistance (in_echo i) in
  if due i sensorInterval (previousSensorMillis s) then
    distance s' = (if 9999 <? m then 9999 else m)
    /\ digits s' = digits (break_number (distance s') s)
    /\ pin_led s' = (distance s' <=? 5)
    /\ count_log is_distance_line s' = S (count_log is_distance_line s)
  else
    distance s' = distance s /\ digits s' = digits s
    /\ pin_led s' = pin_led s
    /\ count_log is_distance_line s' = count_log is_distance_line s.
Proof.
  intros L. apply loop_stages in L. cbv zeta in L.
  destruct L as (s1 & s2 & s3 & E1 & E2 & D & E4).
  pose proof (readMuteButton_frame (in_button i) s) as F1. cbv zeta in F1.
  rewrite <- E1 in F1.
  destruct F1 as (_ & A2 & A3 & _ & A5 & _ & _ & _ & (A9 & _ & _ & A12)).
  pose proof (sensor_stage_body i s1) as F2. cbv zeta in F2.
  rewrite <- E2 in F2. rewrite A5 in F2.
  apply display_stage in D. cbv zeta in D.
  destruct D as (_ & _ & _ & _ & (C5 & C6 & _ & C8) & _ & _ & _ & _ & C13).
  pose proof (buzzer_stage i s3) as F4. cbv zeta in F4. rewrite <- E4 in F4.
  destruct F4 as (_ & _ & _ & (_ & D5 & _ & D7 & _ & _ & D10) & _ & _ & _
                  & D14).
  destruct (due i sensorInterval (previousSensorMillis s)).
  - destruct F2 as (G1 & G2 & G3 & G4).
    rewrite D14, C13, D5, C5, D7, C6, D10, C8, G1, G2, G3, G4, A12, G1.
    cbv zeta. repeat split.
  - rewrite D14, C13, D5, C5, D7, C6, D10, C8, F2, A2, A3, A9, A12. auto.
Qed.

(** The display branch in a pass. *)
Lemma loop_display (i : input) (s s' : state) :
  loop i s = Some s' -> 0 <= count s <= 3 ->
  if due i displayInterval (previousDisplayMillis s) then
    (exists d, index (digits s') (count s) = Some d
               /\ index numbers d = Some (shifted s'))
    /\ pin_latch s' = true
    /\ pin_cathodes s' = update [true; true; true; true] (count s) false
    /\ count s' = (count s + 1) mod 4
  else
    count s' = count s /\ shifted s' = shifted s
    /\ pin_latch s' = pin_latch s /\ pin_cathodes s' = pin_cathodes s.
Proof.
  intros L Hc. apply loop_stages in L. cbv zeta in L.
  destruct L as (s1 & s2 & s3 & E1 & E2 & D & E4).
  pose proof (readMuteButton_frame (in_button i) s) as F1. cbv zeta in F1.
  rewrite <- E1 in F1.
  destruct F1 as (A1 & _ & _ & A4 & _ & _ & _ & A8 & (_ & A10 & A11 & _)).
  pose proof (sensor_stage i s1) as F2. cbv zeta in F2. rewrite <- E2 in F2.
  destruct F2 as (_ & B2 & _ & _ & (B5 & B6 & B7 & B8 & _) & _).
  assert (Hc2 : 0 <= count s2 <= 3) by (rewrite B5, A1; exact Hc).
  pose proof (display_stage_body i s2 s3 D Hc2) as Db. cbv zeta in Db.
  apply display_stage in D. cbv zeta in D.
  destruct D as (_ & _ & _ & _ & (C5 & _) & _).
  pose proof (buzzer_stage i s3) as F4. cbv zeta in F4. rewrite <- E4 in F4.
  destruct F4 as (_ & _ & _ & (D4 & D5 & D6 & _ & D8 & D9 & _) & _).
  rewrite B2, A4 in Db.
  destruct (due i displayInterval (previousDisplayMillis s)).
  - destruct Db as (G1 & G2 & G3 & G4).
    rewrite D4, D5, D6, D8, D9, G2, G3, G4, B5, A1, C5.
    rewrite B5, A1 in G1. auto.
  - subst s3. rewrite D4, D6, D8, D9, B5, B6, B7, B8, A1, A8, A10, A11. auto.
Qed.

(** The buzzer branch in a pass. *)
Lemma loop_buzzer (i : input) (s s' : state) :
  loop i s = Some s' ->
  let pressed := readMuteButton (in_button i) s in
  let seen := set_distance (distance s') pressed in
  if due i (buzzerInterval s) (previousBuzzerMillis s) then
    buzzerState s' = buzzerState (handleCarBackupBuzzer seen)
    /\ pin_buzzer s' = pin_buzzer (handleCarBackupBuzzer seen)
    /\ buzzerInterval s' = buzzerInterval (handleCarBackupBuzzer seen)
  else
    buzzerState s' = buzzerState pressed
    /\ pin_buzzer s' = pin_buzzer pressed
    /\ buzzerInterval s' = buzzerInterval s.
Proof.
  intros L. apply loop_stages in L. cbv zeta in L.
  destruct L as (s1 & s2 & s3 & E1 & E2 & D & E4).
  pose proof (readMuteButton_frame (in_button i) s) as F1. cbv zeta in F1.
  rewrite <- E1 in F1.
  destruct F1 as (_ & _ & _ & _ & _ & A6 & A7 & _).
  pose proof (sensor_stage i s1) as F2. cbv zeta in F2. rewrite <- E2 in F2.
  destruct F2 as (_ & _ & B3 & B4 & (_ & _ & _ & _ & B9) & B10 & B11 & _).
  apply display_stage in D. cbv zeta in D.
  destruct D as (_ & _ & C3 & C4 & (_ & _ & C7 & _) & C9 & C10 & _).
  pose proof (buzzer_stage i s3) as F4. cbv zeta in F4. rewrite <- E4 in F4.
  destruct F4 as (_ & _ & _ & _ & _ & _ & _ & D8).
  assert (Ei : buzzerInterval s3 = buzzerInterval s) by congruence.
  assert (Ep : previousBuzzerMillis s3 = previousBuzzerMillis s)
    by congruence.
  rewrite Ei, Ep in E4. cbv zeta. rewrite <- E1.
  destruct (due i (buzzerInterval s) (previousBuzzerMillis s)).
  - subst s'.
    apply handleCarBackupBuzzer_reads.
    + transitivity (muteEnabled s3); [destruct s3; reflexivity|].
      transitivity (muteEnabled s1); [congruence|destruct s1; reflexivity].
    + transitivity (distance s3); [destruct s3; reflexivity|].
      rewrite <- D8. destruct s1; reflexivity.
    + transitivity (buzzerState s3); [destruct s3; reflexivity|].
      transitivity (buzzerState s1); [congruence|destruct s1; reflexivity].
    + transitivity (buzzerInterval s3); [destruct s3; reflexivity|].
      transitivity (buzzerInterval s1); [congruence|destruct s1; reflexivity].
  - subst s'. repeat split; congruence.
Qed.

(** C7: the tick rule of the cooperative loop of the proximity alarm.
    Every pass through the loop completes, and for each of the three timed
    tasks the body runs in that pass if and only if the unsigned difference
    between the current tick and the timestamp of the task's last run is at
    least the interval of the task; running it sets the timestamp to the
    current tick and not running it leaves the timestamp as it was.  What
    running means is read off the state of the sketch.  Distance sampling
    (every 100 ms): the distance is the new measurement, at most 9999, the
    digits and the LED follow it and one line is printed; otherwise
    distance, digits, LED and output stay.  Display multiplexing (every
    2 ms): the digit at the current position is shifted out and latched,
    its cathode alone is selected and the position moves on; otherwise
    position, shift register, latch and cathodes stay.  The buzzer (every
    [buzzerInterval] ms): buzzer state, pin and interval are what
    [handleCarBackupBuzzer] makes of the mute and buzzer state left by the
    button and of the distance of this pass; otherwise they stay as the
    button left them. *)
Theorem C7_tick_rule (i : input) (s : state) :
  (forall d, 0 <= d -> 0 <= cm_of_us d) ->
  echo_ok i -> display_ok s ->
  exists s',
    loop i s = Some s'
    /\ (forall t : Task,
          last_run t s'
          = (if due i (interval t s) (last_run t s) then millis (in_time i)
             else last_run t s))
    /\ (let m := measureDistance (in_echo i) in
        if due i sensorInterval (previousSensorMillis s) then
          distance s' = (if 9999 <? m then 9999 else m)
          /\ digits s' = digits (break_number (distance s') s)
          /\ pin_led s' = (distance s' <=? 5)
          /\ count_log is_distance_line s' = S (count_log is_distance_line s)
        else
          distance s' = distance s /\ digits s' = digits s
          /\ pin_led s' = pin_led s
          /\ count_log is_distance_line s' = count_log is_distance_line s)
    /\ (if due i displayInterval (previousDisplayMillis s) then
          (exists d, index (digits s') (count s) = Some d
                     /\ index numbers d = Some (shifted s'))
          /\ pin_latch s' = true
          /\ pin_cathodes s' = update [true; true; true; true] (count s) false
          /\ count s' = (count s + 1) mod 4
        else
          count s' = count s /\ shifted s' = shifted s
          /\ pin_latch s' = pin_latch s /\ pin_cathodes s' = pin_cathodes s)
    /\ (let pressed := readMuteButton (in_button i) s in
        let seen := set_distance (distance s') pressed in
        if due i (buzzerInterval s) (previousBuzzerMillis s) then
          buzzerState s' = buzzerState (handleCarBackupBuzzer seen)
          /\ pin_buzzer s' = pin_buzzer (handleCarBackupBuzzer seen)
          /\ buzzerInterval s' = buzzerInterval (handleCarBackupBuzzer seen)
        else
          buzzerState s' = buzzerState pressed
          /\ pin_buzzer s' = pin_buzzer pressed
          /\ buzzerInterval s' = buzzerInterval s).
Proof.
  intros Hcm He Hs. destruct (loop_ok i s Hcm He Hs) as (s' & L & _).
  exists s'. split; [exact L|]. split; [|split; [|split]].
  - intros t. apply loop_stamps, L.
  - apply (loop_sensor i s s' L).
  - apply (loop_display i s s' L). destruct Hs as (_ & _ & Hc & _). exact Hc.
  - apply (loop_buzzer i s s' L).
Qed.

(** C3: the beep-interval state machine of the car alarm, with the mute
    off.  For a distance [d] between 2 and 10 cm the interval becomes
    [map(d, 2, 10, 100, 800)] ms, which is 100 ms at 2 cm, 800 ms at 10 cm
    and grows with [d], and the buzzer output toggles; for 0 < d < 2 the
    buzzer is held on; for d = 0 or d > 10 the buzzer is off and the
    interval is back at 200 ms.  In the loop every pass completes, and with
    the mute off and the distance in the beep zone the buzzer toggles once
    in each pass in which the interval has elapsed since the last run of
    the buzzer task, which then becomes the current tick, and in no other
    pass. *)
Theorem C3_beep_interval (s : state) :
  muteEnabled s = false ->
  let d := distance s in
  let s' := handleCarBackupBuzzer s in
  ((2 <= d <= 10 ->
      buzzerInterval s' = map d 2 10 100 800
      /\ buzzerState s' = negb (buzzerState s)
      /\ pin_buzzer s' = negb (buzzerState s))
   /\ (0 < d < 2 -> buzzerState s' = true /\ pin_buzzer s' = true)
   /\ (d = 0 \/ 10 < d ->
       buzzerState s' = false /\ pin_buzzer s' = false
       /\ buzzerInterval s' = 200))
  /\ (map 2 2 10 100 800 = 100 /\ map 10 2 10 100 800 = 800
      /\ forall d1 d2, 2 <= d1 <= d2 -> d2 <= 10 ->
           map d1 2 10 100 800 <= map d2 2 10 100 800)
  /\ (forall i : input,
        (forall d, 0 <= d -> 0 <= cm_of_us d) ->
        echo_ok i -> display_ok s ->
        exists s1,
          loop i s = Some s1
          /\ let elapsed :=
               buzzerInterval s
               <=? usub (millis (in_time i)) (previousBuzzerMillis s) in
             previousBuzzerMillis s1
             = (if elapsed then millis (in_time i)
                else previousBuzzerMillis s)
             /\ (muteEnabled s1 = false -> 2 <= distance s1 <= 10 ->
                 buzzerState s1
                 = (if elapsed then negb (buzzerState s) else buzzerState s)
                 /\ (elapsed = true ->
                     pin_buzzer s1 = buzzerState s1
                     /\ buzzerInterval s1
                        = map (distance s1) 2 10 100 800))).
Proof.
  intros Hmute. cbv zeta. split; [|split].
  - apply (handleCarBackupBuzzer_zones s Hmute).
  - split; [reflexivity|]. split; [reflexivity|]. apply map_beep_monotone.
  - intros i Hcm He Hs. destruct (loop_ok i s Hcm He Hs) as (s1 & L & _).
    exists s1. split; [exact L|]. split.
    + apply (loop_stamps i s s1 BuzzerTask L).
    + intros M D. apply (loop_beep i s s1 L M D).
Qed.

(** *** The mute button *)

Lemma loop_mute_lines (i : input) (s s' : state) :
  loop i s = Some s' ->
  let edge := negb (in_button i) && negb (lastButtonState s) in
  count_log is_mute_line s'
  = ((if edge then 1 else 0) + count_log is_mute_line s)%nat
  /\ lastButtonState s' = negb (in_button i).
Proof.
  intros L. apply loop_stages in L. cbv zeta in L.
  destruct L as (s1 & s2 & s3 & E1 & E2 & D & E4).
  pose proof (readMuteButton_rule (in_button i) s) as R1. cbv zeta in R1.
  rewrite <- E1 in R1. destruct R1 as (A1 & _ & A3 & _).
  pose proof (sensor_stage i s1) as F2. cbv zeta in F2. rewrite <- E2 in F2.
  destruct F2 as (_ & _ & _ & _ & _ & _ & _ & B8 & B9).
  apply display_stage in D. cbv zeta in D.
  destruct D as (_ & _ & _ & _ & _ & _ & _ & C8 & C9 & _).
  pose proof (buzzer_stage i s3) as F4. cbv zeta in F4. rewrite <- E4 in F4.
  destruct F4 as (_ & _ & _ & _ & _ & D8 & D9 & _).
  cbv zeta. split; congruence.
Qed.

(** The alarm toggles the mute once per rising edge of the samples. *)
Lemma run_mute_lines (ins : list input) (s s' : state) :
  run ins s = Some s' ->
  count_log is_mute_line s'
  = (rising_edges (lastButtonState s)
       (List.map (fun i => negb (in_button i)) ins)
     + count_log is_mute_line s)%nat.
Proof.
  revert s. induction ins as [|i rest IH]; intros s; simpl.
  - intros [= <-]. reflexivity.
  - destruct (loop i s) as [s1|] eqn:L; [|discriminate].
    intros R. apply IH in R. apply loop_mute_lines in L. cbv zeta in L.
    destruct L as (L1 & L2). rewrite R, L1, L2. lia.
Qed.

End WithEcho.

(** Test runs with the exact conversion. *)
Example first_pass_samples :
  option_map distance
    (@loop Models.exact_echo (mkInput 150000 true 466) setup) = Some 7.
Proof. vm_compute. reflexivity. Qed.

Example beep_after_sample :
  option_map (fun s => (buzzerState s, buzzerInterval s))
    (@run Models.exact_echo
       [mkInput 150000 true 466; mkInput 400000 true 466] setup)
  = Some (true, 537).
Proof. vm_compute. reflexivity. Qed.

(** A pass at 400 ms with an object at 7 cm: the 200 ms of the interval
    have elapsed, the buzzer goes on and the interval becomes 537 ms. *)
Lemma C3_witness :
  exists s1,
    @loop Models.exact_echo (mkInput 400000 true 466) setup = Some s1
    /\ buzzerState s1 = true /\ buzzerInterval s1 = 537.
Proof.
  destruct (C3_beep_interval (E := Models.exact_echo) setup eq_refl)
    as (_ & _ & L).
  destruct (L (mkInput 400000 true 466)) as (s1 & R & _ & B).
  - intros d Hd. simpl. apply Z.quot_pos; lia.
  - unfold echo_ok. simpl. lia.
  - unfold display_ok. simpl. repeat split; try lia. repeat constructor; lia.
  - exists s1. split; [exact R|].
    vm_compute in R. injection R as <-.
    destruct B as (B1 & B2); [reflexivity|simpl; lia|].
    destruct (B2 eq_refl) as (_ & B3).
    split; [rewrite B1; reflexivity|rewrite B3; reflexivity].
Defined.

(** The first pass, at 150 ms: the sensor and the display are due, the
    buzzer with its 200 ms is not. *)
Lemma C7_witness :
  exists s',
    @loop Models.exact_echo (mkInput 150000 true 466) setup = Some s'
    /\ distance s' = 7 /\ count s' = 1 /\ buzzerState s' = false
    /\ last_run SensorTask s' = 150 /\ last_run BuzzerTask s' = 0.
Proof.
  destruct (C7_tick_rule (E := Models.exact_echo)
              (mkInput 150000 true 466) setup)
    as (s' & R & T & S & D & B).
  - intros d Hd. simpl. apply Z.quot_pos; lia.
  - unfold echo_ok. simpl. lia.
  - unfold display_ok. simpl. repeat split; try lia. repeat constructor; lia.
  - exists s'. split; [exact R|].
    change (due (mkInput 150000 true 466) sensorInterval
              (previousSensorMillis setup)) with true in S.
    change (due (mkInput 150000 true 466) displayInterval
              (previousDisplayMillis setup)) with true in D.
    change (due (mkInput 150000 true 466) (buzzerInterval setup)
              (previousBuzzerMillis setup)) with false in B.
    cbv zeta in S, B.
    destruct S as (S1 & _). destruct D as (_ & _ & _ & D4).
    destruct B as (B1 & _).
    rewrite (T SensorTask), (T BuzzerTask), S1, D4, B1.
    repeat split; vm_compute; reflexivity.
Defined.

Lemma C10_witness :
  exists s',
    @run Models.exact_echo
      [mkInput 150000 true 466; mkInput 152000 true 0] setup = Some s'
    /\ Forall (fun d => 0 <= d <= 9) (digits s').
Proof.
  destruct (C10_display_index_in_bounds (E := Models.exact_echo)
              [mkInput 150000 true 466; mkInput 152000 true 0])
    as (s' & R & _ & F & _).
  - intros d Hd. simpl. apply Z.quot_pos; lia.
  - repeat constructor; unfold echo_ok; simpl; lia.
  - exists s'. split; [exact R|exact F].
Defined.

End ProximityFacts.

(** ** Phases 4 and 5: the passcode state machine *)

Module SecurityFacts.
Import Arduino ArduinoFacts Security.

(** Reads and assignments of globals, unfolded. *)
Ltac fields := cbv [startupComplete startupBlinkCount lastStartupBlink
  lcdInitialized lcdStartupComplete lcdStartupTime currentDisplayScreen
  lastDisplayUpdate temperature humidity distance waterLevel sensorDataValid
  lastSensorRead distanceAlert waterAlert temperatureAlert humidityAlert
  anyAlert systemUnlocked enteredPasscode lastKeypadActivity
  lastSystemActivity failedAttempts systemLockedOut lockoutStartTime
  motorActive autoMode lastAutoMotorMove currentMotorPosition motorMoving
  joystickX joystickY lastJoystickButtonState lastJoystickRead pin_green
  pin_red lcd clock log f_startupComplete f_startupBlinkCount
  f_lastStartupBlink f_lcdInitialized f_lcdStartupComplete f_lcdStartupTime
  f_currentDisplayScreen f_lastDisplayUpdate f_temperature f_humidity
  f_distance f_waterLevel f_sensorDataValid f_lastSensorRead f_distanceAlert
  f_waterAlert f_temperatureAlert f_humidityAlert f_anyAlert f_systemUnlocked
  f_enteredPasscode f_lastKeypadActivity f_lastSystemActivity f_failedAttempts
  f_systemLockedOut f_lockoutStartTime f_motorActive f_autoMode
  f_lastAutoMotorMove f_currentMotorPosition f_motorMoving f_joystickX
  f_joystickY f_lastJoystickButtonState f_lastJoystickRead f_pin_green
  f_pin_red f_lcd f_clock f_log startup lcdVars display sensors alerts
  security motor joystick board set_startupComplete set_startupBlinkCount
  set_lastStartupBlink set_lcdInitialized set_lcdStartupComplete
  set_lcdStartupTime set_currentDisplayScreen set_lastDisplayUpdate
  set_temperature set_humidity set_distance set_waterLevel set_sensorDataValid
  set_lastSensorRead set_distanceAlert set_waterAlert set_temperatureAlert
  set_humidityAlert set_anyAlert set_systemUnlocked set_enteredPasscode
  set_lastKeypadActivity set_lastSystemActivity set_failedAttempts
  set_systemLockedOut set_lockoutStartTime set_motorActive set_autoMode
  set_lastAutoMotorMove set_currentMotorPosition set_motorMoving set_joystickX
  set_joystickY set_lastJoystickButtonState set_lastJoystickRead set_pin_green
  set_pin_red set_lcd set_clock set_log set_startup set_lcdVars set_display
  set_sensors set_alerts set_security set_motor set_joystick set_board say
  sleep sleepMicros now] in *.

(** A state taken apart into its globals. *)
Ltac open_state s :=
  destruct s as [[v_startupComplete v_startupBlinkCount v_lastStartupBlink]
    [v_lcdInitialized v_lcdStartupComplete v_lcdStartupTime]
    [v_currentDisplayScreen v_lastDisplayUpdate] [v_temperature v_humidity
    v_distance v_waterLevel v_sensorDataValid v_lastSensorRead]
    [v_distanceAlert v_waterAlert v_temperatureAlert v_humidityAlert
    v_anyAlert] [v_systemUnlocked v_enteredPasscode v_lastKeypadActivity
    v_lastSystemActivity v_failedAttempts v_systemLockedOut
    v_lockoutStartTime] [v_motorActive v_autoMode v_lastAutoMotorMove
    v_currentMotorPosition v_motorMoving] [v_joystickX v_joystickY
    v_lastJoystickButtonState v_lastJoystickRead] [v_pin_green v_pin_red v_lcd
    v_clock v_log]].

(** Case analysis on every test left in the goal. *)
Ltac tests :=
  repeat match goal with
         | |- context [if ?c then _ else _] => destruct c eqn:?
         end.

Section WithFloats.
Context {F : FloatOps}.

(** *** Access is never granted *)

Lemma has_star_app (p q : string) :
  has_star (p ++ q) = has_star p || has_star q.
Proof.
  induction p as [|c p IH]; simpl; [reflexivity|].
  rewrite IH. apply orb_assoc.
Qed.

Lemma no_star_not_passcode (p : string) :
  has_star p = false -> String.eqb p DEFAULT_PASSCODE = false.
Proof.
  intros Hp. destruct (String.eqb p DEFAULT_PASSCODE) eqn:C; [|reflexivity].
  apply String.eqb_eq in C. subst p. vm_compute in Hp. discriminate Hp.
Qed.

Ltac keeps_lock :=
  let U := fresh "U" in let S := fresh "S" in let G := fresh "G" in
  unfold locked_for_good; intros (U & S & G); tests; fields;
  (repeat split; [assumption || reflexivity ..
                 | simpl; intuition (discriminate || congruence)]).

Lemma clearEntry_keeps (s : state) :
  locked_for_good s -> locked_for_good (clearEntry s).
Proof. unfold clearEntry. keeps_lock. Qed.

Lemma lockoutSystem_keeps (s : state) :
  locked_for_good s -> locked_for_good (lockoutSystem s).
Proof. unfold lockoutSystem. keeps_lock. Qed.

Lemma denyAccess_keeps (s : state) :
  locked_for_good s -> locked_for_good (denyAccess s).
Proof.
  intros H. unfold denyAccess. cbv zeta.
  match goal with |- locked_for_good (if ?c then lockoutSystem ?x else _) =>
    assert (Hx : locked_for_good x);
    [|destruct c; [apply lockoutSystem_keeps|]; exact Hx]
  end.
  revert H. unfold blinkRed, Nat.iter, nat_rect. keeps_lock.
Qed.

(** The comparison with the stored passcode fails: the entry never holds
    the [*] that ends ["1234*"]. *)
Lemma checkPasscode_keeps (sk : Sketch) (s : state) :
  locked_for_good s -> locked_for_good (checkPasscode sk s).
Proof.
  intros H. unfold checkPasscode. cbv zeta.
  assert (E : enteredPasscode (say (SerialChecking (enteredPasscode s)) s)
              = enteredPasscode s) by reflexivity.
  rewrite E. rewrite (no_star_not_passcode _ (proj1 (proj2 H))).
  apply clearEntry_keeps, denyAccess_keeps.
  revert H. keeps_lock.
Qed.

Lemma autoClear_keeps (s : state) :
  locked_for_good s -> locked_for_good (autoClear s).
Proof.
  intros H. unfold autoClear.
  destruct (_ && _); [apply clearEntry_keeps|]; exact H.
Qed.

Lemma handleKeypadInput_keeps (sk : Sketch) (key : ascii) (s : state) :
  locked_for_good s -> locked_for_good (handleKeypadInput sk key s).
Proof.
  intros H. unfold handleKeypadInput. cbv zeta.
  destruct (Ascii.eqb key Ascii.zero); [apply autoClear_keeps; exact H|].
  set (s1 := say (SerialKey key) _).
  assert (H1 : locked_for_good s1) by (subst s1; revert H; keeps_lock).
  destruct (systemLockedOut s1); [exact H1|].
  apply autoClear_keeps.
  destruct (Ascii.eqb key "#"); [apply clearEntry_keeps; exact H1|].
  destruct (Ascii.eqb key "*") eqn:Star;
    [apply checkPasscode_keeps; exact H1|].
  destruct (_ <? _); [|exact H1].
  destruct H1 as (U & S & G). unfold locked_for_good. fields.
  repeat split.
  - exact U.
  - rewrite has_star_app, S. simpl. rewrite Star. reflexivity.
  - simpl. intros [E|E]; [discriminate E|exact (G E)].
Qed.

Lemma handleLockout_keeps (s : state) :
  locked_for_good s -> locked_for_good (handleLockout s).
Proof. unfold handleLockout. keeps_lock. Qed.

Lemma displayPasscodeEntry_keeps (s : state) :
  locked_for_good s -> locked_for_good (displayPasscodeEntry s).
Proof. unfold displayPasscodeEntry. keeps_lock. Qed.

Lemma blinkStartup_keeps (s : state) :
  locked_for_good s -> locked_for_good (blinkStartup s).
Proof. unfold blinkStartup. keeps_lock. Qed.

Lemma handleLCDStartup_keeps (s : state) :
  locked_for_good s -> locked_for_good (handleLCDStartup s).
Proof.
  unfold handleLCDStartup, displaySystemReady, displayStartupMessage.
  keeps_lock.
Qed.

(** With the system locked a pass never reaches the dashboard. *)
Lemma handleSystem_keeps (sk : Sketch) (i : input) (s : state) :
  locked_for_good s -> locked_for_good (handleSystem sk i s).
Proof.
  intros H. unfold handleSystem. cbv zeta.
  pose proof (handleKeypadInput_keeps sk (in_key i) s H) as H1.
  set (s1 := handleKeypadInput sk (in_key i) s) in *.
  destruct (systemLockedOut s1); [apply handleLockout_keeps; exact H1|].
  rewrite (proj1 H1). simpl.
  apply displayPasscodeEntry_keeps; exact H1.
Qed.

Lemma loop_keeps (sk : Sketch) (i : input) (s : state) :
  locked_for_good s -> locked_for_good (loop sk i s).
Proof.
  intros H. unfold loop. cbv zeta.
  set (s0 := set_clock _ s).
  assert (H0 : locked_for_good s0) by (subst s0; revert H; keeps_lock).
  set (s1 := if negb (startupComplete s0) then _ else _).
  assert (H1 : locked_for_good s1).
  { subst s1. destruct (negb (startupComplete s0));
      [apply blinkStartup_keeps|apply handleSystem_keeps]; exact H0. }
  destruct (_ && _); [apply handleLCDStartup_keeps|]; exact H1.
Qed.

Lemma setup_locked (t : Z) : locked_for_good (setup t).
Proof.
  unfold locked_for_good, setup, initializeLCD, power_on. fields.
  repeat split; auto.
Qed.

Lemma run_keeps (sk : Sketch) (ins : list input) (s : state) :
  locked_for_good s -> locked_for_good (run sk ins s).
Proof.
  revert s. unfold run.
  induction ins as [|i rest IH]; intros s H; simpl; [exact H|].
  apply IH, loop_keeps, H.
Qed.

(** C1: in the phase 4 and the phase 5 sketch, whatever keys the keypad
    delivers and whatever else the passes read, [grantAccess] is never
    called and [systemUnlocked] stays false: [handleKeypadInput] never
    appends the key [*] to the entry (it calls [checkPasscode] instead, and
    [#] clears), so the entry never equals the stored passcode ["1234*"]. *)
Theorem C1_access_never_granted (sk : Sketch) (t : Z) (ins : list input) :
  let s := run sk ins (setup t) in
  systemUnlocked s = false
  /\ ~ In SerialAccessGranted (log s)
  /\ has_star (enteredPasscode s) = false
  /\ String.eqb (enteredPasscode s) DEFAULT_PASSCODE = false.
Proof.
  destruct (run_keeps sk ins (setup t) (setup_locked t)) as (U & S & G).
  cbv zeta. repeat split; try assumption.
  apply no_star_not_passcode, S.
Qed.

(** *** Failed attempts and the lockout *)

(** A key pressed during the lockout changes neither the entry nor the
    lockout; a pass without a key at most clears the entry. *)
Lemma keypad_during_lockout (sk : Sketch) (key : ascii) (s : state) :
  systemLockedOut s = true ->
  let s' := handleKeypadInput sk key s in
  systemLockedOut s' = true
  /\ failedAttempts s' = failedAttempts s
  /\ lockoutStartTime s' = lockoutStartTime s
  /\ clock s' = clock s
  /\ (key <> Ascii.zero -> enteredPasscode s' = enteredPasscode s).
Proof.
  intros L. unfold handleKeypadInput, autoClear, clearEntry. cbv zeta.
  destruct (Ascii.eqb key Ascii.zero) eqn:K.
  - apply Ascii.eqb_eq in K. tests; fields; repeat split; auto; contradiction.
  - fields. rewrite L. fields. repeat split; auto.
Qed.

(** [denyAccess] counts the attempt and locks out from the third on. *)
Lemma denyAccess_rule (s : state) :
  let s' := denyAccess s in
  let n := int (failedAttempts s + 1) in
  failedAttempts s' = n
  /\ systemLockedOut s'
     = (if MAX_FAILED_ATTEMPTS <=? n then true else systemLockedOut s)
  /\ ((MAX_FAILED_ATTEMPTS <=? n) = true -> lockoutStartTime s' = now s')
  /\ enteredPasscode s' = enteredPasscode s
  /\ clock s'
     = clock s + 1200000 + (if lcdInitialized s then 2000000 else 0).
Proof.
  unfold denyAccess, lockoutSystem, blinkRed, Nat.iter, nat_rect.
  cbv zeta. open_state s. fields.
  destruct v_lcdInitialized;
    destruct (MAX_FAILED_ATTEMPTS <=? int (v_failedAttempts + 1));
    repeat split; try reflexivity; try discriminate; unfold delay; lia.
Qed.

(** The key [*] with an entry that is not the passcode: a failed attempt. *)
Lemma failed_attempt (sk : Sketch) (s : state) :
  systemLockedOut s = false ->
  String.eqb (enteredPasscode s) DEFAULT_PASSCODE = false ->
  let s' := handleKeypadInput sk "*" s in
  let n := int (failedAttempts s + 1) in
  failedAttempts s' = n
  /\ systemLockedOut s' = (MAX_FAILED_ATTEMPTS <=? n)
  /\ ((MAX_FAILED_ATTEMPTS <=? n) = true -> lockoutStartTime s' = now s')
  /\ enteredPasscode s' = EmptyString
  /\ clock s'
     = clock s + 1200000 + (if lcdInitialized s then 2000000 else 0).
Proof.
  intros L W. unfold handleKeypadInput, checkPasscode. cbv zeta.
  change (Ascii.eqb "*" Ascii.zero) with false.
  change (Ascii.eqb "*" "#") with false.
  change (Ascii.eqb "*" "*") with true. cbv iota.
  set (s1 := say (SerialKey "*") _).
  assert (E1 : systemLockedOut s1 = false /\ failedAttempts s1 = failedAttempts s
               /\ enteredPasscode s1 = enteredPasscode s
               /\ clock s1 = clock s /\ lcdInitialized s1 = lcdInitialized s).
  { subst s1. open_state s. fields. repeat split; auto. }
  destruct E1 as (E1 & E2 & E3 & E4 & E5). rewrite E1.
  set (s2 := say (SerialChecking (enteredPasscode s1)) s1).
  assert (E6 : enteredPasscode s2 = enteredPasscode s1
               /\ failedAttempts s2 = failedAttempts s1
               /\ systemLockedOut s2 = systemLockedOut s1
               /\ clock s2 = clock s1 /\ lcdInitialized s2 = lcdInitialized s1).
  { subst s2. open_state s1. fields. repeat split; auto. }
  destruct E6 as (E6 & E7 & E8 & E9 & E10). rewrite E6, E3, W.
  pose proof (denyAccess_rule s2) as D. cbv zeta in D.
  destruct D as (D1 & D2 & D3 & D4 & D5).
  set (s3 := denyAccess s2) in *.
  assert (E : forall x, failedAttempts (autoClear (clearEntry x)) = failedAttempts x
              /\ systemLockedOut (autoClear (clearEntry x)) = systemLockedOut x
              /\ lockoutStartTime (autoClear (clearEntry x)) = lockoutStartTime x
              /\ now (autoClear (clearEntry x)) = now x
              /\ enteredPasscode (autoClear (clearEntry x)) = EmptyString
              /\ clock (autoClear (clearEntry x)) = clock x).
  { intros x. unfold autoClear, clearEntry. open_state x. fields. simpl.
    repeat split; reflexivity. }
  destruct (E s3) as (X1 & X2 & X3 & X4 & X5 & X6).
  rewrite X1, X2, X3, X4, X5, X6, D1, D2, D5, E7, E2, E8, E1, E9, E4, E10, E5.
  rewrite E7, E2 in D3.
  destruct (MAX_FAILED_ATTEMPTS <=? int (failedAttempts s + 1));
    repeat split; auto.
Qed.

Lemma handleLockout_rule (s : state) :
  let over := LOCKOUT_DURATION <=? usub (now s) (lockoutStartTime s) in
  systemLockedOut (handleLockout s)
  = (if over then false else systemLockedOut s)
  /\ failedAttempts (handleLockout s)
     = (if over then 0 else failedAttempts s).
Proof.
  unfold handleLockout. cbv zeta.
  destruct (LOCKOUT_DURATION <=? usub (now s) (lockoutStartTime s));
    [|auto].
  open_state s. fields. destruct v_lcdInitialized; auto.
Qed.

(** A whole pass during the lockout: the lockout ends in this pass exactly
    if 30000 ms or more lie between the start of the lockout and now. *)
Lemma pass_during_lockout (sk : Sketch) (i : input) (s : state) :
  systemLockedOut s = true ->
  let over := LOCKOUT_DURATION <=? usub (now s) (lockoutStartTime s) in
  let s' := handleSystem sk i s in
  systemLockedOut s' = negb over
  /\ failedAttempts s' = (if over then 0 else failedAttempts s).
Proof.
  intros L. unfold handleSystem. cbv zeta.
  pose proof (keypad_during_lockout sk (in_key i) s L) as K. cbv zeta in K.
  destruct K as (K1 & K2 & K3 & K4 & _).
  set (s1 := handleKeypadInput sk (in_key i) s) in *.
  rewrite K1. destruct (handleLockout_rule s1) as (H1 & H2).
  rewrite H1, H2. unfold now. rewrite K1, K2, K3, K4.
  destruct (LOCKOUT_DURATION <=? _); auto.
Qed.

Lemma grantAccess_resets (sk : Sketch) (s : state) :
  failedAttempts (grantAccess sk s) = 0
  /\ systemUnlocked (grantAccess sk s) = true.
Proof.
  unfold grantAccess. cbv zeta. open_state s. fields.
  destruct v_lcdInitialized; auto.
Qed.

Lemma usub_self (x : Z) : usub x x = 0.
Proof. unfold usub. rewrite Z.sub_diag. reflexivity. Qed.

(** The pass in which the third attempt fails ends locked out. *)
Lemma third_failure_pass (sk : Sketch) (i : input) (s : state) :
  systemLockedOut s = false ->
  String.eqb (enteredPasscode s) DEFAULT_PASSCODE = false ->
  failedAttempts s = 2 -> in_key i = "*"%char ->
  systemLockedOut (handleSystem sk i s) = true
  /\ failedAttempts (handleSystem sk i s) = 3.
Proof.
  intros L W N K. unfold handleSystem. cbv zeta. rewrite K.
  pose proof (failed_attempt sk s L W) as A. cbv zeta in A.
  rewrite N in A. change (int (2 + 1)) with 3 in A.
  change (MAX_FAILED_ATTEMPTS <=? 3) with true in A.
  destruct A as (A1 & A2 & A3 & _).
  set (s1 := handleKeypadInput sk "*" s) in *.
  rewrite A2. destruct (handleLockout_rule s1) as (H1 & H2).
  rewrite H1, H2, (A3 eq_refl), usub_self, A1, A2. auto.
Qed.

(** *** The lockout in time *)

Lemma idle_time_nonneg (ins : list input) : 0 <= idle_time ins.
Proof.
  induction ins as [|i rest IH]; simpl; [lia|].
  pose proof (N2Z.is_nonneg (in_idle i)). lia.
Qed.

Lemma failed_attempt_startup (sk : Sketch) (s : state) :
  systemLockedOut s = false ->
  String.eqb (enteredPasscode s) DEFAULT_PASSCODE = false ->
  startup (handleKeypadInput sk "*" s) = startup s.
Proof.
  intros L W. unfold handleKeypadInput, checkPasscode. cbv zeta.
  change (Ascii.eqb "*" Ascii.zero) with false.
  change (Ascii.eqb "*" "#") with false.
  change (Ascii.eqb "*" "*") with true. cbv iota.
  set (s1 := say (SerialKey "*") _).
  change (systemLockedOut s1) with (systemLockedOut s). rewrite L.
  set (s2 := say (SerialChecking (enteredPasscode s1)) s1).
  change (enteredPasscode s2) with (enteredPasscode s). rewrite W.
  change (startup s) with (startup s2). clearbody s2. clear s1.
  unfold autoClear, clearEntry, denyAccess, lockoutSystem, blinkRed,
    Nat.iter, nat_rect.
  cbv zeta. tests; reflexivity.
Qed.

Lemma keypad_in_lockout (sk : Sketch) (key : ascii) (s : state) :
  systemLockedOut s = true ->
  startup (handleKeypadInput sk key s) = startup s
  /\ (enteredPasscode s = EmptyString ->
      enteredPasscode (handleKeypadInput sk key s) = EmptyString).
Proof.
  intros L. unfold handleKeypadInput, autoClear, clearEntry. cbv zeta.
  destruct (Ascii.eqb key Ascii.zero).
  - split; [tests; reflexivity|]. intros E. tests; [reflexivity|exact E].
  - set (s1 := say (SerialKey key) _).
    change (systemLockedOut s1) with (systemLockedOut s). rewrite L.
    split; [reflexivity|]. intros E. exact E.
Qed.

Lemma handleLockout_frame (s : state) :
  startup (handleLockout s) = startup s
  /\ enteredPasscode (handleLockout s) = enteredPasscode s
  /\ lockoutStartTime (handleLockout s) = lockoutStartTime s
  /\ ((LOCKOUT_DURATION <=? usub (now s) (lockoutStartTime s)) = false ->
      clock (handleLockout s) = clock s).
Proof.
  unfold handleLockout. cbv zeta.
  destruct (LOCKOUT_DURATION <=? usub (now s) (lockoutStartTime s));
    [|repeat split; reflexivity].
  repeat split; try discriminate; tests; reflexivity.
Qed.

Lemma handleLCDStartup_frame (s : state) :
  startup (handleLCDStartup s) = startup s
  /\ security (handleLCDStartup s) = security s
  /\ clock (handleLCDStartup s) = clock s.
Proof.
  unfold handleLCDStartup, displaySystemReady, displayStartupMessage.
  cbv zeta. tests; repeat split; reflexivity.
Qed.

(** One pass of the loop during the lockout. *)
Lemma lockout_pass (sk : Sketch) (j : input) (x : state) :
  startupComplete x = true -> systemLockedOut x = true ->
  enteredPasscode x = EmptyString ->
  let t := clock x + Z.of_N (in_idle j) in
  let over := LOCKOUT_DURATION <=? usub (millis t) (lockoutStartTime x) in
  let x' := loop sk j x in
  systemLockedOut x' = negb over
  /\ failedAttempts x' = (if over then 0 else failedAttempts x)
  /\ enteredPasscode x' = EmptyString
  /\ startupComplete x' = true
  /\ lockoutStartTime x' = lockoutStartTime x
  /\ (over = false -> clock x' = t).
Proof.
  intros C L E. cbv zeta. unfold loop. cbv zeta.
  set (s0 := set_clock (clock x + Z.of_N (in_idle j)) x).
  assert (C0 : startupComplete s0 = true) by exact C.
  assert (L0 : systemLockedOut s0 = true) by exact L.
  assert (E0 : enteredPasscode s0 = EmptyString) by exact E.
  assert (T0 : clock s0 = clock x + Z.of_N (in_idle j))
    by (subst s0; open_state x; reflexivity).
  assert (B0 : lockoutStartTime s0 = lockoutStartTime x
               /\ failedAttempts s0 = failedAttempts x)
    by (split; reflexivity).
  destruct B0 as (B0 & N0).
  rewrite C0. cbn [negb].
  pose proof (pass_during_lockout sk j s0 L0) as P. cbv zeta in P.
  destruct P as (P1 & P2).
  assert (Q : enteredPasscode (handleSystem sk j s0) = EmptyString
              /\ startup (handleSystem sk j s0) = startup s0
              /\ lockoutStartTime (handleSystem sk j s0) = lockoutStartTime s0
              /\ ((LOCKOUT_DURATION
                   <=? usub (now s0) (lockoutStartTime s0)) = false ->
                  clock (handleSystem sk j s0) = clock s0)).
  { unfold handleSystem. cbv zeta.
    pose proof (keypad_during_lockout sk (in_key j) s0 L0) as K.
    cbv zeta in K. destruct K as (K1 & K2 & K3 & K4 & _).
    destruct (keypad_in_lockout sk (in_key j) s0 L0) as (K5 & K6).
    set (s1 := handleKeypadInput sk (in_key j) s0) in *.
    rewrite K1. destruct (handleLockout_frame s1) as (H1 & H2 & H3 & H4).
    rewrite H1, H2, H3, K5, K3, (K6 E0).
    repeat split. intros O. rewrite <- K4. apply H4.
    unfold now. rewrite K4, K3. exact O. }
  destruct Q as (Q1 & Q2 & Q3 & Q4).
  set (s2 := handleSystem sk j s0) in *.
  assert (R : systemLockedOut (if lcdInitialized s2
                                  && negb (lcdStartupComplete s2)
                               then handleLCDStartup s2 else s2)
              = systemLockedOut s2
              /\ failedAttempts (if lcdInitialized s2
                                    && negb (lcdStartupComplete s2)
                                 then handleLCDStartup s2 else s2)
                 = failedAttempts s2
              /\ enteredPasscode (if lcdInitialized s2
                                     && negb (lcdStartupComplete s2)
                                  then handleLCDStartup s2 else s2)
                 = enteredPasscode s2
              /\ startupComplete (if lcdInitialized s2
                                     && negb (lcdStartupComplete s2)
                                  then handleLCDStartup s2 else s2)
                 = startupComplete s2
              /\ lockoutStartTime (if lcdInitialized s2
                                      && negb (lcdStartupComplete s2)
                                   then handleLCDStartup s2 else s2)
                 = lockoutStartTime s2
              /\ clock (if lcdInitialized s2 && negb (lcdStartupComplete s2)
                        then handleLCDStartup s2 else s2)
                 = clock s2).
  { destruct (_ && _); [|repeat split; reflexivity].
    destruct (handleLCDStartup_frame s2) as (F1 & F2 & F3).
    unfold systemLockedOut, failedAttempts, enteredPasscode, startupComplete,
      lockoutStartTime.
    rewrite F1, F2, F3. repeat split; reflexivity. }
  destruct R as (R1 & R2 & R3 & R4 & R5 & R6).
  rewrite R1, R2, R3, R4, R5, R6, P1, P2, Q1, Q3, B0, N0.
  unfold startupComplete at 1. rewrite Q2. fold (startupComplete s0).
  unfold now in *. rewrite T0, B0 in *.
  repeat split; try assumption; try reflexivity.
Qed.

(** Passes during the lockout, while fewer than 30000 ms have gone by
    since it began at time [tL]. *)
Lemma lockout_run (sk : Sketch) (tL : Z) (ins : list input) (x : state) :
  startupComplete x = true -> systemLockedOut x = true ->
  enteredPasscode x = EmptyString ->
  lockoutStartTime x = millis tL -> tL <= clock x ->
  (clock x + idle_time ins) / 1000 - tL / 1000 < LOCKOUT_DURATION ->
  let y := run sk ins x in
  startupComplete y = true /\ systemLockedOut y = true
  /\ failedAttempts y = failedAttempts x
  /\ enteredPasscode y = EmptyString
  /\ lockoutStartTime y = millis tL
  /\ clock y = clock x + idle_time ins.
Proof.
  cbv zeta. unfold run. revert x.
  induction ins as [|i rest IH]; intros x C L E S Hle Hlt.
  - simpl. rewrite Z.add_0_r. repeat split; assumption || reflexivity.
  - simpl fold_left. simpl idle_time in *.
    pose proof (idle_time_nonneg rest) as Hr.
    pose proof (N2Z.is_nonneg (in_idle i)) as Hi.
    assert (Hd : (clock x + Z.of_N (in_idle i)) / 1000
                 <= (clock x + (Z.of_N (in_idle i) + idle_time rest)) / 1000)
      by (apply Z.div_le_mono; lia).
    pose proof (lockout_pass sk i x C L E) as P. cbv zeta in P.
    rewrite S, usub_millis in P by (unfold LOCKOUT_DURATION in *; lia).
    assert (O : (LOCKOUT_DURATION
                 <=? (clock x + Z.of_N (in_idle i)) / 1000 - tL / 1000)
                = false) by (apply Z.leb_gt; lia).
    rewrite O in P. destruct P as (P1 & P2 & P3 & P4 & P5 & P6).
    specialize (P6 eq_refl).
    destruct (IH (loop sk i x) P4 P1 P3 P5) as (I1 & I2 & I3 & I4 & I5 & I6).
    + lia.
    + rewrite P6. rewrite Z.add_assoc in Hlt. exact Hlt.
    + rewrite I3, I6, P2, P6. repeat split; try assumption. lia.
Qed.

(** C2: the lockout of the passcode state machine.  An attempt fails when
    [*] is pressed while the entry differs from the passcode.  The first
    and the second failed attempt in a row are counted.  The pass of the
    loop in which the third attempt fails ends in the lockout, and the
    lockout begins at the tick at which that pass ends: [lockoutStartTime]
    is that tick.  In every later pass made while fewer than 30000 ms have
    gone by since then, whatever keys are pressed, the system is still
    locked out, the counter is still 3 and the entry is as it was; during
    a lockout a key never changes the entry.  The first pass after 30000
    ms or more have gone by ends the lockout and returns the counter of
    failed attempts to 0.  [grantAccess] sets the counter to 0 as well. *)
Theorem C2_lockout_state_machine (sk : Sketch) (s : state) (i : input) :
  startupComplete s = true ->
  systemLockedOut s = false ->
  String.eqb (enteredPasscode s) DEFAULT_PASSCODE = false ->
  in_key i = "*"%char ->
  let s1 := loop sk i s in
  (0 <= failedAttempts s < 2 ->
   failedAttempts (handleKeypadInput sk "*" s) = failedAttempts s + 1
   /\ systemLockedOut (handleKeypadInput sk "*" s) = false)
  /\ (failedAttempts s = 2 ->
      (systemLockedOut s1 = true /\ failedAttempts s1 = 3
       /\ lockoutStartTime s1 = now s1)
      /\ forall ins : list input,
           (clock s1 + idle_time ins) / 1000 - clock s1 / 1000
           < LOCKOUT_DURATION ->
           let x := run sk ins s1 in
           (systemLockedOut x = true /\ failedAttempts x = 3
            /\ enteredPasscode x = enteredPasscode s1
            /\ clock x = clock s1 + idle_time ins)
           /\ forall j : input,
                let t := clock x + Z.of_N (in_idle j) in
                LOCKOUT_DURATION <= t / 1000 - clock s1 / 1000 < 2 ^ 32 ->
                systemLockedOut (loop sk j x) = false
                /\ failedAttempts (loop sk j x) = 0)
  /\ (forall (x : state) (key : ascii),
        systemLockedOut x = true -> key <> Ascii.zero ->
        enteredPasscode (handleKeypadInput sk key x) = enteredPasscode x
        /\ systemLockedOut (handleKeypadInput sk key x) = true)
  /\ failedAttempts (grantAccess sk s) = 0.
Proof.
  intros C L W K. cbv zeta. split; [|split; [|split]].
  - intros N. pose proof (failed_attempt sk s L W) as A. cbv zeta in A.
    rewrite int_small in A by lia. destruct A as (A1 & A2 & _).
    split; [exact A1|]. rewrite A2. apply Z.leb_gt.
    unfold MAX_FAILED_ATTEMPTS. lia.
  - intros N.
    assert (S1 : startupComplete (loop sk i s) = true
                 /\ systemLockedOut (loop sk i s) = true
                 /\ failedAttempts (loop sk i s) = 3
                 /\ enteredPasscode (loop sk i s) = EmptyString
                 /\ lockoutStartTime (loop sk i s) = now (loop sk i s)).
    { unfold loop. cbv zeta.
      set (s0 := set_clock (clock s + Z.of_N (in_idle i)) s).
      assert (C0 : startupComplete s0 = true) by exact C.
      assert (L0 : systemLockedOut s0 = false) by exact L.
      assert (W0 : String.eqb (enteredPasscode s0) DEFAULT_PASSCODE = false)
        by exact W.
      assert (N0 : failedAttempts s0 = 2) by exact N.
      rewrite C0. cbn [negb].
      assert (Q : startup (handleSystem sk i s0) = startup s0
                  /\ security (handleSystem sk i s0)
                     = security (handleKeypadInput sk "*" s0)
                  /\ clock (handleSystem sk i s0)
                     = clock (handleKeypadInput sk "*" s0)).
      { unfold handleSystem. cbv zeta. rewrite K.
        pose proof (failed_attempt sk s0 L0 W0) as A. cbv zeta in A.
        rewrite N0 in A. change (int (2 + 1)) with 3 in A.
        change (MAX_FAILED_ATTEMPTS <=? 3) with true in A.
        destruct A as (_ & A2 & A3 & _).
        pose proof (failed_attempt_startup sk s0 L0 W0) as A4.
        set (s1 := handleKeypadInput sk "*" s0) in *.
        rewrite A2. unfold handleLockout. cbv zeta.
        rewrite (A3 eq_refl), usub_self.
        change (LOCKOUT_DURATION <=? 0) with false.
        repeat split. exact A4. }
      destruct Q as (Q1 & Q2 & Q3).
      pose proof (failed_attempt sk s0 L0 W0) as A. cbv zeta in A.
      rewrite N0 in A. change (int (2 + 1)) with 3 in A.
      change (MAX_FAILED_ATTEMPTS <=? 3) with true in A.
      destruct A as (A1 & A2 & A3 & A4 & _). specialize (A3 eq_refl).
      set (s2 := handleSystem sk i s0) in *.
      set (s3 := if lcdInitialized s2 && negb (lcdStartupComplete s2)
                 then handleLCDStartup s2 else s2).
      assert (R : startup s3 = startup s2 /\ security s3 = security s2
                  /\ clock s3 = clock s2).
      { subst s3. destruct (_ && _); [|repeat split; reflexivity].
        apply handleLCDStartup_frame. }
      destruct R as (R1 & R2 & R3).
      unfold startupComplete, systemLockedOut, failedAttempts,
        enteredPasscode, lockoutStartTime, now in *.
      rewrite R1, R2, R3, Q1, Q2, Q3. auto. }
    destruct S1 as (S1 & S2 & S3 & S4 & S5).
    split; [auto|]. intros ins Hlt.
    pose proof (lockout_run sk (clock (loop sk i s)) ins (loop sk i s)
                  S1 S2 S4 S5 (Z.le_refl _) Hlt) as Rn.
    cbv zeta in Rn. destruct Rn as (I1 & I2 & I3 & I4 & I5 & I6).
    split; [rewrite I3, I4, S4; auto|].
    intros j Hj.
    pose proof (lockout_pass sk j (run sk ins (loop sk i s)) I1 I2 I4) as P.
    cbv zeta in P.
    pose proof (idle_time_nonneg ins) as Hn.
    pose proof (N2Z.is_nonneg (in_idle j)) as Hi.
    rewrite I5, usub_millis in P by lia.
    assert (O : (LOCKOUT_DURATION
                 <=? (clock (run sk ins (loop sk i s)) + Z.of_N (in_idle j))
                     / 1000 - clock (loop sk i s) / 1000) = true)
      by (apply Z.leb_le; lia).
    rewrite O in P. destruct P as (P1 & P2 & _). auto.
  - intros x key Lx Kx.
    pose proof (keypad_during_lockout sk key x Lx) as A. cbv zeta in A.
    destruct A as (A1 & _ & _ & _ & A5). auto.
  - apply grantAccess_resets.
Qed.

(** *** The stepper motor *)

Lemma int_idem (a b : Z) : int (int a + b) = int (a + b).
Proof.
  unfold int. f_equal.
  replace ((a + 2 ^ 15) mod 2 ^ 16 - 2 ^ 15 + b + 2 ^ 15)
    with ((a + 2 ^ 15) mod 2 ^ 16 + b) by lia.
  rewrite Zplus_mod_idemp_l. f_equal. lia.
Qed.

Lemma singleStep_rule (direction us : Z) (s : state) :
  let s' := singleStep direction us s in
  currentMotorPosition s' = int (currentMotorPosition s + turn direction)
  /\ clock s' = clock s + us
  /\ log s' = StepperPause us :: StepperStep (turn direction) :: log s
  /\ motorMoving s' = motorMoving s.
Proof.
  unfold singleStep, turn, delayMicroseconds. cbv zeta.
  destruct (0 <? direction); open_state s; fields;
    unfold delayMicroseconds; repeat split; reflexivity.
Qed.

Lemma stepped_succ (d us : Z) (n : nat) :
  stepped d us (Z.of_nat (S n))
  = stepped d us (Z.of_nat n) ++ [StepperStep d; StepperPause us].
Proof.
  unfold stepped. rewrite !Nat2Z.id.
  change (S n) with (1 + n)%nat. rewrite Nat.add_comm, repeat_app, concat_app.
  reflexivity.
Qed.

Lemma steps_rule (n : nat) (direction us : Z) (s : state) :
  - 2 ^ 15 <= currentMotorPosition s < 2 ^ 15 ->
  let s' := Nat.iter n (singleStep direction us) s in
  currentMotorPosition s'
  = int (currentMotorPosition s + turn direction * Z.of_nat n)
  /\ clock s' = clock s + Z.of_nat n * us
  /\ filter is_step (log s')
     = repeat (StepperStep (turn direction)) n ++ filter is_step (log s)
  /\ motorMoving s' = motorMoving s
  /\ motor_trace s'
     = motor_trace s ++ stepped (turn direction) us (Z.of_nat n).
Proof.
  intros R. cbv zeta. induction n as [|n IH].
  - simpl. rewrite Z.mul_0_r, Z.add_0_r, int_small by exact R.
    unfold stepped. simpl. rewrite app_nil_r. repeat split; auto; lia.
  - rewrite stepped_succ, Nat2Z.inj_succ. simpl Nat.iter.
    destruct IH as (I1 & I2 & I3 & I4 & I5).
    pose proof (singleStep_rule direction us
                  (Nat.iter n (singleStep direction us) s)) as S.
    cbv zeta in S. destruct S as (S1 & S2 & S3 & S4).
    unfold motor_trace in *.
    rewrite S1, S2, S3, S4, I1, I2, int_idem.
    cbn [filter is_step is_motor rev]. rewrite I3, I5.
    repeat split; try reflexivity; [f_equal; lia|lia|exact I4|].
    rewrite <- !app_assoc. reflexivity.
Qed.

Lemma int_range (x : Z) : - 2 ^ 15 <= int x < 2 ^ 15.
Proof.
  unfold int. pose proof (Z.mod_pos_bound (x + 2 ^ 15) (2 ^ 16)). lia.
Qed.

(** The three phases of a movement of [steps] steps. *)
Lemma phases (steps : Z) :
  0 <= steps < 2 ^ 15 ->
  accelerationSteps steps = Z.min (steps / 4) 50
  /\ decelerationSteps steps = Z.min (steps / 4) 50
  /\ constantSteps steps
     = steps - accelerationSteps steps - decelerationSteps steps
  /\ 0 <= accelerationSteps steps /\ 0 <= constantSteps steps
  /\ accelerationSteps steps + constantSteps steps
     + decelerationSteps steps = steps.
Proof.
  intros R. unfold constantSteps, decelerationSteps, accelerationSteps, min.
  rewrite Z.quot_div_nonneg by lia.
  assert (Q : 0 <= steps / 4 /\ 4 * (steps / 4) <= steps).
  { split; [apply Z.div_pos; lia|apply Z.mul_div_le; lia]. }
  destruct (steps / 4 <? 50) eqn:C;
    [apply Z.ltb_lt in C|apply Z.ltb_ge in C];
    rewrite int_small by lia; lia.
Qed.

Lemma motor_flag_frame (b : bool) (s : state) :
  currentMotorPosition (set_motorMoving b s) = currentMotorPosition s
  /\ clock (set_motorMoving b s) = clock s
  /\ log (set_motorMoving b s) = log s
  /\ motorMoving (set_motorMoving b s) = b.
Proof. open_state s. fields. auto. Qed.

(** A movement started while none is in progress. *)
Lemma stepMotor_rule (steps direction : Z) (s : state) :
  motorMoving s = false ->
  0 <= steps < 2 ^ 15 ->
  - 2 ^ 15 <= direction < 2 ^ 15 ->
  - 2 ^ 15 <= currentMotorPosition s < 2 ^ 15 ->
  let s' := stepMotor steps direction s in
  currentMotorPosition s'
  = int (currentMotorPosition s + turn direction * steps)
  /\ filter is_step (log s')
     = repeat (StepperStep (turn direction)) (Z.to_nat steps)
       ++ filter is_step (log s)
  /\ motorMoving s' = false
  /\ clock s'
     = clock s + 2000 * accelerationSteps steps
       + 1000 * constantSteps steps + 2000 * decelerationSteps steps
  /\ motor_trace s'
     = motor_trace s
       ++ stepped (turn direction) 2000 (accelerationSteps steps)
       ++ stepped (turn direction) 1000 (constantSteps steps)
       ++ stepped (turn direction) 2000 (decelerationSteps steps).
Proof.
  intros M R Rd P. unfold stepMotor. cbv zeta.
  rewrite (int_small steps), (int_small direction) by lia. rewrite M.
  destruct (phases steps R) as (Pa & Pd & Pc & Na & Nc & Sum).
  assert (Nd : 0 <= decelerationSteps steps) by (rewrite Pd, <- Pa; exact Na).
  destruct (motor_flag_frame true s) as (A1 & A2 & A3 & _).
  set (s0 := set_motorMoving true s) in *.
  assert (R0 : - 2 ^ 15 <= currentMotorPosition s0 < 2 ^ 15)
    by (rewrite A1; exact P).
  pose proof (steps_rule (Z.to_nat (accelerationSteps steps)) direction 2000
                s0 R0) as B.
  cbv zeta in B. destruct B as (B1 & B2 & B3 & _ & B5).
  set (s1 := Nat.iter _ _ s0) in *.
  assert (R1 : - 2 ^ 15 <= currentMotorPosition s1 < 2 ^ 15)
    by (rewrite B1; apply int_range).
  pose proof (steps_rule (Z.to_nat (constantSteps steps)) direction 1000
                s1 R1) as C.
  cbv zeta in C. destruct C as (C1 & C2 & C3 & _ & C5).
  set (s2 := Nat.iter _ _ s1) in *.
  assert (R2 : - 2 ^ 15 <= currentMotorPosition s2 < 2 ^ 15)
    by (rewrite C1; apply int_range).
  pose proof (steps_rule (Z.to_nat (decelerationSteps steps)) direction 2000
                s2 R2) as D.
  cbv zeta in D. destruct D as (D1 & D2 & D3 & _ & D5).
  set (s3 := Nat.iter _ _ s2) in *.
  destruct (motor_flag_frame false s3) as (E1 & E2 & E3 & E4).
  set (s4 := set_motorMoving false s3) in *.
  assert (G : currentMotorPosition (say (SerialMotorComplete
                                         (currentMotorPosition s4)) s4)
              = currentMotorPosition s4
              /\ log (say (SerialMotorComplete (currentMotorPosition s4)) s4)
                 = SerialMotorComplete (currentMotorPosition s4) :: log s4
              /\ motorMoving (say (SerialMotorComplete
                                     (currentMotorPosition s4)) s4)
                 = motorMoving s4
              /\ clock (say (SerialMotorComplete (currentMotorPosition s4)) s4)
                 = clock s4).
  { generalize (SerialMotorComplete (currentMotorPosition s4)).
    intros e. open_state s4. fields. auto. }
  destruct G as (G1 & G2 & G3 & G4).
  unfold motor_trace in *.
  rewrite !Z2Nat.id in * by assumption.
  rewrite G1, G2, G3, G4, E1, E2, E4.
  cbn [filter is_step is_motor]. rewrite E3.
  rewrite D1, C1, B1, A1.
  repeat (rewrite <- Z.add_assoc || rewrite int_idem).
  rewrite D2, C2, B2, A2, D3, C3, B3, D5, C5, B5, A3.
  assert (T : turn direction * accelerationSteps steps
              + (turn direction * constantSteps steps
                 + turn direction * decelerationSteps steps)
              = turn direction * steps)
    by (unfold turn; destruct (0 <? direction); lia).
  rewrite T. repeat split.
  - rewrite !app_assoc, <- !repeat_app. f_equal. f_equal.
    rewrite <- !Z2Nat.inj_add by lia. f_equal. lia.
  - lia.
  - rewrite <- !app_assoc. reflexivity.
Qed.


(** *** Blocking *)

(** C4, at the inputs on which it fails.  Pressing [*] on the passcode
    screen right after [setup()] keeps the processor inside
    [handleKeypadInput] for 3.2 s, in both sketches: [denyAccess] sleeps
    six times 200 ms and then 2000 ms.  The quarter turn of the automatic
    mode keeps it inside [stepMotor] for 1.124 s: 100 steps at 2000 us and
    924 steps at 1000 us.  Nothing else of the loop runs meanwhile. *)
Theorem C4_feedback_and_motor_block (sk : Sketch) (t : Z) :
  blocked (handleKeypadInput sk "*") (setup t) = 3200000
  /\ blocked (stepMotor STEPS_PER_90_DEGREES 1) (setup t) = 1124000.
Proof.
  unfold blocked. split.
  - pose proof (failed_attempt sk (setup t) eq_refl eq_refl) as A.
    cbv zeta in A. destruct A as (_ & _ & _ & _ & A).
    rewrite A. change (lcdInitialized (setup t)) with true. lia.
  - pose proof (stepMotor_rule STEPS_PER_90_DEGREES 1 (setup t) eq_refl) as S.
    cbv zeta in S. destruct S as (_ & _ & _ & S & _).
    + unfold STEPS_PER_90_DEGREES. lia.
    + lia.
    + change (currentMotorPosition (setup t)) with 0. lia.
    + rewrite S.
      change (accelerationSteps STEPS_PER_90_DEGREES) with 50.
      change (decelerationSteps STEPS_PER_90_DEGREES) with 50.
      change (constantSteps STEPS_PER_90_DEGREES) with 924. lia.
Qed.
(** *** A failed DHT read *)

Lemma checkAlertConditions_sensors (s : state) :
  sensors (checkAlertConditions s) = sensors s
  /\ log (checkAlertConditions s) = log s.
Proof. unfold checkAlertConditions. cbv zeta. tests; split; reflexivity. Qed.

Lemma updateStatusLEDs_sensors (s : state) :
  sensors (updateStatusLEDs s) = sensors s
  /\ log (updateStatusLEDs s) = log s.
Proof. unfold updateStatusLEDs. tests; split; reflexivity. Qed.

Lemma updateLCDDisplay_sensors (sk : Sketch) (s : state) :
  sensors (updateLCDDisplay sk s) = sensors s
  /\ exists l, log (updateLCDDisplay sk s) = l ++ log s.
Proof.
  unfold updateLCDDisplay. cbv zeta.
  destruct (_ || _); [split; [reflexivity|exists []; reflexivity]|].
  split; [tests; reflexivity|].
  eexists [_]. tests; reflexivity.
Qed.

(** What a read of all sensors stores. *)
Lemma readAllSensors_rule (i : input) (s : state) :
  let ok := negb (isnan (in_temperature i)) && negb (isnan (in_humidity i)) in
  let measured :=
    fdiv (fmul (of_long (long (in_echo i))) (of_decimal 34 (-3)))
         (of_long 2) in
  let d :=
    if fle measured (of_long 0) || flt (of_long 400) measured
    then of_long 999 else measured in
  let s' := readAllSensors i s in
  temperature s' = (if ok then in_temperature i else temperature s)
  /\ humidity s' = (if ok then in_humidity i else humidity s)
  /\ distance s' = d
  /\ waterLevel s' = int (in_water i)
  /\ sensorDataValid s' = true
  /\ lastSensorRead s' = lastSensorRead s
  /\ (startup s' = startup s /\ lcdVars s' = lcdVars s
      /\ display s' = display s /\ alerts s' = alerts s
      /\ security s' = security s /\ motor s' = motor s
      /\ joystick s' = joystick s)
  /\ (pin_green s' = pin_green s /\ pin_red s' = pin_red s /\ lcd s' = lcd s)
  /\ log s'
     = SerialWater (int (in_water i))
       :: SerialDistance d
       :: (if ok then SerialDht (in_temperature i) (in_humidity i)
           else SerialDhtFailed)
       :: log s
  /\ clock s' = clock s + 12.
Proof.
  unfold readAllSensors, readUltrasonicDistance. cbv zeta.
  destruct (negb (isnan (in_temperature i)) && negb (isnan (in_humidity i)));
    open_state s; fields; unfold delayMicroseconds; simpl;
    repeat split; try reflexivity; lia.
Qed.

(** The sensor part of the dashboard: the sensors are read exactly when
    the read is due. *)
Lemma handleSensorDashboard_rule (i : input) (s : state) :
  let due := SENSOR_READ_INTERVAL <=? usub (now s) (lastSensorRead s) in
  let r := readAllSensors i s in
  let s1 := handleSensorDashboard i s in
  temperature s1 = (if due then temperature r else temperature s)
  /\ humidity s1 = (if due then humidity r else humidity s)
  /\ distance s1 = (if due then distance r else distance s)
  /\ waterLevel s1 = (if due then waterLevel r else waterLevel s)
  /\ sensorDataValid s1 = (if due then true else sensorDataValid s)
  /\ lastSensorRead s1 = (if due then now s else lastSensorRead s)
  /\ exists l, log s1 = l ++ (if due then log r else log s).
Proof.
  cbv zeta. unfold handleSensorDashboard. cbv zeta.
  set (s1 := if SENSOR_READ_INTERVAL <=? usub (now s) (lastSensorRead s)
             then _ else s).
  assert (E : temperature s1
              = (if SENSOR_READ_INTERVAL <=? usub (now s) (lastSensorRead s)
                 then temperature (readAllSensors i s) else temperature s)
              /\ humidity s1
                 = (if SENSOR_READ_INTERVAL
                       <=? usub (now s) (lastSensorRead s)
                    then humidity (readAllSensors i s) else humidity s)
              /\ distance s1
                 = (if SENSOR_READ_INTERVAL
                       <=? usub (now s) (lastSensorRead s)
                    then distance (readAllSensors i s) else distance s)
              /\ waterLevel s1
                 = (if SENSOR_READ_INTERVAL
                       <=? usub (now s) (lastSensorRead s)
                    then waterLevel (readAllSensors i s) else waterLevel s)
              /\ sensorDataValid s1
                 = (if SENSOR_READ_INTERVAL
                       <=? usub (now s) (lastSensorRead s)
                    then true else sensorDataValid s)
              /\ lastSensorRead s1
                 = (if SENSOR_READ_INTERVAL
                       <=? usub (now s) (lastSensorRead s)
                    then now s else lastSensorRead s)
              /\ log s1
                 = (if SENSOR_READ_INTERVAL
                       <=? usub (now s) (lastSensorRead s)
                    then log (readAllSensors i s) else log s)).
  { subst s1.
    destruct (SENSOR_READ_INTERVAL <=? usub (now s) (lastSensorRead s));
      [|repeat split; reflexivity].
    pose proof (readAllSensors_rule i s) as R. cbv zeta in R.
    destruct R as (_ & _ & _ & _ & R5 & _).
    set (x := readAllSensors i s) in *.
    destruct (checkAlertConditions_sensors x) as (A & A').
    destruct (updateStatusLEDs_sensors (checkAlertConditions x)) as (B & B').
    set (y := updateStatusLEDs (checkAlertConditions x)) in *.
    assert (Y : sensors y = sensors x) by congruence.
    assert (Y' : log y = log x) by congruence.
    rewrite <- R5.
    unfold temperature, humidity, distance, waterLevel, sensorDataValid.
    rewrite <- Y, <- Y'.
    open_state y. fields. repeat split; reflexivity. }
  destruct E as (E1 & E2 & E3 & E4 & E5 & E6 & E7).
  rewrite <- E1, <- E2, <- E3, <- E4, <- E5, <- E6, <- E7. clearbody s1.
  destruct (DISPLAY_ROTATION_INTERVAL <=? _);
    [|repeat split; exists []; reflexivity].
  destruct (updateLCDDisplay_sensors Phase4 s1) as (U & l & U').
  set (z := updateLCDDisplay Phase4 s1) in *.
  assert (Z1 : sensors (set_lastDisplayUpdate (now s) z) = sensors z
               /\ log (set_lastDisplayUpdate (now s) z) = log z)
    by (open_state z; fields; split; reflexivity).
  destruct Z1 as (Z1 & Z2).
  unfold temperature, humidity, distance, waterLevel, sensorDataValid,
    lastSensorRead.
  rewrite Z1, Z2, U, U'. repeat split. exists l. reflexivity.
Qed.

(** C6: a DHT read that returns NaN for the temperature or for the
    humidity is skipped and tried again at the next sensor tick.
    [readAllSensors] then leaves the stored temperature and humidity as
    they were; it still measures the distance (the echo length times 0.034,
    halved, or 999 when that is not within 0..400) and reads the water
    level in the same call, stores both and marks the data valid; and it
    changes nothing else except the Serial log, where it reports the
    failure, and the 12 us of the trigger pulse.  In the dashboard a read
    that is due is made, and a failed one uses up its tick like a good
    one: the timestamp of the last read moves to the current tick.  From
    then on the dashboard leaves the sensor data alone until 1000 ms have
    gone by since that tick, and the first call after that reads again and
    stores the temperature and the humidity if both are numbers. *)
Theorem C6_failed_dht_read_is_skipped (i : input) (s : state) :
  isnan (in_temperature i) = true \/ isnan (in_humidity i) = true ->
  let s' := readAllSensors i s in
  let measured :=
    fdiv (fmul (of_long (long (in_echo i))) (of_decimal 34 (-3)))
         (of_long 2) in
  let d :=
    if fle measured (of_long 0) || flt (of_long 400) measured
    then of_long 999 else measured in
  let report :=
    SerialWater (int (in_water i)) :: SerialDistance d :: SerialDhtFailed
    :: log s in
  (temperature s' = temperature s /\ humidity s' = humidity s)
  /\ (distance s' = d
      /\ waterLevel s' = int (in_water i)
      /\ sensorDataValid s' = true)
  /\ (lastSensorRead s' = lastSensorRead s
      /\ startup s' = startup s /\ lcdVars s' = lcdVars s
      /\ display s' = display s /\ alerts s' = alerts s
      /\ security s' = security s /\ motor s' = motor s
      /\ joystick s' = joystick s
      /\ pin_green s' = pin_green s /\ pin_red s' = pin_red s
      /\ lcd s' = lcd s)
  /\ (log s' = report /\ clock s' = clock s + 12)
  /\ ((SENSOR_READ_INTERVAL <=? usub (now s) (lastSensorRead s)) = true ->
      let s1 := handleSensorDashboard i s in
      (lastSensorRead s1 = now s
       /\ temperature s1 = temperature s /\ humidity s1 = humidity s
       /\ distance s1 = d /\ waterLevel s1 = int (in_water i)
       /\ sensorDataValid s1 = true
       /\ exists l, log s1 = l ++ report)
      /\ forall (i2 : input) (s2 : state),
           lastSensorRead s2 = lastSensorRead s1 ->
           let due := SENSOR_READ_INTERVAL <=? usub (now s2) (now s) in
           let ok :=
             negb (isnan (in_temperature i2))
             && negb (isnan (in_humidity i2)) in
           let s3 := handleSensorDashboard i2 s2 in
           temperature s3
           = (if due && ok then in_temperature i2 else temperature s2)
           /\ humidity s3
              = (if due && ok then in_humidity i2 else humidity s2)
           /\ lastSensorRead s3 = (if due then now s2 else now s)
           /\ (due = false -> sensors s3 = sensors s2)).
Proof.
  intros N.
  assert (K : negb (isnan (in_temperature i)) && negb (isnan (in_humidity i))
              = false).
  { destruct N as [-> | ->]; [reflexivity|apply andb_false_r]. }
  pose proof (readAllSensors_rule i s) as R. cbv zeta in R. rewrite K in R.
  destruct R as (R1 & R2 & R3 & R4 & R5 & R6 & R7 & R8 & R9 & R10).
  cbv zeta. split; [auto|]. split; [auto|]. split; [tauto|].
  split; [auto|].
  intros D.
  pose proof (handleSensorDashboard_rule i s) as H. cbv zeta in H.
  rewrite D in H. destruct H as (H1 & H2 & H3 & H4 & H5 & H6 & H7).
  split.
  - rewrite H1, H2, H3, H4, H5, H6, R1, R2, R3, R4.
    repeat split. rewrite <- R9. exact H7.
  - intros i2 s2 L2.
    pose proof (handleSensorDashboard_rule i2 s2) as G. cbv zeta in G.
    rewrite L2, H6 in G. destruct G as (G1 & G2 & _ & _ & _ & G6 & _).
    pose proof (readAllSensors_rule i2 s2) as Q. cbv zeta in Q.
    destruct Q as (Q1 & Q2 & _).
    rewrite G1, G2, G6, Q1, Q2.
    split; [|split; [|split]].
    + destruct (SENSOR_READ_INTERVAL <=? usub (now s2) (now s)); reflexivity.
    + destruct (SENSOR_READ_INTERVAL <=? usub (now s2) (now s)); reflexivity.
    + reflexivity.
    + intros O. unfold handleSensorDashboard. cbv zeta.
      rewrite L2, H6, O.
      destruct (DISPLAY_ROTATION_INTERVAL <=? _); [|reflexivity].
      destruct (updateLCDDisplay_sensors Phase4 s2) as (U & _).
      rewrite <- U. set (z := updateLCDDisplay Phase4 s2).
      open_state z. reflexivity.
Qed.

End WithFloats.

(** Test runs with floats as thousandths. *)

Example three_failures_lock_out :
  let star := Models.key_pass 250000 "*" in
  let idle := Models.key_pass 250000 Ascii.zero in
  let s := run Phase4 (repeat idle 8 ++ [star; star; star]) (setup 0) in
  (systemLockedOut s, failedAttempts s, systemUnlocked s) = (true, 3, false).
Proof. vm_compute. reflexivity. Qed.

Example passcode_keys_are_denied :
  let key := Models.key_pass 250000 in
  let s := run Phase4 (repeat (key Ascii.zero) 8
                       ++ [key "1"; key "2"; key "3"; key "4"; key "*"])%char
             (setup 0) in
  (systemUnlocked s, failedAttempts s, enteredPasscode s)
  = (false, 1, EmptyString).
Proof. vm_compute. reflexivity. Qed.

(** The third failure locks the system out; after 25 s of passes with a
    key pressed it is still locked out, and the pass 5 s after that ends
    the lockout. *)
Lemma C2_witness :
  systemLockedOut (loop Phase4 Models.star_pass Models.two_failures) = true
  /\ systemLockedOut
       (run Phase4 (repeat (Models.key_pass 250000 "7") 100)
          (loop Phase4 Models.star_pass Models.two_failures)) = true
  /\ systemLockedOut
       (loop Phase4 (Models.key_pass 5000000 "7")
          (run Phase4 (repeat (Models.key_pass 250000 "7") 100)
             (loop Phase4 Models.star_pass Models.two_failures))) = false.
Proof.
  destruct (C2_lockout_state_machine (F := Models.milli) Phase4
              Models.two_failures Models.star_pass)
    as (_ & B & _); try (vm_compute; reflexivity).
  destruct B as ((B1 & _) & B2); [vm_compute; reflexivity|].
  destruct (B2 (repeat (Models.key_pass 250000 "7") 100))
    as ((B3 & _) & B4); [vm_compute; reflexivity|].
  destruct (B4 (Models.key_pass 5000000 "7")) as (B5 & _);
    [vm_compute; split; [discriminate|reflexivity]|].
  repeat split; assumption.
Defined.


Lemma C6_witness :
  temperature
    (readAllSensors (Models.sensor_pass None (Some 40000) 1000 300)
       (set_temperature (F := Models.milli) (Some 21000) (setup 0)))
  = Some 21000.
Proof.
  destruct (C6_failed_dht_read_is_skipped (F := Models.milli)
              (Models.sensor_pass None (Some 40000) 1000 300)
              (set_temperature (F := Models.milli) (Some 21000) (setup 0)))
    as ((T & _) & _).
  - left. reflexivity.
  - rewrite T. reflexivity.
Defined.

End SecurityFacts.

(** ** Buttons: edges, not debounce *)

Module ButtonEdges.
Import Traces.

Lemma rising_edges_released (last : bool) (n : nat) :
  rising_edges last (repeat false n) = 0%nat.
Proof.
  revert last. induction n as [|n IH]; intros last; simpl; [reflexivity|].
  apply IH.
Qed.

Lemma rising_edges_skip (last : bool) (n : nat) (rest : list bool) :
  (rising_edges last (repeat false n ++ rest)
   <= rising_edges false rest)%nat.
Proof.
  revert last. induction n as [|n IH]; intros last; simpl.
  - destruct rest as [|p r]; simpl; [lia|]. destruct p, last; simpl; lia.
  - apply IH.
Qed.

Lemma rising_edges_held (h m : nat) :
  rising_edges true (repeat true h ++ repeat false m) = 0%nat.
Proof.
  induction h as [|h IH]; simpl.
  - apply rising_edges_released.
  - exact IH.
Qed.

(** A press without chatter shows at most one rising edge. *)
Lemma clean_press_one_edge (last : bool) (samples : list bool) :
  clean_press samples -> (rising_edges last samples <= 1)%nat.
Proof.
  intros (n & h & m & ->).
  eapply Nat.le_trans; [apply rising_edges_skip|].
  destruct h as [|h]; simpl.
  - rewrite rising_edges_released. lia.
  - rewrite rising_edges_held. lia.
Qed.

(** C9, as amended: the sketches detect edges and do not filter by time.
    The phase 2 sketch registers one press, and the proximity alarm
    toggles the mute once, for every pass of the loop that samples the
    button down after the pass before sampled it up; so a press is
    registered once per rising edge of the sampled signal, and a press
    whose samples show no chatter is registered at most once. *)
Theorem C9_one_press_per_rising_edge :
  (forall (t : Z) (ins : list (N * bool)),
     Button.presses (Button.run ins (Button.setup t))
     = rising_edges true (List.map (fun i => negb (snd i)) ins))
  /\ (forall (E : Proximity.EchoModel) (ins : list Proximity.input) s',
        Proximity.run ins Proximity.setup = Some s' ->
        Proximity.count_log Proximity.is_mute_line s'
        = rising_edges true
            (List.map (fun i => negb (Proximity.in_button i)) ins))
  /\ (forall last samples,
        clean_press samples -> (rising_edges last samples <= 1)%nat).
Proof.
  split; [|split].
  - intros t ins. rewrite ButtonFacts.run_presses.
    change (Button.presses (Button.setup t)) with 0%nat.
    change (Button.lastButtonState (Button.setup t)) with true. lia.
  - intros E ins s' R. apply ProximityFacts.run_mute_lines in R.
    rewrite R.
    change (Proximity.count_log Proximity.is_mute_line Proximity.setup)
      with 0%nat.
    change (Proximity.lastButtonState Proximity.setup) with true. lia.
  - apply clean_press_one_edge.
Qed.

Lemma C9_witness :
  (rising_edges false [false; true; true; false] <= 1)%nat.
Proof.
  apply (proj2 (proj2 C9_one_press_per_rising_edge)).
  exists 1%nat, 2%nat, 1%nat. reflexivity.
Defined.

(** C9 as stated fails: one press whose contact chatters once while it
    closes (up, down, up, down, down, up) is registered twice by the
    phase 2 sketch, which samples every 10 ms, and toggles the mute of the
    proximity alarm twice, sampled here every millisecond. *)
Lemma C9_chatter_registers_twice :
  let levels := [true; false; true; false; false; true] in
  bouncing_press (List.map negb levels)
  /\ Button.presses
       (Button.run (List.map (fun l => (0%N, l)) levels) (Button.setup 0))
     = 2%nat
  /\ option_map (Proximity.count_log Proximity.is_mute_line)
       (@Proximity.run Models.exact_echo
          (List.map (fun tl => Proximity.mkInput (fst tl) (snd tl) 0)
             (combine [1000; 2000; 3000; 4000; 5000; 6000] levels))
          Proximity.setup)
     = Some 2%nat.
Proof.
  cbv zeta. split; [|split].
  - exists 1%nat, [true; false], 1%nat, 1%nat. reflexivity.
  - vm_compute. reflexivity.
  - vm_compute. reflexivity.
Qed.

End ButtonEdges.

(** ** Phase 3: the display, the LED and the buzzer outputs *)

Module ProximityOutputs.
Import Arduino ArduinoFacts Proximity Traces ProximityFacts.

Section WithEcho.
Context {E : EchoModel}.

(** *** The digits *)

(** [break_number] and [number_of] are inverse on 0..9999: the four digits
    spell the number that was split. *)
Theorem break_number_round_trip (num : Z) (s : state) :
  0 <= num <= 9999 ->
  number_of (digits (break_number num s)) = num.
Proof.
  intros Hn. unfold break_number, number_of. destruct s.
  cbn [digits set_digits fold_left].
  rewrite !Z.quot_div_nonneg by lia.
  assert (H1 : 0 <= num / 10) by (apply Z.div_pos; lia).
  assert (H2 : 0 <= num / 100) by (apply Z.div_pos; lia).
  assert (H3 : 0 <= num / 1000 <= 9).
  { split; [apply Z.div_pos; lia|].
    apply Z.lt_succ_r. apply Z.div_lt_upper_bound; lia. }
  rewrite !Z.rem_mod_nonneg by lia.
  pose proof (Z.mod_pos_bound num 10 ltac:(lia)) as B0.
  pose proof (Z.mod_pos_bound (num / 10) 10 ltac:(lia)) as B1.
  pose proof (Z.mod_pos_bound (num / 100) 10 ltac:(lia)) as B2.
  rewrite !int_small by lia.
  pose proof (Z.div_mod num 10 ltac:(lia)) as D0.
  pose proof (Z.div_mod (num / 10) 10 ltac:(lia)) as D1.
  pose proof (Z.div_mod (num / 100) 10 ltac:(lia)) as D2.
  rewrite Z.div_div in D1 by lia. rewrite Z.div_div in D2 by lia.
  change (10 * 10) with 100 in D1. change (100 * 10) with 1000 in D2.
  lia.
Qed.

(** The thousands digit is not reduced: split without the clamp, a number
    of five digits puts 10 or more into it, and [display_number] at the
    first position then reads outside the pattern array. *)
Theorem unclamped_number_overruns (num : Z) (s : state) :
  10000 <= num < 32768000 -> count s = 0 ->
  display_number (break_number num s) = None.
Proof.
  intros Hn Hc. unfold display_number, break_number. cbv zeta.
  destruct s; simpl in *. subst.
  assert (H0 : 10 <= Z.quot num 1000 < 32768).
  { rewrite Z.quot_div_nonneg by lia. split.
    - apply Z.div_le_lower_bound; lia.
    - apply Z.div_lt_upper_bound; lia. }
  rewrite (int_small (Z.quot num 1000)) by lia.
  assert (I0 : forall (x : Z) l, index (x :: l) 0 = Some x) by reflexivity.
  rewrite I0.
  destruct (index numbers (Z.quot num 1000)) as [p|] eqn:I; [|reflexivity].
  exfalso. unfold index in I.
  destruct (Z.quot num 1000 <? 0); [discriminate|].
  assert (N : nth_error numbers (Z.to_nat (Z.quot num 1000)) = None).
  { apply nth_error_None. simpl. lia. }
  congruence.
Qed.

(** *** Multiplexing *)

(** With sound display data one call of [display_number] shows the digit
    at the current position: it sends the pattern of that digit to the
    shift register, latches it, switches on the cathode of that position
    and of no other, and moves on to the next position, from the fourth
    back to the first. *)
Theorem display_number_multiplexes (s : state) :
  display_ok s ->
  exists d p s',
    index (digits s) (count s) = Some d
    /\ index numbers d = Some p
    /\ display_number s = Some s'
    /\ shifted s' = p /\ pin_latch s' = true
    /\ (forall k, 0 <= k < 4 ->
          index (pin_cathodes s') k = Some (negb (k =? count s)))
    /\ count s' = (count s + 1) mod 4
    /\ digits s' = digits s.
Proof.
  intros (Hl & Hf & Hc & Hp & Hd). unfold display_number. cbv zeta.
  destruct s as [c ds dist bs me lb pd ps pb bi pbz pl pc pla sh lg].
  cbn [count digits pin_cathodes] in *.
  destruct (index_in_range ds c) as (d & Hi & Hin); [lia|].
  rewrite Forall_forall in Hf. pose proof (Hf d Hin) as Hd9.
  destruct (index_in_range numbers d) as (p & Hn & _); [simpl; lia|].
  exists d, p.
  assert (Hcases : c = 0 \/ c = 1 \/ c = 2 \/ c = 3) by lia.
  assert (Hk : forall k, 0 <= k < 4 -> k = 0 \/ k = 1 \/ k = 2 \/ k = 3)
    by (intros; lia).
  destruct Hcases as [-> | [-> | [-> | ->]]];
    (eexists; split; [exact Hi|]; split; [exact Hn|];
     cbn [cathode_high set_pin_cathodes set_pin_latch digits count
          pin_cathodes]; rewrite Hi, Hn;
     split; [reflexivity|]; split; [reflexivity|]; split; [reflexivity|];
     split; [|split; reflexivity];
     intros k Hk4; destruct (Hk k Hk4) as [-> | [-> | [-> | ->]]];
     reflexivity).
Qed.

(** *** The LED and a missing echo *)

(** After a sample the LED is lit exactly when the distance is at most
    5 cm.  A missing echo ([pulseIn] returns 0) counts as the distance 0:
    the display shows 0000 and the LED is lit. *)
Theorem led_follows_distance (echo : Z) (s : state) :
  let s' := sampleDistance echo s in
  pin_led s' = (distance s' <=? 5)
  /\ distance s' <= 9999
  /\ (echo = 0 ->
      distance s' = 0 /\ digits s' = [0; 0; 0; 0] /\ pin_led s' = true).
Proof.
  unfold sampleDistance, break_number. cbv zeta.
  destruct s; cbn [set_distance distance].
  destruct (9999 <? measureDistance echo) eqn:C;
    cbn [set_distance set_digits set_pin_led set_log distance digits
         pin_led muteEnabled buzzerInterval];
    (split; [reflexivity|]; split; [try lia|]).
  - intros ->. apply Z.ltb_lt in C. exfalso. revert C.
    unfold measureDistance. change (long 0) with 0. cbn [Z.eqb]. lia.
  - intros ->. unfold measureDistance. change (long 0) with 0.
    cbn [Z.eqb]. repeat split; reflexivity.
Qed.

(** *** The buzzer *)

Lemma buzzer_ok_same (s s' : state) :
  pin_buzzer s' = pin_buzzer s -> buzzerState s' = buzzerState s ->
  muteEnabled s' = muteEnabled s -> buzzerInterval s' = buzzerInterval s ->
  buzzer_ok s -> buzzer_ok s'.
Proof. unfold buzzer_ok. intros -> -> -> ->. auto. Qed.

Lemma readMuteButton_buzzer_ok (level : bool) (s : state) :
  buzzer_ok s -> buzzer_ok (readMuteButton level s).
Proof.
  unfold buzzer_ok, readMuteButton, toggleMute. cbv zeta.
  intros (P & M & I).
  destruct (negb level && negb (lastButtonState s)); destruct s;
    cbn in *; [destruct muteEnabled0; cbn|]; repeat split; auto;
    try lia; discriminate.
Qed.

Lemma sampleDistance_buzzer (echo : Z) (s : state) :
  pin_buzzer (sampleDistance echo s) = pin_buzzer s.
Proof.
  unfold sampleDistance, break_number. cbv zeta. destruct s.
  cbn [set_distance distance]. destruct (9999 <? measureDistance echo);
    reflexivity.
Qed.

Lemma display_number_buzzer (s s' : state) :
  display_number s = Some s' -> pin_buzzer s' = pin_buzzer s.
Proof.
  unfold display_number. cbv zeta. destruct s; simpl.
  destruct (index digits0 count0) as [d|]; [|discriminate].
  destruct (index numbers d) as [p|]; [|discriminate].
  destruct (index [true; true; true; true] count0) as [c|]; [|discriminate].
  destruct (int (count0 + 1) =? 4); intros [= <-]; reflexivity.
Qed.

Lemma handleCarBackupBuzzer_buzzer_ok (s : state) :
  buzzer_ok s -> buzzer_ok (handleCarBackupBuzzer s).
Proof.
  intros (P & M & I). unfold handleCarBackupBuzzer, buzzer_ok. cbv zeta.
  destruct (muteEnabled s) eqn:Mu.
  - destruct s; cbn in *. subst. repeat split; auto; lia.
  - destruct ((distance s <=? 10) && (2 <=? distance s)) eqn:Z1.
    + apply andb_true_iff in Z1. destruct Z1 as (Z1 & Z2).
      apply Z.leb_le in Z1, Z2.
      pose proof (map_beep_range (distance s) (conj Z2 Z1)) as R.
      rewrite buzzerInterval_set, ulong_small by lia.
      destruct (map (distance s) 2 10 100 800 <? 100) eqn:L;
        [apply Z.ltb_lt in L; lia|].
      destruct s; cbn in *. subst. repeat split; auto; try lia;
        try discriminate.
    + destruct ((distance s <? 2) && (0 <? distance s));
        destruct s; cbn in *; subst; repeat split; auto; try lia;
        discriminate.
Qed.

Lemma loop_buzzer_ok (i : input) (s s' : state) :
  loop i s = Some s' -> buzzer_ok s -> buzzer_ok s'.
Proof.
  intros L Hs. apply loop_stages in L. cbv zeta in L.
  destruct L as (s1 & s2 & s3 & E1 & E2 & D & E4).
  assert (H1 : buzzer_ok s1)
    by (subst s1; apply readMuteButton_buzzer_ok; exact Hs).
  assert (H2 : buzzer_ok s2).
  { subst s2. destruct (due i sensorInterval (previousSensorMillis s1));
      [|exact H1].
    match goal with |- buzzer_ok (sampleDistance ?e ?x) =>
      pose proof (sampleDistance_frame e x) as F;
      pose proof (sampleDistance_buzzer e x) as B end.
    cbv zeta in F. destruct F as (_ & Fb & Fm & _ & _ & _ & _ & Fi & _).
    eapply buzzer_ok_same; [exact B|exact Fb|exact Fm|exact Fi|].
    apply (buzzer_ok_same s1); try (destruct s1; reflexivity). exact H1. }
  assert (H3 : buzzer_ok s3).
  { destruct (due i displayInterval (previousDisplayMillis s2));
      [|subst s3; exact H2].
    pose proof (display_number_buzzer _ _ D) as B.
    apply display_number_frame in D.
    destruct D as (_ & _ & Fb & Fm & _ & _ & _ & _ & Fi & _).
    eapply buzzer_ok_same; [exact B|exact Fb|exact Fm|exact Fi|].
    apply (buzzer_ok_same s2); try (destruct s2; reflexivity). exact H2. }
  subst s'. destruct (due i (buzzerInterval s3) (previousBuzzerMillis s3));
    [|exact H3].
  apply handleCarBackupBuzzer_buzzer_ok.
  apply (buzzer_ok_same s3); try (destruct s3; reflexivity). exact H3.
Qed.

Lemma run_buzzer_ok (ins : list input) (s s' : state) :
  run ins s = Some s' -> buzzer_ok s -> buzzer_ok s'.
Proof.
  revert s. induction ins as [|i rest IH]; intros s; simpl.
  - intros [= <-]. auto.
  - destruct (loop i s) as [s1|] eqn:L; [|discriminate].
    intros R Hs. apply (IH s1 R). apply (loop_buzzer_ok i s s1 L Hs).
Qed.

Lemma setup_buzzer_ok : buzzer_ok setup.
Proof. unfold buzzer_ok, setup. cbn. repeat split; auto; lia. Qed.

(** Whatever the button, the clock and the sensor deliver after
    [setup()], the buzzer pin always shows [buzzerState], and while the
    alarm is muted the buzzer is off. *)
Theorem muted_alarm_is_silent (ins : list input) (s' : state) :
  run ins setup = Some s' ->
  pin_buzzer s' = buzzerState s'
  /\ (muteEnabled s' = true -> pin_buzzer s' = false).
Proof.
  intros R. destruct (run_buzzer_ok ins setup s' R setup_buzzer_ok)
    as (P & M & _).
  split; [exact P|]. intros Mu. rewrite P. apply M, Mu.
Qed.

(** The beep interval never leaves 100..800 ms, so the branch of
    [handleCarBackupBuzzer] that raises an interval below 100 ms is never
    taken. *)
Theorem beep_interval_bounds (ins : list input) (s' : state) :
  run ins setup = Some s' ->
  100 <= buzzerInterval s' <= 800
  /\ (2 <= distance s' <= 10 ->
      (ulong (map (distance s') 2 10 100 800) <? 100) = false).
Proof.
  intros R. destruct (run_buzzer_ok ins setup s' R setup_buzzer_ok)
    as (_ & _ & I).
  split; [exact I|]. intros Hd.
  pose proof (map_beep_range (distance s') Hd) as M.
  rewrite ulong_small by lia. apply Z.ltb_ge. lia.
Qed.

(** *** The mute *)

Lemma loop_mute (i : input) (s s' : state) :
  loop i s = Some s' ->
  muteEnabled s'
  = xorb (muteEnabled s) (negb (in_button i) && negb (lastButtonState s)).
Proof.
  intros L. apply loop_stages in L. cbv zeta in L.
  destruct L as (s1 & s2 & s3 & E1 & E2 & D & E4).
  pose proof (readMuteButton_rule (in_button i) s) as R1. cbv zeta in R1.
  rewrite <- E1 in R1. destruct R1 as (_ & A2 & _).
  pose proof (sensor_stage i s1) as F2. cbv zeta in F2. rewrite <- E2 in F2.
  destruct F2 as (_ & _ & _ & _ & _ & B6 & _).
  apply display_stage in D. cbv zeta in D.
  destruct D as (_ & _ & _ & _ & _ & C6 & _).
  pose proof (buzzer_stage i s3) as F4. cbv zeta in F4. rewrite <- E4 in F4.
  destruct F4 as (_ & _ & _ & _ & D6 & _).
  rewrite D6, C6, B6, A2.
  destruct (negb (in_button i) && negb (lastButtonState s));
    destruct (muteEnabled s); reflexivity.
Qed.

Lemma run_mute (ins : list input) (s s' : state) :
  run ins s = Some s' ->
  muteEnabled s'
  = xorb (muteEnabled s)
      (Nat.odd (rising_edges (lastButtonState s)
                  (List.map (fun i => negb (in_button i)) ins))).
Proof.
  revert s. induction ins as [|i rest IH]; intros s; simpl.
  - intros [= <-]. destruct (muteEnabled s); reflexivity.
  - destruct (loop i s) as [s1|] eqn:L; [|discriminate].
    intros R. rewrite (IH s1 R), (loop_mute i s s1 L).
    apply loop_mute_lines in L. cbv zeta in L. destruct L as (_ & ->).
    rewrite Nat.odd_add.
    destruct (negb (in_button i) && negb (lastButtonState s));
      destruct (muteEnabled s);
      destruct (Nat.odd (rising_edges _ _)); reflexivity.
Qed.

(** The mute is the parity of the presses: after [setup()] the alarm is
    muted exactly when the button went down an odd number of times. *)
Theorem mute_is_parity_of_presses (ins : list input) (s' : state) :
  run ins setup = Some s' ->
  muteEnabled s'
  = Nat.odd (rising_edges true (List.map (fun i => negb (in_button i)) ins)).
Proof. intros R. rewrite (run_mute ins setup s' R). reflexivity. Qed.

End WithEcho.

Lemma break_number_round_trip_witness :
  number_of (digits (break_number 1234 setup)) = 1234.
Proof. apply break_number_round_trip. lia. Defined.

Lemma unclamped_number_overruns_witness :
  display_number (break_number 12345 setup) = None.
Proof. apply unclamped_number_overruns; [lia|reflexivity]. Defined.

Lemma display_number_multiplexes_witness :
  exists s', display_number setup = Some s' /\ count s' = 1.
Proof.
  destruct (display_number_multiplexes setup setup_ok)
    as (d & p & s' & _ & _ & D & _ & _ & _ & C & _).
  exists s'. split; [exact D|]. rewrite C. reflexivity.
Defined.

Lemma led_follows_distance_witness :
  pin_led (@sampleDistance Models.exact_echo 0 setup) = true.
Proof.
  destruct (led_follows_distance (E := Models.exact_echo) 0 setup)
    as (_ & _ & Z).
  apply (Z eq_refl).
Defined.

Lemma muted_alarm_is_silent_witness :
  match @run Models.exact_echo
          [mkInput 1000 true 466; mkInput 150000 false 466] setup with
  | Some s' => pin_buzzer s' = false
  | None => False
  end.
Proof.
  destruct (@run Models.exact_echo
              [mkInput 1000 true 466; mkInput 150000 false 466] setup)
    as [s'|] eqn:R.
  - destruct (muted_alarm_is_silent (E := Models.exact_echo) _ _ R)
      as (_ & M).
    apply M. vm_compute in R. injection R as <-. reflexivity.
  - vm_compute in R. discriminate R.
Defined.

Lemma beep_interval_bounds_witness :
  match @run Models.exact_echo
          [mkInput 150000 true 466; mkInput 400000 true 466] setup with
  | Some s' => 100 <= buzzerInterval s' <= 800
  | None => False
  end.
Proof.
  destruct (@run Models.exact_echo
              [mkInput 150000 true 466; mkInput 400000 true 466] setup)
    as [s'|] eqn:R.
  - apply (beep_interval_bounds (E := Models.exact_echo) _ _ R).
  - vm_compute in R. discriminate R.
Defined.

Lemma mute_is_parity_of_presses_witness :
  match @run Models.exact_echo
          [mkInput 1000 true 0; mkInput 2000 false 0; mkInput 3000 true 0]
          setup with
  | Some s' => muteEnabled s' = true
  | None => False
  end.
Proof.
  destruct (@run Models.exact_echo
              [mkInput 1000 true 0; mkInput 2000 false 0; mkInput 3000 true 0]
              setup) as [s'|] eqn:R.
  - apply (mute_is_parity_of_presses (E := Models.exact_echo) _ _ R).
  - vm_compute in R. discriminate R.
Defined.

End ProximityOutputs.

(** ** Phases 1 and 2: what the LED and the buzzer do over a run *)

Module BlinkTimer.
Import Arduino ArduinoFacts Blink BlinkFacts.

Lemma loop_pin (idle : N) (s : state) :
  pin_led s = ledState s -> pin_led (loop idle s) = ledState (loop idle s).
Proof.
  intros P. unfold loop, blinkLED, updateSerial. cbv zeta.
  destruct s; cbn in *. subst.
  repeat match goal with
         | |- context [if ?c then _ else _] => destruct c
         end; reflexivity.
Qed.

Lemma blinkLED_clock (s : state) : clock (blinkLED s) = clock s.
Proof.
  unfold blinkLED. cbv zeta.
  destruct (BLINK_INTERVAL <=? usub (millis (clock s)) (previousBlinkTime s));
    destruct s; reflexivity.
Qed.

(** Over any run after [setup()] the LED pin shows [ledState]. *)
Theorem blink_pin_shows_state (t : Z) (idles : list N) :
  pin_led (run idles (setup t)) = ledState (run idles (setup t)).
Proof.
  unfold run. generalize (setup t) (eq_refl : pin_led (setup t) = ledState (setup t)).
  induction idles as [|i rest IH]; intros s P; simpl; [exact P|].
  apply IH, loop_pin, P.
Qed.

(** One pass of the blink sketch, [idle] microseconds after the previous
    one: if the last toggle was stamped at time [t0] and fewer than 2^32 ms
    have gone by, the LED toggles exactly when 500 ms or more have gone by,
    whether or not the millisecond counter wrapped in between; the stamp
    moves to the current tick exactly then; and the pass ends 10 ms after
    it began. *)
Theorem blink_pass (idle : N) (s : state) (t0 : Z) :
  previousBlinkTime s = millis t0 ->
  let t := clock s + Z.of_N idle in
  t0 <= t -> t / 1000 - t0 / 1000 < 2 ^ 32 ->
  let toggles := 500 <=? t / 1000 - t0 / 1000 in
  ledState (loop idle s) = (if toggles then negb (ledState s) else ledState s)
  /\ previousBlinkTime (loop idle s)
     = (if toggles then millis t else millis t0)
  /\ clock (loop idle s) = t + 10000.
Proof.
  intros P t Hle Hlt toggles. unfold loop. cbv zeta.
  set (s0 := set_clock (clock s + Z.of_N idle) s).
  assert (E0 : clock s0 = t /\ previousBlinkTime s0 = millis t0
               /\ ledState s0 = ledState s)
    by (subst s0; destruct s; cbn in *; auto).
  destruct E0 as (E1 & E2 & E3).
  destruct (blinkLED_rule s0) as (R1 & _ & R3). cbv zeta in R1, R3.
  rewrite E1, E2, usub_millis in R1, R3 by assumption.
  set (s1 := blinkLED s0) in *.
  assert (C1 : clock s1 = t)
    by (subst s1; rewrite blinkLED_clock; exact E1).
  match goal with
  | |- context [if ?c then ?a else ?b] =>
    assert (F : ledState (if c then a else b) = ledState s1
                /\ previousBlinkTime (if c then a else b)
                   = previousBlinkTime s1
                /\ clock (if c then a else b) = clock s1)
      by (unfold updateSerial; destruct c; destruct s1; cbn; auto);
    set (s2 := if c then a else b) in *
  end.
  destruct F as (F1 & F2 & F3).
  assert (G : ledState (set_clock (delay 10 (clock s2)) s2) = ledState s2
              /\ previousBlinkTime (set_clock (delay 10 (clock s2)) s2)
                 = previousBlinkTime s2
              /\ clock (set_clock (delay 10 (clock s2)) s2)
                 = clock s2 + 10000)
    by (unfold delay; destruct s2; cbn; repeat split; auto; lia).
  destruct G as (G1 & G2 & G3).
  rewrite G1, G2, G3, F1, F2, F3, R1, R3, C1, E3.
  unfold toggles, BLINK_INTERVAL. repeat split; reflexivity.
Qed.

Lemma blink_pass_witness :
  ledState (loop 500000 (set_previousBlinkTime 4294967000
                         (set_clock 4294967295000 (setup 0))))
  = true.
Proof.
  destruct (blink_pass 500000
              (set_previousBlinkTime 4294967000
                 (set_clock 4294967295000 (setup 0)))
              4294967000000) as (L & _).
  - reflexivity.
  - cbn. lia.
  - cbn. vm_compute. reflexivity.
  - rewrite L. vm_compute. reflexivity.
Defined.

End BlinkTimer.

Module ButtonBuzzer.
Import Arduino ArduinoFacts Button ButtonFacts Traces.

Lemma loop_outputs (i : N * bool) (s : state) :
  outputs_ok s -> outputs_ok (loop i s).
Proof.
  unfold outputs_ok, loop, readButton, handleBuzzer, toggleLED,
    triggerBuzzer. cbv zeta. intros (L & B).
  destruct s; cbn in *. subst.
  repeat match goal with
         | |- context [if ?c then _ else _] => destruct c eqn:?
         end; cbn in *; split; try reflexivity; congruence.
Qed.

Lemma run_outputs (ins : list (N * bool)) (s : state) :
  outputs_ok s -> outputs_ok (run ins s).
Proof.
  revert s. unfold run.
  induction ins as [|i rest IH]; intros s H; simpl; [exact H|].
  apply IH, loop_outputs, H.
Qed.

Lemma run_led (ins : list (N * bool)) (s : state) :
  ledState (run ins s)
  = xorb (ledState s)
      (Nat.odd (rising_edges (lastButtonState s)
                  (List.map (fun i => negb (snd i)) ins))).
Proof.
  revert s. unfold run.
  induction ins as [|i rest IH]; intros s; simpl.
  - destruct (ledState s); reflexivity.
  - rewrite IH. destruct (loop_rule i s) as (_ & L & D). rewrite L, D.
    rewrite Nat.odd_add.
    destruct (negb (snd i) && negb (lastButtonState s));
      destruct (ledState s);
      destruct (Nat.odd (rising_edges _ _)); reflexivity.
Qed.

(** Over any run after [setup()] the LED is on exactly when an odd number
    of presses has been registered, and both pins show their state
    variables. *)
Theorem led_is_parity_of_presses (t : Z) (ins : list (N * bool)) :
  let s := run ins (setup t) in
  ledState s = Nat.odd (presses s)
  /\ pin_led s = ledState s /\ pin_buzzer s = buzzerActive s.
Proof.
  cbv zeta. split.
  - rewrite run_led, run_presses.
    change (presses (setup t)) with 0%nat. rewrite Nat.add_0_r.
    reflexivity.
  - apply run_outputs. split; reflexivity.
Qed.

(** The beep.  A pass that registers a press ends with the buzzer on and
    stamps the beep with the current tick, also when a beep was already
    going; a pass without a press leaves a running beep on while fewer
    than 200 ms lie between its stamp and the current tick, ends it
    otherwise, and never starts one. *)
Theorem beep_lasts_200_ms (i : N * bool) (s : state) :
  let t := clock s + Z.of_N (fst i) in
  let press := negb (snd i) && negb (lastButtonState s) in
  buzzerActive (loop i s)
  = (if press then true
     else buzzerActive s
          && negb (BUZZER_BEEP_DURATION <=? usub (millis t) (lastBeepTime s)))
  /\ lastBeepTime (loop i s) = (if press then millis t else lastBeepTime s)
  /\ clock (loop i s) = t + 10000.
Proof.
  unfold loop, readButton, handleBuzzer, toggleLED, triggerBuzzer, delay.
  cbv zeta.
  destruct (negb (snd i) && negb (lastButtonState s)) eqn:P;
    destruct s; cbn [set_clock set_ledState set_pin_led set_log
                     set_pin_buzzer set_buzzerActive set_lastBeepTime
                     set_lastButtonState clock ledState lastButtonState
                     lastBeepTime buzzerActive pin_led pin_buzzer log] in *;
    rewrite P; cbn [set_clock set_ledState set_pin_led set_log
                    set_pin_buzzer set_buzzerActive set_lastBeepTime
                    set_lastButtonState clock ledState lastButtonState
                    lastBeepTime buzzerActive pin_led pin_buzzer log andb].
  - rewrite usub_ulong_self.
    change (BUZZER_BEEP_DURATION <=? 0) with false.
    cbn. repeat split; lia.
  - destruct buzzerActive0; cbn [andb];
      [destruct (BUZZER_BEEP_DURATION <=? _)|]; cbn; repeat split; lia.
Qed.

End ButtonBuzzer.

(** ** Phases 4 and 5: what holds over every run *)

Module SecurityRuns.
Import Arduino ArduinoFacts Security SecurityFacts.

Section WithFloats.
Context {F : FloatOps}.

(** *** A locked pass takes the short way *)

Lemma checkPasscode_locked (sk : Sketch) (s : state) :
  locked_for_good s ->
  checkPasscode sk s
  = clearEntry (denyAccess (say (SerialChecking (enteredPasscode s)) s)).
Proof.
  intros (_ & S & _). unfold checkPasscode. cbv zeta.
  change (enteredPasscode (say (SerialChecking (enteredPasscode s)) s))
    with (enteredPasscode s).
  rewrite (no_star_not_passcode _ S). reflexivity.
Qed.

Lemma handleSystem_locked (sk : Sketch) (i : input) (s : state) :
  locked_for_good s ->
  handleSystem sk i s
  = (if systemLockedOut (handleKeypadInput sk (in_key i) s)
     then handleLockout (handleKeypadInput sk (in_key i) s)
     else displayPasscodeEntry (handleKeypadInput sk (in_key i) s)).
Proof.
  intros H. unfold handleSystem. cbv zeta.
  destruct (handleKeypadInput_keeps sk (in_key i) s H) as (U & _).
  rewrite U. reflexivity.
Qed.

(** *** The dashboard never runs *)

Lemma untouched_refl (s : state) : dashboard_untouched s s.
Proof. unfold dashboard_untouched. repeat split; reflexivity. Qed.

Lemma untouched_trans (s0 s1 s2 : state) :
  dashboard_untouched s0 s1 -> dashboard_untouched s1 s2 ->
  dashboard_untouched s0 s2.
Proof.
  unfold dashboard_untouched.
  intros (A1 & A2 & A3 & A4 & A5 & A6) (B1 & B2 & B3 & B4 & B5 & B6).
  repeat split; congruence.
Qed.

Ltac untouched :=
  unfold dashboard_untouched; cbv zeta; tests; repeat split; reflexivity.

Lemma clearEntry_untouched (s : state) : dashboard_untouched s (clearEntry s).
Proof. unfold clearEntry. untouched. Qed.

Lemma denyAccess_untouched (s : state) : dashboard_untouched s (denyAccess s).
Proof. unfold denyAccess, lockoutSystem. untouched. Qed.

Lemma autoClear_untouched (s : state) : dashboard_untouched s (autoClear s).
Proof. unfold autoClear, clearEntry. untouched. Qed.

Lemma handleKeypadInput_untouched (sk : Sketch) (key : ascii) (s : state) :
  locked_for_good s ->
  dashboard_untouched s (handleKeypadInput sk key s).
Proof.
  intros H. unfold handleKeypadInput. cbv zeta.
  destruct (Ascii.eqb key Ascii.zero); [apply autoClear_untouched|].
  set (s1 := say (SerialKey key) _).
  assert (U1 : dashboard_untouched s s1) by (subst s1; untouched).
  assert (H1 : locked_for_good s1).
  { destruct H as (U & S & G). subst s1. unfold locked_for_good.
    repeat split; try assumption.
    intros [E | E]; [discriminate E|exact (G E)]. }
  destruct (systemLockedOut s1); [exact U1|].
  eapply untouched_trans; [exact U1|].
  eapply untouched_trans; [|apply autoClear_untouched].
  destruct (Ascii.eqb key "#"); [apply clearEntry_untouched|].
  destruct (Ascii.eqb key "*").
  - rewrite (checkPasscode_locked sk s1 H1).
    eapply untouched_trans; [|apply clearEntry_untouched].
    eapply untouched_trans; [|apply denyAccess_untouched].
    untouched.
  - untouched.
Qed.

Lemma handleLockout_untouched (s : state) :
  dashboard_untouched s (handleLockout s).
Proof. unfold handleLockout. untouched. Qed.

Lemma displayPasscodeEntry_untouched (s : state) :
  dashboard_untouched s (displayPasscodeEntry s).
Proof. unfold displayPasscodeEntry. untouched. Qed.

Lemma blinkStartup_untouched (s : state) :
  dashboard_untouched s (blinkStartup s).
Proof. unfold blinkStartup. untouched. Qed.

Lemma handleLCDStartup_untouched (s : state) :
  dashboard_untouched s (handleLCDStartup s).
Proof.
  unfold handleLCDStartup, displaySystemReady, displayStartupMessage.
  untouched.
Qed.

Lemma loop_untouched (sk : Sketch) (i : input) (s : state) :
  locked_for_good s -> dashboard_untouched s (loop sk i s).
Proof.
  intros H. unfold loop. cbv zeta.
  set (s0 := set_clock _ s).
  assert (U0 : dashboard_untouched s s0) by (subst s0; untouched).
  assert (H0 : locked_for_good s0) by exact H.
  set (s1 := if negb (startupComplete s0) then _ else _).
  assert (U1 : dashboard_untouched s0 s1).
  { subst s1. destruct (negb (startupComplete s0));
      [apply blinkStartup_untouched|].
    rewrite (handleSystem_locked sk i s0 H0).
    eapply untouched_trans;
      [apply (handleKeypadInput_untouched sk (in_key i) s0 H0)|].
    destruct (systemLockedOut _);
      [apply handleLockout_untouched|apply displayPasscodeEntry_untouched]. }
  eapply untouched_trans; [exact U0|].
  eapply untouched_trans; [exact U1|].
  destruct (_ && _); [apply handleLCDStartup_untouched|apply untouched_refl].
Qed.

Lemma run_untouched (sk : Sketch) (ins : list input) (s : state) :
  locked_for_good s -> dashboard_untouched s (run sk ins s).
Proof.
  revert s. unfold run.
  induction ins as [|i rest IH]; intros s H; simpl;
    [apply untouched_refl|].
  eapply untouched_trans; [apply (loop_untouched sk i s H)|].
  apply IH, loop_keeps, H.
Qed.

(** Since access is never granted, nothing behind the passcode ever runs:
    over any run of either sketch after [setup()] no sensor is read (the
    sensor data stay invalid and as initialised), no alert is raised, the
    display rotation stays put, and the motor gets no step command and
    stays inactive at position 0. *)
Theorem dashboard_never_runs (sk : Sketch) (t : Z) (ins : list input) :
  let s := run sk ins (setup t) in
  sensorDataValid s = false
  /\ sensors s = sensors (setup t)
  /\ anyAlert s = false
  /\ display s = display (setup t)
  /\ filter is_step (log s) = []
  /\ motorActive s = false /\ currentMotorPosition s = 0.
Proof.
  cbv zeta.
  destruct (run_untouched sk ins (setup t) (setup_locked t))
    as (A1 & A2 & A3 & A4 & A5 & A6).
  unfold sensorDataValid, anyAlert, motorActive, currentMotorPosition.
  rewrite A1, A2, A3, A6. repeat split; try reflexivity. exact A5.
Qed.

(** *** The counter of failed attempts *)

Lemma length_append (p q : string) :
  String.length (p ++ q) = (String.length p + String.length q)%nat.
Proof. induction p as [|c p IH]; simpl; [reflexivity|]. rewrite IH. reflexivity. Qed.

Lemma attempts_ok_same (s s' : state) :
  security s' = security s -> attempts_ok s -> attempts_ok s'.
Proof.
  unfold attempts_ok, enteredPasscode, failedAttempts, systemLockedOut.
  intros ->. auto.
Qed.

Lemma clearEntry_attempts (s : state) :
  attempts_ok s -> attempts_ok (clearEntry s).
Proof.
  unfold attempts_ok. intros (_ & A & L). repeat split; try apply A.
  - simpl. lia.
  - exact L.
Qed.

Lemma autoClear_attempts (s : state) :
  attempts_ok s -> attempts_ok (autoClear s).
Proof.
  intros H. unfold autoClear.
  destruct (_ && _); [apply clearEntry_attempts|]; exact H.
Qed.

Lemma handleLockout_attempts (s : state) :
  attempts_ok s -> attempts_ok (handleLockout s).
Proof.
  intros (E & A & L). destruct (handleLockout_rule s) as (R1 & R2).
  cbv zeta in R1, R2. unfold attempts_ok. rewrite R1, R2.
  assert (P : enteredPasscode (handleLockout s) = enteredPasscode s).
  { unfold handleLockout. cbv zeta. tests; reflexivity. }
  rewrite P.
  destruct (LOCKOUT_DURATION <=? _); repeat split; try assumption;
    try lia; reflexivity.
Qed.

Lemma handleKeypadInput_attempts (sk : Sketch) (key : ascii) (s : state) :
  locked_for_good s -> attempts_ok s ->
  attempts_ok (handleKeypadInput sk key s).
Proof.
  intros H A.
  destruct (Ascii.eqb key Ascii.zero) eqn:K0.
  { unfold handleKeypadInput. rewrite K0. apply autoClear_attempts, A. }
  assert (Kz : key <> Ascii.zero)
    by (intros ->; rewrite Ascii.eqb_refl in K0; discriminate).
  destruct (systemLockedOut s) eqn:L.
  { pose proof (keypad_during_lockout sk key s L) as D. cbv zeta in D.
    destruct D as (D1 & D2 & _ & _ & D5). specialize (D5 Kz).
    destruct A as (A1 & A2 & A3). unfold attempts_ok.
    rewrite D1, D2, D5. rewrite L in A3. auto. }
  destruct (Ascii.eqb key "*") eqn:Ks.
  { apply Ascii.eqb_eq in Ks. subst key.
    pose proof (failed_attempt sk s L
                  (no_star_not_passcode _ (proj1 (proj2 H)))) as D.
    cbv zeta in D. destruct D as (D1 & D2 & _ & D4 & _).
    destruct A as (A1 & A2 & A3). rewrite L in A3.
    assert (N : 0 <= failedAttempts s <= 2).
    { symmetry in A3. apply Z.eqb_neq in A3. lia. }
    rewrite int_small in D1, D2 by lia.
    unfold attempts_ok. rewrite D1, D2, D4. unfold MAX_FAILED_ATTEMPTS.
    repeat split; simpl; lia. }
  unfold handleKeypadInput. cbv zeta. rewrite K0.
  set (s1 := say (SerialKey key) _).
  assert (A1 : attempts_ok s1) by exact A.
  assert (L1 : systemLockedOut s1 = false) by exact L.
  rewrite L1, Ks. apply autoClear_attempts.
  destruct (Ascii.eqb key "#"); [apply clearEntry_attempts, A1|].
  destruct (_ <? _) eqn:Len; [|exact A1].
  destruct A1 as (B1 & B2 & B3). unfold attempts_ok.
  repeat split; try apply B2; try exact B3.
  change (enteredPasscode (say _ (set_enteredPasscode ?p s1))) with p.
  cbn [enteredPasscode]. apply Z.ltb_lt in Len.
  unfold MAX_PASSCODE_LENGTH in Len.
  change (String.length
            (enteredPasscode s1 ++ String key EmptyString) <= 5)%nat.
  rewrite length_append. simpl. lia.
Qed.

Lemma loop_attempts (sk : Sketch) (i : input) (s : state) :
  locked_for_good s -> attempts_ok s -> attempts_ok (loop sk i s).
Proof.
  intros H A. unfold loop. cbv zeta.
  set (s0 := set_clock _ s).
  assert (A0 : attempts_ok s0) by exact A.
  assert (H0 : locked_for_good s0) by exact H.
  set (s1 := if negb (startupComplete s0) then _ else _).
  assert (A1 : attempts_ok s1).
  { subst s1. destruct (negb (startupComplete s0)).
    - apply (attempts_ok_same s0); [|exact A0].
      unfold blinkStartup. cbv zeta. tests; reflexivity.
    - rewrite (handleSystem_locked sk i s0 H0).
      pose proof (handleKeypadInput_attempts sk (in_key i) s0 H0 A0) as K.
      destruct (systemLockedOut _); [apply handleLockout_attempts, K|].
      apply (attempts_ok_same (handleKeypadInput sk (in_key i) s0));
        [|exact K].
      unfold displayPasscodeEntry. tests; reflexivity. }
  destruct (_ && _); [|exact A1].
  apply (attempts_ok_same s1); [|exact A1].
  unfold handleLCDStartup, displaySystemReady, displayStartupMessage.
  cbv zeta. tests; reflexivity.
Qed.

(** Over any run of either sketch after [setup()] the entry never grows
    beyond five characters, the counter of failed attempts stays between 0
    and 3, and the system is locked out exactly while the counter is 3. *)
Theorem attempts_and_lockout_agree (sk : Sketch) (t : Z) (ins : list input) :
  let s := run sk ins (setup t) in
  (String.length (enteredPasscode s) <= 5)%nat
  /\ 0 <= failedAttempts s <= 3
  /\ systemLockedOut s = (failedAttempts s =? 3).
Proof.
  cbv zeta.
  assert (G : forall s, locked_for_good s -> attempts_ok s ->
                        attempts_ok (run sk ins s)).
  { unfold run. induction ins as [|i rest IH]; intros s H A; simpl;
      [exact A|].
    apply IH; [apply loop_keeps, H|apply loop_attempts; assumption]. }
  apply (G (setup t) (setup_locked t)).
  unfold attempts_ok.
  change (enteredPasscode (setup t)) with EmptyString.
  change (failedAttempts (setup t)) with 0.
  change (systemLockedOut (setup t)) with false.
  repeat split; simpl; lia.
Qed.

(** *** The start-up blinks *)

Lemma blinkStartup_starting (s : state) :
  starting_up s -> startupComplete s = false ->
  starting_up (blinkStartup s)
  /\ (startupComplete (blinkStartup s) = true ->
      pin_green (blinkStartup s) = false /\ pin_red (blinkStartup s) = false).
Proof.
  unfold starting_up, blinkStartup. cbv zeta. intros (R & P) C.
  destruct (P C) as (Pg & Pr).
  destruct (STARTUP_BLINK_DURATION <=? _);
    [|split; [split; assumption|rewrite C; discriminate]].
  change (int (STARTUP_BLINK_COUNT * 2)) with 6.
  assert (Hc : startupBlinkCount s = 0 \/ startupBlinkCount s = 1
               \/ startupBlinkCount s = 2 \/ startupBlinkCount s = 3
               \/ startupBlinkCount s = 4 \/ startupBlinkCount s = 5
               \/ startupBlinkCount s = 6) by lia.
  open_state s. fields.
  repeat (destruct Hc as [-> | Hc];
          [subst; cbn; repeat split; (lia || reflexivity || discriminate
                                      || auto)|]).
  subst. cbn. repeat split; (lia || reflexivity || discriminate || auto).
Qed.

Lemma starting_up_same (s s' : state) :
  startup s' = startup s -> pin_green s' = pin_green s ->
  pin_red s' = pin_red s -> starting_up s -> starting_up s'.
Proof.
  unfold starting_up, startupBlinkCount, startupComplete.
  intros -> -> ->. auto.
Qed.

Lemma starting_up_complete (s s' : state) :
  startup s' = startup s -> startupComplete s = true ->
  starting_up s -> starting_up s'.
Proof.
  unfold starting_up, startupBlinkCount, startupComplete.
  intros -> C (R & _). split; [exact R|]. rewrite C. discriminate.
Qed.

Lemma handleLCDStartup_pins (s : state) :
  startup (handleLCDStartup s) = startup s
  /\ security (handleLCDStartup s) = security s
  /\ pin_green (handleLCDStartup s) = pin_green s
  /\ pin_red (handleLCDStartup s) = pin_red s.
Proof.
  unfold handleLCDStartup, displaySystemReady, displayStartupMessage.
  cbv zeta. tests; repeat split; reflexivity.
Qed.

Lemma handleKeypadInput_startup (sk : Sketch) (key : ascii) (s : state) :
  locked_for_good s ->
  startup (handleKeypadInput sk key s) = startup s.
Proof.
  intros H. unfold handleKeypadInput. cbv zeta.
  destruct (Ascii.eqb key Ascii.zero);
    [unfold autoClear, clearEntry; tests; reflexivity|].
  set (s1 := say (SerialKey key) _).
  assert (H1 : locked_for_good s1).
  { destruct H as (U & S & G). subst s1. unfold locked_for_good.
    repeat split; try assumption.
    intros [E | E]; [discriminate E|exact (G E)]. }
  assert (E1 : startup s1 = startup s) by reflexivity.
  destruct (systemLockedOut s1); [exact E1|]. rewrite <- E1.
  destruct (Ascii.eqb key "#");
    [unfold autoClear, clearEntry; tests; reflexivity|].
  destruct (Ascii.eqb key "*").
  - rewrite (checkPasscode_locked sk s1 H1).
    unfold autoClear, clearEntry, denyAccess, lockoutSystem.
    cbv zeta. tests; reflexivity.
  - unfold autoClear, clearEntry. tests; reflexivity.
Qed.

Lemma loop_starting (sk : Sketch) (i : input) (s : state) :
  locked_for_good s -> starting_up s -> starting_up (loop sk i s).
Proof.
  intros H A. unfold loop. cbv zeta.
  set (s0 := set_clock _ s).
  assert (A0 : starting_up s0) by exact A.
  assert (H0 : locked_for_good s0) by exact H.
  set (s1 := if negb (startupComplete s0) then _ else _).
  assert (A1 : starting_up s1).
  { subst s1. destruct (startupComplete s0) eqn:C; cbn [negb].
    - rewrite (handleSystem_locked sk i s0 H0).
      pose proof (handleKeypadInput_startup sk (in_key i) s0 H0) as K.
      apply (starting_up_complete s0); [|exact C|exact A0].
      rewrite <- K.
      destruct (systemLockedOut _);
        [unfold handleLockout|unfold displayPasscodeEntry];
        cbv zeta; tests; reflexivity.
    - apply (blinkStartup_starting s0 A0 C). }
  destruct (_ && _); [|exact A1].
  destruct (handleLCDStartup_pins s1) as (P1 & _ & P3 & P4).
  apply (starting_up_same s1); assumption.
Qed.

(** Over any run of either sketch after [setup()] the start-up sequence
    makes at most six half blinks, and until it is complete the two LEDs
    are lit together after an odd number of half blinks and dark together
    after an even number. *)
Theorem startup_blinks_in_step (sk : Sketch) (t : Z) (ins : list input) :
  let s := run sk ins (setup t) in
  0 <= startupBlinkCount s <= 6
  /\ (startupComplete s = false ->
      pin_green s = Z.odd (startupBlinkCount s)
      /\ pin_red s = Z.odd (startupBlinkCount s)).
Proof.
  cbv zeta.
  assert (G : forall s, locked_for_good s -> starting_up s ->
                        starting_up (run sk ins s)).
  { unfold run. induction ins as [|i rest IH]; intros s H A; simpl;
      [exact A|].
    apply IH; [apply loop_keeps, H|apply loop_starting; assumption]. }
  apply (G (setup t) (setup_locked t)).
  unfold starting_up.
  change (startupBlinkCount (setup t)) with 0.
  change (pin_green (setup t)) with false.
  change (pin_red (setup t)) with false.
  repeat split; (lia || reflexivity).
Qed.

(** While the start-up blinks are not complete a pass does not look at the
    keypad: whatever key is delivered, the security state (entry, failed
    attempts, lockout, activity stamps) is as before; and the pass that
    completes the sequence leaves both LEDs off. *)
Theorem keys_are_lost_during_startup (sk : Sketch) (i : input) (s : state) :
  startupComplete s = false ->
  security (loop sk i s) = security s
  /\ (starting_up s -> startupComplete (loop sk i s) = true ->
      pin_green (loop sk i s) = false /\ pin_red (loop sk i s) = false).
Proof.
  intros C. unfold loop. cbv zeta.
  set (s0 := set_clock _ s).
  assert (C0 : startupComplete s0 = false) by exact C.
  rewrite C0. cbn [negb].
  assert (B : security (blinkStartup s0) = security s).
  { unfold blinkStartup. cbv zeta. tests; reflexivity. }
  split.
  - destruct (_ && _); [|exact B].
    destruct (handleLCDStartup_pins (blinkStartup s0)) as (_ & P2 & _).
    rewrite P2. exact B.
  - intros A. assert (A0 : starting_up s0) by exact A.
    destruct (blinkStartup_starting s0 A0 C0) as (_ & Q).
    destruct (_ && _); [|exact Q].
    destruct (handleLCDStartup_pins (blinkStartup s0))
      as (P1 & _ & P3 & P4).
    unfold startupComplete. rewrite P1, P3, P4. exact Q.
Qed.

End WithFloats.

Section Functions.
Context {F : FloatOps}.

(** *** The keypad *)

(** How a key edits the entry while the system is not locked out.  [#]
    empties the entry.  A key other than [#] and [*] is appended while the
    entry has fewer than five characters and dropped otherwise; the
    time-out cannot fire in the pass of a key press.  A pass without a key
    empties a partial entry once more than 10000 ms lie between the last
    key and the current tick, and otherwise leaves the entry alone. *)
Theorem key_edits_entry (sk : Sketch) (key : ascii) (s : state) :
  systemLockedOut s = false ->
  let s' := handleKeypadInput sk key s in
  (key = "#"%char -> enteredPasscode s' = EmptyString)
  /\ (key <> Ascii.zero -> key <> "#"%char -> key <> "*"%char ->
      enteredPasscode s'
      = (if (String.length (enteredPasscode s) <? 5)%nat
         then (enteredPasscode s ++ String key EmptyString)%string
         else enteredPasscode s))
  /\ (key = Ascii.zero ->
      enteredPasscode s'
      = (if negb (String.eqb (enteredPasscode s) EmptyString)
            && (KEYPAD_TIMEOUT <? usub (now s) (lastKeypadActivity s))
         then EmptyString else enteredPasscode s)).
Proof.
  intros L. cbv zeta.
  assert (T : forall x, lastKeypadActivity x = now x ->
                        enteredPasscode (autoClear x) = enteredPasscode x).
  { intros x E. unfold autoClear. rewrite E, usub_self.
    change (KEYPAD_TIMEOUT <? 0) with false. rewrite andb_false_r.
    reflexivity. }
  split; [|split].
  - intros ->. unfold handleKeypadInput. cbv zeta.
    change (Ascii.eqb "#" Ascii.zero) with false.
    change (Ascii.eqb "#" "#") with true. cbv iota.
    set (s1 := say (SerialKey "#") _).
    assert (L1 : systemLockedOut s1 = false) by exact L.
    rewrite L1. rewrite T; reflexivity.
  - intros K0 K1 K2. unfold handleKeypadInput. cbv zeta.
    apply Ascii.eqb_neq in K0, K1, K2. rewrite K0, K1, K2.
    set (s1 := say (SerialKey key) _).
    assert (L1 : systemLockedOut s1 = false) by exact L.
    assert (E1 : enteredPasscode s1 = enteredPasscode s) by reflexivity.
    rewrite L1, E1. unfold MAX_PASSCODE_LENGTH.
    destruct (String.length (enteredPasscode s) <? 5)%nat eqn:N.
    + apply Nat.ltb_lt in N.
      assert (Z : (Z.of_nat (String.length (enteredPasscode s)) <? 6 - 1)
                  = true) by (apply Z.ltb_lt; lia).
      rewrite Z. rewrite T; [|reflexivity]. reflexivity.
    + apply Nat.ltb_ge in N.
      assert (Z : (Z.of_nat (String.length (enteredPasscode s)) <? 6 - 1)
                  = false) by (apply Z.ltb_ge; lia).
      rewrite Z. rewrite T; [exact E1|reflexivity].
  - intros ->. unfold handleKeypadInput.
    change (Ascii.eqb Ascii.zero Ascii.zero) with true. cbv iota.
    unfold autoClear. destruct (_ && _); reflexivity.
Qed.

(** *** Alerts and the status LEDs *)

(** After the alert check and the LED update exactly one status LED is
    lit: the red one if any of the four alerts is raised, the green one
    otherwise.  Each of the four alerts is computed afresh from the stored
    readings, whatever it was before: the distance alert exactly for a
    distance below 20 and above 0, the water alert exactly above the level
    500, the temperature alert exactly above 30.0 or below 10.0, the
    humidity alert exactly above 80.0. *)
Theorem status_leds_show_alert (s : state) :
  let s' := updateStatusLEDs (checkAlertConditions s) in
  anyAlert s'
  = (distanceAlert s' || waterAlert s' || temperatureAlert s'
     || humidityAlert s')
  /\ waterAlert s' = (WATER_ALERT_THRESHOLD <? waterLevel s)
  /\ distanceAlert s'
     = (flt (distance s) (of_long 20) && flt (of_long 0) (distance s))
  /\ temperatureAlert s'
     = (flt (of_decimal 300 (-1)) (temperature s)
        || flt (temperature s) (of_decimal 100 (-1)))
  /\ humidityAlert s' = flt (of_decimal 800 (-1)) (humidity s)
  /\ pin_red s' = anyAlert s' /\ pin_green s' = negb (anyAlert s').
Proof.
  unfold updateStatusLEDs, checkAlertConditions. cbv zeta.
  repeat match goal with
         | |- context [if ?c then _ else _] =>
           lazymatch c with
           | context [if _ then _ else _] => fail
           | _ => destruct c eqn:?
           end
         end;
    repeat split;
    first [reflexivity | symmetry; assumption | assumption].
Qed.

(** *** The display rotation *)

Lemma rotate_once (sk : Sketch) (s : state) :
  lcdInitialized s = true -> sensorDataValid s = true ->
  0 <= currentDisplayScreen s < screens sk ->
  currentDisplayScreen (updateLCDDisplay sk s)
  = (currentDisplayScreen s + 1) mod screens sk
  /\ lcdInitialized (updateLCDDisplay sk s) = true
  /\ sensorDataValid (updateLCDDisplay sk s) = true.
Proof.
  intros L V R. unfold updateLCDDisplay. cbv zeta. rewrite L, V.
  cbn [negb orb].
  assert (E : forall x : state,
            currentDisplayScreen
              (say (SerialDisplayUpdated
                      (currentDisplayScreen
                         (set_currentDisplayScreen
                            (Z.rem (int (currentDisplayScreen x + 1))
                               (screens sk)) x)))
                 (set_currentDisplayScreen
                    (Z.rem (int (currentDisplayScreen x + 1)) (screens sk))
                    x))
            = Z.rem (int (currentDisplayScreen x + 1)) (screens sk))
    by reflexivity.
  assert (S : 0 < screens sk <= 4) by (destruct sk; simpl; lia).
  assert (M : Z.rem (int (currentDisplayScreen s + 1)) (screens sk)
              = (currentDisplayScreen s + 1) mod screens sk).
  { rewrite int_small by lia. apply Z.rem_mod_nonneg; lia. }
  rewrite <- M.
  repeat match goal with
         | |- context [if ?c then _ else _] => destruct c
         end; repeat split; try reflexivity; try assumption.
Qed.

(** With the LCD up and sensor data valid every update shows the next
    screen, and after as many updates as the sketch has screens (three in
    phase 4, four in phase 5) the rotation is back where it began; before
    the first sensor read an update changes nothing. *)
Theorem display_rotation_cycles (sk : Sketch) (s : state) :
  (lcdInitialized s = true -> sensorDataValid s = true ->
   0 <= currentDisplayScreen s < screens sk ->
   currentDisplayScreen (updateLCDDisplay sk s)
   = (currentDisplayScreen s + 1) mod screens sk
   /\ currentDisplayScreen
        (Nat.iter (Z.to_nat (screens sk)) (updateLCDDisplay sk) s)
      = currentDisplayScreen s)
  /\ (sensorDataValid s = false -> updateLCDDisplay sk s = s).
Proof.
  split.
  - intros L V R. destruct (rotate_once sk s L V R) as (R1 & L1 & V1).
    split; [exact R1|].
    assert (B : forall x : state, 0 <= currentDisplayScreen x < screens sk ->
                0 <= (currentDisplayScreen x + 1) mod screens sk
                < screens sk)
      by (intros; apply Z.mod_pos_bound; lia).
    set (f := updateLCDDisplay sk).
    assert (R1' : 0 <= currentDisplayScreen (f s) < screens sk)
      by (subst f; rewrite R1; apply B, R).
    destruct (rotate_once sk (f s) L1 V1 R1') as (R2 & L2 & V2).
    assert (R2' : 0 <= currentDisplayScreen (f (f s)) < screens sk)
      by (subst f; rewrite R2; apply B, R1').
    destruct (rotate_once sk (f (f s)) L2 V2 R2') as (R3 & L3 & V3).
    assert (R3' : 0 <= currentDisplayScreen (f (f (f s))) < screens sk)
      by (subst f; rewrite R3; apply B, R2').
    destruct (rotate_once sk (f (f (f s))) L3 V3 R3') as (R4 & _).
    fold f in R1, R2, R3, R4.
    destruct sk; simpl in *.
    + rewrite R3, R2, R1.
      assert (C : currentDisplayScreen s = 0 \/ currentDisplayScreen s = 1
                  \/ currentDisplayScreen s = 2) by lia.
      destruct C as [-> | [-> | ->]]; reflexivity.
    + rewrite R4, R3, R2, R1.
      assert (C : currentDisplayScreen s = 0 \/ currentDisplayScreen s = 1
                  \/ currentDisplayScreen s = 2
                  \/ currentDisplayScreen s = 3) by lia.
      destruct C as [-> | [-> | [-> | ->]]]; reflexivity.
  - intros V. unfold updateLCDDisplay. rewrite V, orb_true_r. reflexivity.
Qed.

(** *** The motor under the joystick and in automatic mode *)

Lemma map_joystick (d : Z) :
  200 < d <= 512 ->
  map d JOYSTICK_THRESHOLD 512 10 50 = (d - 200) * 40 / 312 + 10
  /\ 10 <= (d - 200) * 40 / 312 + 10 <= 50.
Proof.
  intros Hd. unfold map, JOYSTICK_THRESHOLD.
  assert (Q : 0 <= (d - 200) * 40 / 312 <= 40).
  { split; [apply Z.div_pos; lia|].
    apply Z.lt_succ_r. apply Z.div_lt_upper_bound; lia. }
  rewrite (long_small (d - 200)) by lia.
  change (long (50 - 10)) with 40. change (long (512 - 200)) with 312.
  rewrite (long_small ((d - 200) * 40)) by lia.
  rewrite Z.quot_div_nonneg by lia.
  rewrite long_small by lia. split; [reflexivity|lia].
Qed.

Lemma filter_steps (n : Z) (k : nat) (l : list Event) :
  filter is_step (repeat (StepperStep n) k ++ l)
  = repeat (StepperStep n) k ++ filter is_step l.
Proof. induction k as [|k IH]; simpl; [reflexivity|]. rewrite IH. reflexivity. Qed.

(** The joystick in manual mode, read in the range 0..1023 of the
    converter.  Within 200 counts of the centre 512 nothing happens.
    Beyond, the motor makes between 10 and 50 steps, growing with the
    deflection, clockwise for a reading above the centre and
    counter-clockwise below, the position counter follows, and the
    movement is over when the call returns. *)
Theorem joystick_moves_motor (s : state) :
  0 <= joystickX s <= 1023 -> motorMoving s = false ->
  - 2 ^ 15 <= currentMotorPosition s < 2 ^ 15 ->
  let d := Z.abs (joystickX s - JOYSTICK_CENTER) in
  let s' := manualMotorControl s in
  (d <= 200 -> s' = s)
  /\ (200 < d ->
      let steps := (d - 200) * 40 / 312 + 10 in
      let dir := if JOYSTICK_CENTER <? joystickX s then 1 else -1 in
      10 <= steps <= 50
      /\ filter is_step (log s')
         = repeat (StepperStep dir) (Z.to_nat steps) ++ filter is_step (log s)
      /\ currentMotorPosition s' = int (currentMotorPosition s + dir * steps)
      /\ motorMoving s' = false).
Proof.
  intros X M P. cbv zeta. unfold manualMotorControl, JOYSTICK_CENTER.
  cbv zeta. rewrite M. cbn [negb]. rewrite andb_true_r.
  rewrite (int_small (joystickX s - 512)) by lia.
  split.
  - intros D. assert (C : (JOYSTICK_THRESHOLD <? Z.abs (joystickX s - 512))
                          = false)
      by (apply Z.ltb_ge; unfold JOYSTICK_THRESHOLD; lia).
    rewrite C. reflexivity.
  - intros D. assert (C : (JOYSTICK_THRESHOLD <? Z.abs (joystickX s - 512))
                          = true)
      by (apply Z.ltb_lt; unfold JOYSTICK_THRESHOLD; lia).
    rewrite C.
    destruct (map_joystick (Z.abs (joystickX s - 512))) as (Mj & Mb);
      [lia|].
    rewrite Mj. rewrite int_small by lia.
    set (steps := (Z.abs (joystickX s - 512) - 200) * 40 / 312 + 10) in *.
    set (dir := if 512 <? joystickX s then 1 else -1).
    assert (T : turn dir = dir)
      by (subst dir; destruct (512 <? joystickX s); reflexivity).
    assert (Rd : - 2 ^ 15 <= dir < 2 ^ 15)
      by (subst dir; destruct (512 <? joystickX s); lia).
    pose proof (stepMotor_rule steps dir
                  (say (SerialManualMove dir steps) s) M ltac:(lia) Rd P)
      as R.
    cbv zeta in R. destruct R as (R1 & R2 & R3 & _).
    rewrite T in R1, R2.
    split; [exact Mb|]. split; [|split; [exact R1|exact R3]].
    exact R2.
Qed.

(** The automatic mode with no movement in progress: once 2000 ms or more
    lie between the stamp of the last movement and the current tick, the
    motor makes a quarter turn of 1024 steps clockwise, which keeps the
    processor for 1.124 s, and the stamp becomes the tick at which the
    movement began; before that nothing happens. *)
Theorem auto_quarter_turn (s : state) :
  motorMoving s = false ->
  - 2 ^ 15 <= currentMotorPosition s < 2 ^ 15 ->
  let s' := autoMotorMovement s in
  if AUTO_MOTOR_INTERVAL <=? usub (now s) (lastAutoMotorMove s) then
    currentMotorPosition s' = int (currentMotorPosition s + 1024)
    /\ filter is_step (log s')
       = repeat (StepperStep 1) 1024 ++ filter is_step (log s)
    /\ lastAutoMotorMove s' = now s
    /\ clock s' = clock s + 1124000
    /\ motorMoving s' = false
  else s' = s.
Proof.
  intros M P. cbv zeta. unfold autoMotorMovement. cbv zeta.
  rewrite M. cbn [negb]. rewrite andb_true_r.
  destruct (AUTO_MOTOR_INTERVAL <=? usub (now s) (lastAutoMotorMove s));
    [|reflexivity].
  pose proof (stepMotor_rule STEPS_PER_90_DEGREES 1 (say SerialAutoMove s)
                M ltac:(unfold STEPS_PER_90_DEGREES; lia) ltac:(lia) P) as R.
  cbv zeta in R. destruct R as (R1 & R2 & R3 & R4 & _).
  set (s1 := stepMotor STEPS_PER_90_DEGREES 1 (say SerialAutoMove s)) in *.
  assert (E : currentMotorPosition (set_lastAutoMotorMove (now s) s1)
              = currentMotorPosition s1
              /\ log (set_lastAutoMotorMove (now s) s1) = log s1
              /\ lastAutoMotorMove (set_lastAutoMotorMove (now s) s1) = now s
              /\ clock (set_lastAutoMotorMove (now s) s1) = clock s1
              /\ motorMoving (set_lastAutoMotorMove (now s) s1)
                 = motorMoving s1)
    by (open_state s1; fields; repeat split; reflexivity).
  destruct E as (E1 & E2 & E3 & E4 & E5).
  rewrite E1, E2, E3, E4, E5, R1, R2, R3, R4.
  change (accelerationSteps STEPS_PER_90_DEGREES) with 50.
  change (decelerationSteps STEPS_PER_90_DEGREES) with 50.
  change (constantSteps STEPS_PER_90_DEGREES) with 924.
  change (clock (say SerialAutoMove s)) with (clock s).
  change (currentMotorPosition (say SerialAutoMove s))
    with (currentMotorPosition s).
  change (turn 1 * STEPS_PER_90_DEGREES) with 1024.
  change (Z.to_nat STEPS_PER_90_DEGREES) with 1024%nat.
  repeat split; try reflexivity; try lia.
Qed.

End Functions.

(** Test runs with floats as thousandths. *)

Lemma keys_are_lost_during_startup_witness :
  security (loop Phase4 (Models.key_pass 250000 "7") (setup 0))
  = security (setup (F := Models.milli) 0).
Proof.
  apply (keys_are_lost_during_startup (F := Models.milli)). reflexivity.
Defined.

Lemma key_edits_entry_witness :
  enteredPasscode
    (handleKeypadInput (F := Models.milli) Phase4 "7" (setup 0))
  = "7"%string.
Proof.
  destruct (key_edits_entry (F := Models.milli) Phase4 "7" (setup 0)
              eq_refl) as (_ & K & _).
  rewrite K; [reflexivity|discriminate ..].
Defined.

Lemma display_rotation_cycles_witness :
  currentDisplayScreen
    (updateLCDDisplay Phase4
       (set_currentDisplayScreen 2
          (set_sensorDataValid true (setup (F := Models.milli) 0))))
  = 0.
Proof.
  destruct (display_rotation_cycles (F := Models.milli) Phase4
              (set_currentDisplayScreen 2
                 (set_sensorDataValid true (setup 0)))) as (R & _).
  destruct R as (R & _); [reflexivity|reflexivity|cbn; lia|].
  rewrite R. reflexivity.
Defined.

Lemma joystick_moves_motor_witness :
  currentMotorPosition
    (manualMotorControl
       (set_joystickX 1023 (setup (F := Models.milli) 0)))
  = 49.
Proof.
  destruct (joystick_moves_motor (F := Models.milli)
              (set_joystickX 1023 (setup 0))) as (_ & J).
  - cbn. lia.
  - reflexivity.
  - cbn. lia.
  - destruct J as (_ & _ & J & _); [cbn; lia|].
    rewrite J. vm_compute. reflexivity.
Defined.

Lemma auto_quarter_turn_witness :
  currentMotorPosition
    (autoMotorMovement
       (set_clock 5000000 (setup (F := Models.milli) 0)))
  = 1024.
Proof.
  pose proof (auto_quarter_turn (F := Models.milli)
                (set_clock 5000000 (setup 0)) eq_refl) as A.
  cbv zeta in A.
  change (AUTO_MOTOR_INTERVAL
          <=? usub (now (set_clock 5000000 (setup (F := Models.milli) 0)))
                (lastAutoMotorMove (set_clock 5000000 (setup 0))))
    with true in A.
  destruct A as (A & _); [cbn; lia|]. rewrite A. vm_compute. reflexivity.
Defined.

Lemma startup_blinks_in_step_witness :
  pin_green (run Phase4 [Models.key_pass 250000 Ascii.zero]
               (setup (F := Models.milli) 0)) = true
  /\ pin_red (run Phase4 [Models.key_pass 250000 Ascii.zero]
                (setup (F := Models.milli) 0)) = true.
Proof.
  destruct (startup_blinks_in_step (F := Models.milli) Phase4 0
              [Models.key_pass 250000 Ascii.zero]) as (_ & B).
  destruct B as (G & R); [vm_compute; reflexivity|].
  rewrite G, R. vm_compute. split; reflexivity.
Defined.

End SecurityRuns.
